(** * The mortality-prediction task controller

    A shallow embedding of [cyclops/tasks/mortality_prediction.py]: the class
    [MortalityPrediction] with its model registry, its two fit-state lists and
    the operations [add_model], [get_model], [train],
    [load_pretrained_model], [predict] and [evaluate].

    The controller is glue code over collaborators that live elsewhere (the
    wrapped models, the column transformer, the metric factory, the
    evaluation engine, [prepare_models] and [to_numpy]).  A collaborator is
    modelled by its reaction to a call: a function from the arguments of the
    call to a value or an exception.  Every theorem quantifies over all such
    reactions.  The controller's own effects are threaded through a small
    monad: the task object, an exception or a value, and the trace of the
    calls and log records the controller emits, in program order. *)

From Stdlib Require Import String List ZArith Bool Lia.
From stdpp Require Import base option list gmap strings.

Import ListNotations.
Local Open Scope string_scope.
Local Open Scope list_scope.

(** ** Python values *)

(** The values that travel in keyword arguments, split mappings and
    hyperparameter search spaces. *)
#[local] Set Warnings "-register-all".
Inductive value : Type :=
| VNone
| VBool (b : bool)
| VInt (z : Z)
| VStr (s : string)
| VList (l : list value).

(** A [dict] with string keys whose order plays no role. *)
Abbreviation dict := (gmap string value).
Abbreviation kwargs := (gmap string value).

(** [d.pop(key, default)]: the value removed and the dict that is left. *)
Definition dict_pop (key : string) (default : value) (d : dict) : value * dict :=
  (from_option id default (d !! key), delete key d).

(** Truth value of a dict: empty dicts are false. *)
Definition dict_truthy (d : dict) : bool := negb (Nat.eqb (size d) 0).

(** Truth value of an [Optional[dict]]. *)
Definition opt_dict_truthy (d : option dict) : bool :=
  match d with
  | Some d => dict_truthy d
  | None => false
  end.

(** Truth value of a string: the empty string is false. *)
Definition str_truthy (s : string) : bool :=
  match s with
  | EmptyString => false
  | String _ _ => true
  end.

(** Truth value of an [Optional[str]]. *)
Definition name_truthy (model_name : option string) : bool :=
  match model_name with
  | Some s => str_truthy s
  | None => false
  end.

(** [x in l] for a list of strings. *)
Definition str_in (x : string) (l : list string) : bool :=
  existsb (String.eqb x) l.

(** ** Insertion-ordered dicts

    The registry [self.models] is a Python dict whose first key is read by
    [get_model]: it is kept as an association list in insertion order. *)

Section OrderedDict.
Context {V : Type}.

Definition odict_keys (d : list (string * V)) : list string := map fst d.

Fixpoint odict_get (k : string) (d : list (string * V)) : option V :=
  match d with
  | [] => None
  | (k', v) :: d' => if String.eqb k k' then Some v else odict_get k d'
  end.

(** [d[k] = v]: an existing key keeps its place, a new key goes last. *)
Fixpoint odict_set (k : string) (v : V) (d : list (string * V))
  : list (string * V) :=
  match d with
  | [] => [(k, v)]
  | (k', v') :: d' =>
      if String.eqb k k' then (k', v) :: d' else (k', v') :: odict_set k v d'
  end.

(** [d.update(other)]. *)
Definition odict_update (d other : list (string * V)) : list (string * V) :=
  fold_left (fun acc kv => odict_set (fst kv) (snd kv) acc) other d.
End OrderedDict.

(** ** Data *)

(** A numpy array of one or two dimensions; [len] is the size of the first
    axis. *)
Inductive ndarray : Type :=
| Arr1 (xs : list Z)
| Arr2 (rows : list (list Z)).

Definition len (a : ndarray) : nat :=
  match a with
  | Arr1 xs => length xs
  | Arr2 rows => length rows
  end.

(** Raw tabular inputs: [np.ndarray], [pd.DataFrame], [pd.Series]. *)
Inductive tabular : Type :=
| NDArray (a : ndarray)
| DataFrame (columns : list string) (values : list (list Z))
| Series (values : list Z).

(** Hugging Face sources: a [Dataset] (named columns) or a [DatasetDict]
    (named splits of datasets). *)
Inductive hf_dataset : Type :=
| Dataset (columns : list (string * list Z))
| DatasetDict (splits : list (string * list (string * list Z))).

(** What [train] and [predict] receive, and what [predict] returns.
    [isinstance(X, (Dataset, DatasetDict))] is the test for [HF]. *)
Inductive data : Type :=
| Tabular (t : tabular)
| HF (d : hf_dataset).

(** ** Exceptions and log records *)

(** A message: fixed text, or text followed by the [repr] of a list of
    names (an f-string that interpolates [self.list_models()]). *)
Inductive message : Type :=
| Text (s : string)
| TextNames (s : string) (names : list string).

Inductive exception : Type :=
| ValueError (m : message)
| IndexError
| KeyError (key : string)
| AssertionError
| TypeError (m : message)
| NotFittedError (m : message)
| OtherError (cls : string) (m : message).

Inductive result (A : Type) : Type :=
| Ok (a : A)
| Raise (e : exception).
Arguments Ok {A} a.
Arguments Raise {A} e.

Inductive log_level : Type := INFO | WARNING | ERROR.

(** ** Collaborators *)

(** [sklearn.compose.ColumnTransformer]: the pipeline's reaction to
    [transform] and to [fit_transform]. *)
Record ColumnTransformer : Type := {
  transform : ndarray -> result ndarray;
  fit_transform : ndarray -> result ndarray
}.

(** The data a fit or a hyperparameter search is called on: the structured
    call passes the dataset with its column names, transform pipeline and
    split mapping as keywords; the raw call passes the two arrays. *)
Inductive fit_data : Type :=
| FitDataset (X : hf_dataset) (feature_columns target_columns : list string)
    (transforms : option ColumnTransformer) (splits_mapping : dict)
| FitArrays (X y : ndarray).

(** The data a prediction is called on. *)
Inductive predict_data : Type :=
| PredictDataset (dataset : hf_dataset) (feature_columns : list string)
    (transforms : option ColumnTransformer) (model_name : string)
    (splits_mapping : dict)
| PredictArray (X : ndarray).

(** [WrappedModel]: whether the handle is an [SKModel], and its reaction to
    each operation the controller calls. *)
Record WrappedModel : Type := {
  is_SKModel : bool;
  fit : fit_data -> kwargs -> result unit;
  find_best : dict -> fit_data -> value -> value -> kwargs -> result unit;
  load_model : string -> kwargs -> result unit;
  model_predict : predict_data -> kwargs -> result data;
  model_predict_proba : predict_data -> kwargs -> result data
}.

(** A metric object built by the metric factory. *)
Record Metric : Type := {
  metric_name : string;
  metric_task : string;
  metric_num_labels : nat
}.

(** The [metrics] argument of [evaluate]: a list of names or a
    [MetricCollection] object. *)
Record MetricCollection : Type := {
  collected : list Metric
}.

Inductive metrics_arg : Type :=
| MetricNames (names : list string)
| Metrics (collection : MetricCollection).

(** [Union[str, List[str]]]. *)
Inductive str_or_list : Type :=
| OneStr (s : string)
| StrList (l : list string).

(** The [models] argument of the constructor and of [add_model]. *)
Inductive model_spec : Type :=
| ModelName (s : string)
| ModelHandle (m : WrappedModel)
| ModelSeq (l : list (string + WrappedModel))
| ModelDict (d : list (string * WrappedModel)).

(** The arguments of the evaluation engine's [evaluate]. *)
Record engine_args : Type := {
  ea_dataset : data;
  ea_metrics : metrics_arg;
  ea_target_columns : list string;
  ea_slice_spec : option (list dict);
  ea_prediction_column_prefix : string;
  ea_batch_size : Z;
  ea_remove_columns : option str_or_list
}.

(** The functions the module imports from the rest of the package. *)
Record World : Type := {
  prepare_models :
    model_spec -> option string -> result (list (string * WrappedModel));
  to_numpy : tabular -> result ndarray;
  create_metric : string -> string -> nat -> result Metric;
  new_MetricCollection : list Metric -> result MetricCollection;
  engine_evaluate : engine_args -> result dict
}.

(** ** The task object *)

Record Task : Type := {
  models : list (string * WrappedModel);
  task_features : list string;
  task_target : list string;
  trained_models : list string;
  pretrained_models : list string
}.

(** ** What the controller does that the outside can see *)

Inductive event : Type :=
| Log (level : log_level) (m : message)
| CallPrepareModels (model : model_spec) (config_path : option string)
| CallToNumpy (t : tabular)
| CallTransform (X : ndarray)
| CallFitTransform (X : ndarray)
| CallFit (name : string) (d : fit_data) (kw : kwargs)
| CallFindBest (name : string) (parameters : dict) (d : fit_data)
    (metric method : value) (kw : kwargs)
| CallLoadModel (name : string) (filepath : string) (kw : kwargs)
| CallPredict (name : string) (d : predict_data) (kw : kwargs)
| CallPredictProba (name : string) (d : predict_data) (kw : kwargs)
| CallCreateMetric (name task : string) (num_labels : nat)
| CallMetricCollection (metrics : list Metric)
| CallEvaluate (args : engine_args).

(** ** The controller monad *)

Record outcome (A : Type) : Type := Outcome {
  returned : result A;
  self_after : Task;
  trace : list event
}.
Arguments Outcome {A} returned self_after trace.
Arguments returned {A} o.
Arguments self_after {A} o.
Arguments trace {A} o.

Definition M (A : Type) : Type := Task -> outcome A.

Definition ret {A} (a : A) : M A := fun self => Outcome (Ok a) self [].

Definition raise {A} (e : exception) : M A := fun self => Outcome (Raise e) self [].

(** What was emitted before [o] is put in front of its trace. *)
Definition after {A} (t : list event) (o : outcome A) : outcome A :=
  match o with
  | Outcome r self' t' => Outcome r self' (t ++ t')
  end.

Definition bind {A B} (m : M A) (k : A -> M B) : M B :=
  fun self =>
    match m self with
    | Outcome (Ok a) self' t => after t (k a self')
    | Outcome (Raise e) self' t => Outcome (Raise e) self' t
    end.

Notation "x <- m ;; k" := (bind m (fun x => k))
  (at level 100, m at next level, right associativity).
Notation "m ;;; k" := (bind m (fun _ => k))
  (at level 100, right associativity).

Definition get_self : M Task := fun self => Outcome (Ok self) self [].

Definition put_self (self' : Task) : M unit := fun _ => Outcome (Ok tt) self' [].

Definition emit (ev : event) : M unit := fun self => Outcome (Ok tt) self [ev].

(** A call to a collaborator: the call is recorded, then its reaction is
    the value of the call or the exception it raises. *)
Definition call {A} (ev : event) (reaction : result A) : M A :=
  fun self => Outcome reaction self [ev].

(** [try: m  except NotFittedError: handler]. *)
Definition except_NotFittedError {A} (m : M A) (handler : M A) : M A :=
  fun self =>
    match m self with
    | Outcome (Raise (NotFittedError _)) self' t => after t (handler self')
    | o => o
    end.

(** [f(k1=..., ..., **kwargs)]: Python refuses the call with a [TypeError]
    when [kwargs] repeats one of the keywords written at the call site. *)
Definition check_keywords (written : list string) (kw : kwargs) : M unit :=
  match List.filter (fun k => bool_decide (is_Some (kw !! k))) written with
  | [] => ret tt
  | k :: _ =>
      raise (TypeError (Text ("got multiple values for keyword argument '" ++ k ++ "'")))
  end.

(** [if b: m]. *)
Definition when (b : bool) (m : M unit) : M unit := if b then m else ret tt.

(** [for x in l: acc = body(acc, x)]. *)
Fixpoint for_each {A B} (l : list A) (acc : B) (body : B -> A -> M B) : M B :=
  match l with
  | [] => ret acc
  | x :: l' => acc' <- body acc x ;; for_each l' acc' body
  end.

(** [[f(x) for x in l]]. *)
Fixpoint comprehension {A B} (f : A -> M B) (l : list A) : M (list B) :=
  match l with
  | [] => ret []
  | x :: l' => y <- f x ;; ys <- comprehension f l' ;; ret (y :: ys)
  end.

(** ** Message texts *)

(** A run of blanks: a backslash-newline inside a string literal keeps the
    indentation of the line that follows. *)
Fixpoint spaces (n : nat) : string :=
  match n with
  | O => EmptyString
  | S n' => " " ++ spaces n'
  end.

Definition msg_specify_model (names : list string) : message :=
  TextNames "Please specify a model from " names.

Definition msg_does_not_exist (model_name : string) : message :=
  Text ("The model " ++ model_name ++ " does not exist. "
        ++ "You can add the model using Task.add_model()").

Definition msg_missing_labels : message :=
  Text ("Missing data labels 'y'. Please provide the labels for " ++ spaces 20
        ++ "the training data when not using a Hugging Face dataset " ++ spaces 20
        ++ "as the input.").

Definition msg_not_fitted (indent : nat) : message :=
  Text ("It seems you have neither trained the model nor " ++ spaces indent
        ++ "loaded a pretrained model.").

Definition msg_add_failed : message :=
  Text "Failed to add the model. A model with same name already exists.".

Definition msg_added (names : list string) : message :=
  Text (String.concat ", " names ++ " is added to task models.").

Definition msg_fitting_preprocessor : message :=
  Text "Fitting preprocessor on evaluation dataset.".

(** ** The class [MortalityPrediction] *)

Definition with_models (self : Task) (ms : list (string * WrappedModel)) : Task :=
  {| models := ms;
     task_features := task_features self;
     task_target := task_target self;
     trained_models := trained_models self;
     pretrained_models := pretrained_models self |}.

Definition with_trained (self : Task) (names : list string) : Task :=
  {| models := models self;
     task_features := task_features self;
     task_target := task_target self;
     trained_models := names;
     pretrained_models := pretrained_models self |}.

Definition with_pretrained (self : Task) (names : list string) : Task :=
  {| models := models self;
     task_features := task_features self;
     task_target := task_target self;
     trained_models := trained_models self;
     pretrained_models := names |}.

Definition task_type : string := "binary".

Definition data_type : string := "tabular".

Definition models_count (self : Task) : nat := length (models self).

Definition list_models (self : Task) : list string := odict_keys (models self).

(** The names in [pretrained_models + trained_models]. *)
Definition fitted_names (self : Task) : list string :=
  pretrained_models self ++ trained_models self.

Section Controller.
Variable W : World.

(** [__init__], after [prepare_models] has built the registry. *)
Definition init (models : list (string * WrappedModel))
    (task_features task_target : list string) : Task :=
  {| models := models;
     task_features := task_features;
     task_target := task_target;
     trained_models := [];
     pretrained_models := [] |}.

Definition add_model (model : model_spec) (model_config_path : option string)
  : M unit :=
  model_dict <- call (CallPrepareModels model model_config_path)
                     (prepare_models W model model_config_path) ;;
  self <- get_self ;;
  if forallb (fun k => str_in k (list_models self)) (odict_keys model_dict)
  then emit (Log ERROR msg_add_failed)
  else
    put_self (with_models self (odict_update (models self) model_dict)) ;;;
    emit (Log INFO (msg_added (odict_keys model_dict))).

Definition get_model (model_name : option string) : M (string * WrappedModel) :=
  self <- get_self ;;
  when ((1 <? models_count self)%nat && negb (name_truthy model_name))
       (raise (ValueError (msg_specify_model (list_models self)))) ;;;
  match model_name with
  | Some s =>
      when (str_truthy s && negb (str_in s (list_models self)))
           (raise (ValueError (msg_does_not_exist s)))
  | None => ret tt
  end ;;;
  model_name <-
    (if name_truthy model_name
     then ret (default EmptyString model_name)
     else match list_models self with
          | first :: _ => ret first
          | [] => raise IndexError
          end) ;;
  model <-
    match odict_get model_name (models self) with
    | Some model => ret model
    | None => raise (KeyError model_name)
    end ;;
  ret (model_name, model).

(** The two ways [train] hands the data to the handle: hyperparameter
    search when [best_model_params] is a non-empty dict, plain fit
    otherwise.  [written] lists the keywords spelled out at the call
    site, next to [**kwargs]. *)
Definition fit_or_search (model_name : string) (model : WrappedModel)
    (best_model_params : option dict) (d : fit_data)
    (written_search written_fit : list string) (kw : kwargs) : M unit :=
  if opt_dict_truthy best_model_params then
    let best_model_params := default ∅ best_model_params in
    let '(metric, best_model_params) := dict_pop "metric" VNone best_model_params in
    let '(method, best_model_params) :=
      dict_pop "method" (VStr "grid") best_model_params in
    check_keywords written_search kw ;;;
    call (CallFindBest model_name best_model_params d metric method kw)
         (find_best model best_model_params d metric method kw)
  else
    check_keywords written_fit kw ;;;
    call (CallFit model_name d kw) (fit model d kw).

(** [try: X = transforms.transform(X)
     except NotFittedError: X = transforms.fit_transform(X)],
    with the statements [before_refit] run first in the handler. *)
Definition apply_transforms (transforms : option ColumnTransformer)
    (before_refit : M unit) (X : ndarray) : M ndarray :=
  match transforms with
  | Some t =>
      except_NotFittedError
        (call (CallTransform X) (transform t X))
        (before_refit ;;; call (CallFitTransform X) (fit_transform t X))
  | None => ret X
  end.

(** The middle of [train]: the branch on the kind of source, down to the
    call that fits the resolved handle or searches its hyperparameters. *)
Definition train_on (model_name : string) (model : WrappedModel) (X : data)
    (y : option tabular) (transforms : option ColumnTransformer)
    (best_model_params : option dict) (splits_mapping : dict) (kw : kwargs)
  : M unit :=
  self <- get_self ;;
  match X with
  | HF X =>
      fit_or_search model_name model best_model_params
        (FitDataset X (task_features self) (task_target self) transforms
           splits_mapping)
        ["feature_columns"; "target_columns"; "transforms"; "metric";
         "method"; "splits_mapping"]
        ["feature_columns"; "target_columns"; "transforms"; "splits_mapping"]
        kw
  | Tabular X =>
      match y with
      | None => raise (ValueError msg_missing_labels)
      | Some y =>
          X <- call (CallToNumpy X) (to_numpy W X) ;;
          X <- apply_transforms transforms (ret tt) X ;;
          y <- call (CallToNumpy y) (to_numpy W y) ;;
          when (negb (len X =? len y)%nat) (raise AssertionError) ;;;
          fit_or_search model_name model best_model_params (FitArrays X y)
            ["y"; "metric"; "method"] [] kw
      end
  end.

Definition train (X : data) (y : option tabular) (model_name : option string)
    (transforms : option ColumnTransformer) (best_model_params : option dict)
    (splits_mapping : dict) (kw : kwargs) : M WrappedModel :=
  resolved <- get_model model_name ;;
  let '(model_name, model) := resolved in
  train_on model_name model X y transforms best_model_params splits_mapping kw ;;;
  self <- get_self ;;
  put_self (with_trained self (trained_models self ++ [model_name])) ;;;
  ret model.

Definition load_pretrained_model (filepath : string)
    (model_name : option string) (kw : kwargs) : M WrappedModel :=
  resolved <- get_model model_name ;;
  let '(model_name, model) := resolved in
  call (CallLoadModel model_name filepath kw) (load_model model filepath kw) ;;;
  self <- get_self ;;
  put_self (with_pretrained self (pretrained_models self ++ [model_name])) ;;;
  ret model.

(** The end of [predict]: the branch on the kind of source, down to the
    call that asks the resolved, fitted handle for its predictions. *)
Definition predict_on (model_name : string) (model : WrappedModel)
    (dataset : data) (transforms : option ColumnTransformer) (proba : bool)
    (splits_mapping : dict) (kw : kwargs) : M data :=
  self <- get_self ;;
  match dataset with
  | HF dataset =>
      let d := PredictDataset dataset (task_features self) transforms
                 model_name splits_mapping in
      check_keywords
        ["feature_columns"; "transforms"; "model_name"; "splits_mapping"] kw ;;;
      if proba && is_SKModel model
      then call (CallPredictProba model_name d kw) (model_predict_proba model d kw)
      else call (CallPredict model_name d kw) (model_predict model d kw)
  | Tabular dataset =>
      dataset <- call (CallToNumpy dataset) (to_numpy W dataset) ;;
      dataset <- apply_transforms transforms
                   (emit (Log WARNING msg_fitting_preprocessor)) dataset ;;
      let d := PredictArray dataset in
      if proba && is_SKModel model
      then call (CallPredictProba model_name d kw) (model_predict_proba model d kw)
      else call (CallPredict model_name d kw) (model_predict model d kw)
  end.

Definition predict (dataset : data) (model_name : option string)
    (transforms : option ColumnTransformer) (proba : bool)
    (splits_mapping : dict) (kw : kwargs) : M data :=
  resolved <- get_model model_name ;;
  let '(model_name, model) := resolved in
  self <- get_self ;;
  when (negb (str_in model_name (fitted_names self)))
       (raise (NotFittedError (msg_not_fitted 16))) ;;;
  predict_on model_name model dataset transforms proba splits_mapping kw.

(** The keyword arguments [evaluate] adds to its [predict] calls. *)
Definition evaluate_kwargs (prediction_column_prefix : string) : kwargs :=
  <["only_predictions" := VBool false]>
    {["prediction_column_prefix" := VStr prediction_column_prefix]}.

(** The metrics handed to the engine: a non-empty list of names is built
    into a collection, anything else goes through as it is. *)
Definition build_metrics (metrics : metrics_arg) : M metrics_arg :=
  self <- get_self ;;
  match metrics with
  | MetricNames ((_ :: _) as names) =>
      built <- comprehension
                 (fun m =>
                    call (CallCreateMetric m task_type (length (task_features self)))
                         (create_metric W m task_type (length (task_features self))))
                 names ;;
      collection <- call (CallMetricCollection built)
                         (new_MetricCollection W built) ;;
      ret (Metrics collection)
  | _ => ret metrics
  end.

(** The names [evaluate] loops over: a single string becomes a
    one-element list; [None] and the empty list stand for every fitted
    model. *)
Definition evaluated_names (self : Task) (model_names : option str_or_list)
  : list string :=
  match model_names with
  | Some (OneStr s) => [s]
  | Some (StrList ((_ :: _) as l)) => l
  | _ => fitted_names self
  end.

(** The body of the loop of [evaluate]. *)
Definition evaluate_model (transforms : option ColumnTransformer)
    (prediction_column_prefix : string) (splits_mapping : dict)
    (dataset : data) (model_name : string) : M data :=
  self <- get_self ;;
  when (negb (str_in model_name (fitted_names self)))
       (emit (Log WARNING (msg_not_fitted 20))) ;;;
  predict dataset (Some model_name) transforms true splits_mapping
    (evaluate_kwargs prediction_column_prefix).

Definition evaluate (dataset : data) (metrics : metrics_arg)
    (model_names : option str_or_list) (transforms : option ColumnTransformer)
    (prediction_column_prefix : string) (splits_mapping : dict)
    (slice_spec : option (list dict)) (batch_size : Z)
    (remove_columns : option str_or_list) : M (dict * data) :=
  metrics <- build_metrics metrics ;;
  self <- get_self ;;
  dataset <-
    for_each (evaluated_names self model_names) dataset
      (evaluate_model transforms prediction_column_prefix splits_mapping) ;;
  self <- get_self ;;
  let args :=
    {| ea_dataset := dataset;
       ea_metrics := metrics;
       ea_target_columns := task_target self;
       ea_slice_spec := slice_spec;
       ea_prediction_column_prefix := prediction_column_prefix;
       ea_batch_size := batch_size;
       ea_remove_columns := remove_columns |} in
  results <- call (CallEvaluate args) (engine_evaluate W args) ;;
  ret (results, dataset).
End Controller.

(** ** The caller's search space

    [best_model_params] is a dict the caller owns: [train] gets a reference
    to it, and [best_model_params.pop] changes the caller's object in
    place.  To see that effect, the part of [train] that handles the dict
    is written once more with the object threaded as a second piece of
    state: a computation of [R A] starts from the dict as the caller passed
    it and ends with an outcome and the dict as the controller leaves it. *)

Definition R (A : Type) : Type :=
  option dict -> Task -> outcome A * option dict.

Definition after_ref {A} (t : list event) (r : outcome A * option dict)
  : outcome A * option dict :=
  (after t (fst r), snd r).

(** Code of [M], which does not touch the dict. *)
Definition lift {A} (m : M A) : R A := fun params self => (m self, params).

Definition bindR {A B} (m : R A) (k : A -> R B) : R B :=
  fun params self =>
    match m params self with
    | (Outcome (Ok a) self' t, params') => after_ref t (k a params' self')
    | (Outcome (Raise e) self' t, params') => (Outcome (Raise e) self' t, params')
    end.

Notation "x <~ m ;; k" := (bindR m (fun x => k))
  (at level 100, m at next level, right associativity).

(** Reading the variable [best_model_params]. *)
Definition get_params : R (option dict) :=
  fun params self => (Outcome (Ok params) self [], params).

(** [best_model_params.pop(key, dflt)]: the dict loses the key. *)
Definition pop_param (key : string) (dflt : value) : R value :=
  fun params self =>
    let '(v, rest) := dict_pop key dflt (default ∅ params) in
    (Outcome (Ok v) self [], Some rest).

Section CallerDict.
Variable W : World.

(** [fit_or_search], reading and popping the caller's dict. *)
Definition fit_or_search_ref (model_name : string) (model : WrappedModel)
    (d : fit_data) (written_search written_fit : list string) (kw : kwargs)
  : R unit :=
  best_model_params <~ get_params ;;
  if opt_dict_truthy best_model_params then
    metric <~ pop_param "metric" VNone ;;
    method <~ pop_param "method" (VStr "grid") ;;
    best_model_params <~ get_params ;;
    _ <~ lift (check_keywords written_search kw) ;;
    lift (call (CallFindBest model_name (default ∅ best_model_params) d metric
                  method kw)
               (find_best model (default ∅ best_model_params) d metric method kw))
  else
    _ <~ lift (check_keywords written_fit kw) ;;
    lift (call (CallFit model_name d kw) (fit model d kw)).

(** [train_on], with the caller's dict. *)
Definition train_on_ref (model_name : string) (model : WrappedModel) (X : data)
    (y : option tabular) (transforms : option ColumnTransformer)
    (splits_mapping : dict) (kw : kwargs) : R unit :=
  self <~ lift get_self ;;
  match X with
  | HF X =>
      fit_or_search_ref model_name model
        (FitDataset X (task_features self) (task_target self) transforms
           splits_mapping)
        ["feature_columns"; "target_columns"; "transforms"; "metric";
         "method"; "splits_mapping"]
        ["feature_columns"; "target_columns"; "transforms"; "splits_mapping"]
        kw
  | Tabular X =>
      match y with
      | None => lift (raise (ValueError msg_missing_labels))
      | Some y =>
          X <~ lift (call (CallToNumpy X) (to_numpy W X)) ;;
          X <~ lift (apply_transforms transforms (ret tt) X) ;;
          y <~ lift (call (CallToNumpy y) (to_numpy W y)) ;;
          _ <~ lift (when (negb (len X =? len y)%nat) (raise AssertionError)) ;;
          fit_or_search_ref model_name model (FitArrays X y)
            ["y"; "metric"; "method"] [] kw
      end
  end.

(** [train], with the caller's dict: started from [best_model_params] as
    passed, it gives the outcome of [train] and the dict as left. *)
Definition train_ref (X : data) (y : option tabular) (model_name : option string)
    (transforms : option ColumnTransformer) (splits_mapping : dict) (kw : kwargs)
  : R WrappedModel :=
  resolved <~ lift (get_model model_name) ;;
  let '(model_name, model) := resolved in
  _ <~ train_on_ref model_name model X y transforms splits_mapping kw ;;
  self <~ lift get_self ;;
  _ <~ lift (put_self (with_trained self (trained_models self ++ [model_name]))) ;;
  lift (ret model).
End CallerDict.

(** The dict after the two pops of the search branch; an empty or missing
    dict is not touched. *)
Definition popped (best_model_params : option dict) : option dict :=
  if opt_dict_truthy best_model_params
  then Some (delete "method" (delete "metric" (default ∅ best_model_params)))
  else best_model_params.

(** ** Fixtures

    Concrete collaborators and task objects, used to run the controller on
    explicit inputs. *)
Module Fixtures.

(** A handle whose operations all succeed: predictions on arrays are one
    zero per row, predictions on a dataset give the dataset back. *)
Definition handle (sk : bool) : WrappedModel :=
  {| is_SKModel := sk;
     fit := fun _ _ => Ok tt;
     find_best := fun _ _ _ _ _ => Ok tt;
     load_model := fun _ _ => Ok tt;
     model_predict := fun d _ =>
       match d with
       | PredictDataset ds _ _ _ _ => Ok (HF ds)
       | PredictArray X => Ok (Tabular (NDArray (Arr1 (repeat 0%Z (len X)))))
       end;
     model_predict_proba := fun d _ =>
       match d with
       | PredictDataset ds _ _ _ _ => Ok (HF ds)
       | PredictArray X => Ok (Tabular (NDArray (Arr1 (repeat 1%Z (len X)))))
       end |}.

(** A pipeline that has not been fitted: [transform] raises
    [NotFittedError], [fit_transform] returns the array as it is. *)
Definition unfitted_pipeline : ColumnTransformer :=
  {| transform := fun _ =>
       Raise (NotFittedError (Text "This ColumnTransformer instance is not fitted yet."));
     fit_transform := fun X => Ok X |}.

Definition world : World :=
  {| prepare_models := fun model _ =>
       match model with
       | ModelDict d => Ok d
       | _ => Raise (OtherError "NotImplementedError" (Text "fixture"))
       end;
     to_numpy := fun t =>
       match t with
       | NDArray a => Ok a
       | DataFrame _ values => Ok (Arr2 values)
       | Series values => Ok (Arr1 values)
       end;
     create_metric := fun name task num_labels =>
       Ok {| metric_name := name;
             metric_task := task;
             metric_num_labels := num_labels |};
     new_MetricCollection := fun ms => Ok {| collected := ms |};
     engine_evaluate := fun _ => Ok ∅ |}.

Definition features : list string :=
  ["age"; "sex"; "admission_type"; "admission_location"].

Definition target : list string := ["outcome_death"].

(** One registered model, nothing trained or loaded. *)
Definition one_model : Task := init [("lr", handle true)] features target.

(** Two registered models, nothing trained or loaded. *)
Definition two_models : Task :=
  init [("lr", handle true); ("mlp", handle false)] features target.

(** An empty registry. *)
Definition no_model : Task := init [] features target.

(** Two registered models, both trained. *)
Definition two_trained : Task := with_trained two_models ["lr"; "mlp"].

Definition X3 : tabular := NDArray (Arr2 [[1; 0]; [0; 1]; [1; 1]]%Z).

Definition y3 : tabular := NDArray (Arr1 [0; 1; 1]%Z).

Definition y2 : tabular := NDArray (Arr1 [0; 1]%Z).

Definition test_hf : hf_dataset :=
  DatasetDict [("test", [("age", [61; 47]%Z); ("outcome_death", [0; 1]%Z)])].

Definition test_set : data := HF test_hf.

Definition train_splits : dict :=
  <["validation" := VStr "validation"]> {["train" := VStr "train"]}.

Definition test_splits : dict := {["test" := VStr "test"]}.

Definition search_space : dict :=
  <["method" := VStr "random"]> (<["metric" := VStr "accuracy"]>
    {["C" := VList [VInt 1; VInt 10]]}).

Definition search_space_no_method : dict := {["C" := VList [VInt 1; VInt 10]]}.

(** A dict for [add_model]: the name ["lr"] is registered in
    [one_model], the name ["rf"] is not. *)
Definition colliding : list (string * WrappedModel) :=
  [("lr", handle false); ("rf", handle true)].

(** A dict for [add_model] with one name, new to [one_model]. *)
Definition newcomer : list (string * WrappedModel) := [("rf", handle false)].

(** A pipeline whose [transform] fails for a reason of its own. *)
Definition broken_pipeline : ColumnTransformer :=
  {| transform := fun _ => Raise (ValueError (Text "could not convert string to float"));
     fit_transform := fun X => Ok X |}.

(** One registered model, trained. *)
Definition one_trained : Task := with_trained one_model ["lr"].
End Fixtures.

(** A handle whose hyperparameter search fails, and a task that holds it. *)
Module SearchFixtures.

Definition search_error : exception :=
  ValueError (Text "Invalid parameter C for estimator LogisticRegression").

Definition failing_search : WrappedModel :=
  {| is_SKModel := true;
     fit := fun _ _ => Ok tt;
     find_best := fun _ _ _ _ _ => Raise search_error;
     load_model := fun _ _ => Ok tt;
     model_predict := model_predict (Fixtures.handle true);
     model_predict_proba := model_predict_proba (Fixtures.handle true) |}.

Definition one_failing : Task :=
  init [("lr", failing_search)] Fixtures.features Fixtures.target.
End SearchFixtures.

(** ** Events of interest *)

Definition is_warning (ev : event) : bool :=
  match ev with
  | Log WARNING _ => true
  | _ => false
  end.

Definition is_fit_call (ev : event) : bool :=
  match ev with
  | CallFit _ _ _ => true
  | _ => false
  end.

Definition is_search_call (ev : event) : bool :=
  match ev with
  | CallFindBest _ _ _ _ _ _ => true
  | _ => false
  end.

Definition is_prediction_call (ev : event) : bool :=
  match ev with
  | CallPredict _ _ _ | CallPredictProba _ _ _ => true
  | _ => false
  end.

Definition is_engine_call (ev : event) : bool :=
  match ev with
  | CallEvaluate _ => true
  | _ => false
  end.

Definition is_predict_proba_call (ev : event) : bool :=
  match ev with
  | CallPredictProba _ _ _ => true
  | _ => false
  end.

Definition is_plain_predict_call (ev : event) : bool :=
  match ev with
  | CallPredict _ _ _ => true
  | _ => false
  end.

(** The warning [evaluate] logs for a name that was neither trained nor
    loaded. *)
Definition is_not_fitted_warning (ev : event) : bool :=
  match ev with
  | Log WARNING (Text s) =>
      match msg_not_fitted 20 with
      | Text s' => String.eqb s s'
      | TextNames _ _ => false
      end
  | _ => false
  end.

(** No event of the trace satisfies [p]. *)
Definition never (p : event -> bool) (t : list event) : Prop :=
  existsb p t = false.

(** Every name recorded as trained or loaded is a key of the registry. *)
Definition fitted_registered (self : Task) : Prop :=
  forall n, In n (fitted_names self) -> In n (list_models self).

(** Code that leaves the task object as it found it. *)
Definition keeps_self {A} (m : M A) : Prop :=
  forall self, self_after (m self) = self.

(** Code that emits no event satisfying [p]. *)
Definition quiet {A} (p : event -> bool) (m : M A) : Prop :=
  forall self, never p (trace (m self)).

(** ** Basic facts *)

Lemma never_app p t1 t2 : never p t1 -> never p t2 -> never p (t1 ++ t2).
Proof.
  unfold never. intros H1 H2. rewrite existsb_app, H1, H2. reflexivity.
Qed.

Lemma str_in_app x l1 l2 : str_in x (l1 ++ l2) = str_in x l1 || str_in x l2.
Proof. unfold str_in. apply existsb_app. Qed.

Lemma odict_get_known {V} k (d : list (string * V)) :
  str_in k (odict_keys d) = true -> exists v, odict_get k d = Some v.
Proof.
  unfold str_in, odict_keys.
  induction d as [| [k' v'] d IH]; simpl.
  - discriminate.
  - destruct (String.eqb k k'); simpl.
    + intros _. eauto.
    + exact IH.
Qed.

(** [get_model] reads the task object: it changes nothing and emits
    nothing. *)
Lemma get_model_pure model_name self :
  get_model model_name self
  = Outcome (returned (get_model model_name self)) self [].
Proof.
  unfold get_model, bind, when, get_self, raise, ret; simpl.
  destruct ((1 <? models_count self)%nat && negb (name_truthy model_name));
    simpl; [reflexivity |].
  destruct model_name as [s |]; simpl.
  - destruct (str_truthy s && negb (str_in s (list_models self))); simpl;
      [reflexivity |].
    destruct (str_truthy s); simpl.
    + destruct (odict_get s (models self)); reflexivity.
    + destruct (list_models self) as [| first rest]; simpl; [reflexivity |].
      destruct (odict_get first (models self)); reflexivity.
  - destruct (list_models self) as [| first rest]; simpl; [reflexivity |].
    destruct (odict_get first (models self)); reflexivity.
Qed.

(** A name that [get_model] resolves is a key of the registry, bound to
    the handle returned. *)
Lemma get_model_resolved model_name self name model :
  returned (get_model model_name self) = Ok (name, model) ->
  odict_get name (models self) = Some model.
Proof.
  unfold get_model, bind, when, get_self, raise, ret; simpl.
  destruct ((1 <? models_count self)%nat && negb (name_truthy model_name));
    simpl; [discriminate |].
  destruct model_name as [s |]; simpl.
  - destruct (str_truthy s && negb (str_in s (list_models self))); simpl;
      [discriminate |].
    destruct (str_truthy s); simpl.
    + destruct (odict_get s (models self)) eqn:E; simpl; congruence.
    + destruct (list_models self) as [| first rest]; simpl; [discriminate |].
      destruct (odict_get first (models self)) eqn:E; simpl; congruence.
  - destruct (list_models self) as [| first rest]; simpl; [discriminate |].
    destruct (odict_get first (models self)) eqn:E; simpl; congruence.
Qed.

(** A non-empty name that is a key of the registry resolves to itself. *)
Lemma get_model_known s self :
  str_truthy s = true ->
  str_in s (list_models self) = true ->
  exists model,
    odict_get s (models self) = Some model /\
    get_model (Some s) self = Outcome (Ok (s, model)) self [].
Proof.
  intros Hs Hin.
  destruct (odict_get_known s (models self) Hin) as [model Hget].
  exists model. split; [assumption |].
  unfold get_model, bind, when, get_self, raise, ret; simpl.
  rewrite Hs, Hin, andb_false_r. simpl. rewrite Hget. reflexivity.
Qed.

(** A non-empty name that is not a key of the registry is refused. *)
Lemma get_model_unknown s self :
  str_truthy s = true ->
  str_in s (list_models self) = false ->
  get_model (Some s) self
  = Outcome (Raise (ValueError (msg_does_not_exist s))) self [].
Proof.
  intros Hs Hin.
  unfold get_model, bind, when, get_self, raise, ret; simpl.
  rewrite Hs, Hin, andb_false_r. reflexivity.
Qed.

Lemma bind_Ok {A B} (m : M A) (k : A -> M B) self a self' t :
  m self = Outcome (Ok a) self' t -> bind m k self = after t (k a self').
Proof. unfold bind. intros ->. reflexivity. Qed.

Lemma bind_Raise {A B} (m : M A) (k : A -> M B) self e self' t :
  m self = Outcome (Raise e) self' t -> bind m k self = Outcome (Raise e) self' t.
Proof. unfold bind. intros ->. reflexivity. Qed.

Lemma returned_after {A} t (o : outcome A) : returned (after t o) = returned o.
Proof. destruct o. reflexivity. Qed.

Lemma self_after_after {A} t (o : outcome A) : self_after (after t o) = self_after o.
Proof. destruct o. reflexivity. Qed.

Lemma trace_after {A} t (o : outcome A) : trace (after t o) = t ++ trace o.
Proof. destruct o. reflexivity. Qed.

Lemma after_nil {A} (o : outcome A) : after [] o = o.
Proof. destruct o. reflexivity. Qed.

(** A call that starts with a failing [get_model] fails the same way. *)
Lemma bind_get_model_Raise {B} model_name (k : string * WrappedModel -> M B) self e :
  returned (get_model model_name self) = Raise e ->
  bind (get_model model_name) k self = Outcome (Raise e) self [].
Proof.
  intros H. apply bind_Raise. rewrite get_model_pure, H. reflexivity.
Qed.

(** A call that starts with a successful [get_model] goes on with the
    resolved name and handle, on the same task object. *)
Lemma bind_get_model_Ok {B} model_name (k : string * WrappedModel -> M B) self r :
  returned (get_model model_name self) = Ok r ->
  bind (get_model model_name) k self = k r self.
Proof.
  intros H. rewrite (bind_Ok _ _ self r self []).
  - apply after_nil.
  - rewrite get_model_pure, H. reflexivity.
Qed.

(** With no name and an empty registry, [get_model] reads the first
    element of an empty list. *)
Lemma get_model_no_model model_name self :
  models self = [] ->
  name_truthy model_name = false ->
  get_model model_name self = Outcome (Raise IndexError) self [].
Proof.
  intros Hm Hn.
  unfold get_model, bind, when, get_self, list_models, models_count.
  rewrite Hm, Hn. simpl.
  destruct model_name as [s |]; simpl in *; [rewrite Hn |]; reflexivity.
Qed.

(** ** Model resolution *)

(** C10: with no name given and an empty registry, [get_model] raises
    [IndexError] (the first element of the empty list of names is read),
    which is none of the [ValueError]s it documents; [train],
    [load_pretrained_model] and [predict] resolve the model first and so
    fail the same way, before they do anything else. *)
Theorem get_model_empty_registry_IndexError W self model_name :
  models self = [] ->
  name_truthy model_name = false ->
  get_model model_name self = Outcome (Raise IndexError) self [] /\
  (forall m, IndexError <> ValueError m) /\
  (forall X y transforms best_model_params splits_mapping kw,
     train W X y model_name transforms best_model_params splits_mapping kw self
     = Outcome (Raise IndexError) self []) /\
  (forall filepath kw,
     load_pretrained_model filepath model_name kw self
     = Outcome (Raise IndexError) self []) /\
  (forall dataset transforms proba splits_mapping kw,
     predict W dataset model_name transforms proba splits_mapping kw self
     = Outcome (Raise IndexError) self []).
Proof.
  intros Hm Hn.
  pose proof (get_model_no_model model_name self Hm Hn) as Hget.
  assert (Hret : returned (get_model model_name self) = Raise IndexError)
    by (rewrite Hget; reflexivity).
  split; [exact Hget |].
  split; [discriminate |].
  split; [| split]; intros;
    unfold train, load_pretrained_model, predict;
    apply bind_get_model_Raise; exact Hret.
Qed.

Lemma get_model_empty_registry_IndexError_witness :
  get_model None Fixtures.no_model
  = Outcome (Raise IndexError) Fixtures.no_model [] /\
  train Fixtures.world (Tabular Fixtures.X3) (Some Fixtures.y3) None None None
    Fixtures.train_splits ∅ Fixtures.no_model
  = Outcome (Raise IndexError) Fixtures.no_model [].
Proof.
  destruct (get_model_empty_registry_IndexError Fixtures.world
              Fixtures.no_model None eq_refl eq_refl)
    as [Hget [_ [Htrain _]]].
  split; [exact Hget | apply Htrain].
Defined.

(** C3, as the code has it: on a registry of exactly one model,
    [get_model] returns that model when no name is given (or the empty
    string) and when its own name is given; with two or more models and no
    name it raises a [ValueError] that lists the registered names; a
    non-empty name that is not registered raises a [ValueError] that points
    to [Task.add_model()], whatever the size of the registry. *)
Theorem get_model_resolution self model_name :
  (forall name model,
     models self = [(name, model)] ->
     name_truthy model_name = false \/ model_name = Some name ->
     get_model model_name self = Outcome (Ok (name, model)) self []) /\
  ((1 < models_count self)%nat ->
   name_truthy model_name = false ->
   get_model model_name self
   = Outcome (Raise (ValueError (TextNames "Please specify a model from "
                                   (list_models self)))) self []) /\
  (forall s,
     model_name = Some s ->
     str_truthy s = true ->
     str_in s (list_models self) = false ->
     get_model model_name self
     = Outcome (Raise (ValueError
                         (Text ("The model " ++ s ++ " does not exist. "
                                ++ "You can add the model using Task.add_model()"))))
         self []).
Proof.
  split; [| split].
  - intros name model Hm Hname.
    destruct (name_truthy model_name) eqn:Hn.
    + destruct Hname as [Hname | ->]; [discriminate |].
      simpl in Hn.
      destruct (get_model_known name self Hn) as [model' [Hget ->]].
      { unfold list_models. rewrite Hm. simpl. unfold str_in. simpl.
        rewrite String.eqb_refl. reflexivity. }
      rewrite Hm in Hget. simpl in Hget. rewrite String.eqb_refl in Hget.
      congruence.
    + unfold get_model, bind, when, get_self, list_models, models_count.
      rewrite Hm, Hn. simpl.
      destruct model_name as [s |]; simpl in *.
      * rewrite Hn. simpl. rewrite String.eqb_refl. reflexivity.
      * rewrite String.eqb_refl. reflexivity.
  - intros Hcount Hn.
    unfold get_model, bind, when, get_self.
    apply Nat.ltb_lt in Hcount. rewrite Hcount, Hn. reflexivity.
  - intros s -> Hs Hin. apply get_model_unknown; assumption.
Qed.

Lemma get_model_resolution_witness :
  get_model None Fixtures.one_model
  = Outcome (Ok ("lr", Fixtures.handle true)) Fixtures.one_model [] /\
  get_model None Fixtures.two_models
  = Outcome (Raise (ValueError (TextNames "Please specify a model from "
                                  ["lr"; "mlp"]))) Fixtures.two_models [] /\
  get_model (Some "rf") Fixtures.two_models
  = Outcome (Raise (ValueError
                      (Text "The model rf does not exist. You can add the model using Task.add_model()")))
      Fixtures.two_models [].
Proof.
  split; [| split].
  - apply (proj1 (get_model_resolution Fixtures.one_model None)
             "lr" (Fixtures.handle true) eq_refl).
    left. reflexivity.
  - apply (proj1 (proj2 (get_model_resolution Fixtures.two_models None))).
    + vm_compute. lia.
    + reflexivity.
  - apply (proj2 (proj2 (get_model_resolution Fixtures.two_models (Some "rf")))
             "rf" eq_refl); reflexivity.
Defined.

(** The first part of C3 as the specification words it fails: a registry
    of one model refuses a name it does not hold. *)
Lemma get_model_single_model_unknown_name :
  models_count Fixtures.one_model = 1%nat /\
  get_model (Some "rf") Fixtures.one_model
  = Outcome (Raise (ValueError (msg_does_not_exist "rf"))) Fixtures.one_model [] /\
  ~ (exists r, returned (get_model (Some "rf") Fixtures.one_model) = Ok r).
Proof.
  split; [reflexivity |]. split; [reflexivity |].
  intros [r Hr]. discriminate Hr.
Qed.

(** ** Registration *)

(** When every supplied name is already registered, [add_model] logs an
    error and leaves the task object as it was. *)
Lemma add_model_all_registered W model config_path self model_dict :
  prepare_models W model config_path = Ok model_dict ->
  forallb (fun k => str_in k (list_models self)) (odict_keys model_dict) = true ->
  add_model W model config_path self
  = Outcome (Ok tt) self
      [CallPrepareModels model config_path; Log ERROR msg_add_failed].
Proof.
  intros Hprep Hall. unfold add_model, bind, call, get_self.
  rewrite Hprep. simpl. rewrite Hall. reflexivity.
Qed.

(** When some supplied name is new, [add_model] merges the whole supplied
    dict into the registry, the names that were already there included. *)
Lemma add_model_some_new W model config_path self model_dict :
  prepare_models W model config_path = Ok model_dict ->
  forallb (fun k => str_in k (list_models self)) (odict_keys model_dict) = false ->
  add_model W model config_path self
  = Outcome (Ok tt)
      (with_models self (odict_update (models self) model_dict))
      [CallPrepareModels model config_path;
       Log INFO (msg_added (odict_keys model_dict))].
Proof.
  intros Hprep Hall. unfold add_model, bind, call, get_self.
  rewrite Hprep. simpl. rewrite Hall. reflexivity.
Qed.

(** C2, where the code departs from it: the registry holds ["lr"] and
    [add_model] is given a dict with the names ["lr"] and ["rf"].  One
    supplied name exists already, yet the call reports success, replaces
    the handle registered as ["lr"] and adds ["rf"]. *)
Theorem add_model_partial_collision_overwrites :
  models Fixtures.one_model = [("lr", Fixtures.handle true)] /\
  Fixtures.colliding = [("lr", Fixtures.handle false); ("rf", Fixtures.handle true)] /\
  returned (add_model Fixtures.world (ModelDict Fixtures.colliding) None
              Fixtures.one_model)
  = Ok tt /\
  models (self_after (add_model Fixtures.world (ModelDict Fixtures.colliding) None
                        Fixtures.one_model))
  = Fixtures.colliding /\
  models (self_after (add_model Fixtures.world (ModelDict Fixtures.colliding) None
                        Fixtures.one_model))
  <> models Fixtures.one_model /\
  trace (add_model Fixtures.world (ModelDict Fixtures.colliding) None
           Fixtures.one_model)
  = [CallPrepareModels (ModelDict Fixtures.colliding) None;
     Log INFO (Text "lr, rf is added to task models.")].
Proof.
  repeat split; try reflexivity.
  intros H. vm_compute in H. discriminate H.
Qed.

(** ** Reasoning about controller code *)

Lemma bind_get_self {B} (k : Task -> M B) self : bind get_self k self = k self self.
Proof. unfold bind, get_self. apply after_nil. Qed.

Lemma bind_ret {A B} (a : A) (k : A -> M B) self : bind (ret a) k self = k a self.
Proof. unfold bind, ret. apply after_nil. Qed.

Lemma bind_call_Ok {A B} ev (a : A) (k : A -> M B) self :
  bind (call ev (Ok a)) k self = after [ev] (k a self).
Proof. reflexivity. Qed.

Lemma bind_call_Raise {A B} ev e (k : A -> M B) self :
  bind (call ev (Raise e)) k self = Outcome (Raise e) self [ev].
Proof. reflexivity. Qed.

Create HintDb controller.

Section Combinators.
Context {A B : Type}.
Variable p : event -> bool.

Lemma keeps_self_ret (a : A) : keeps_self (ret a).
Proof. intros self. reflexivity. Qed.

Lemma keeps_self_raise e : keeps_self (@raise A e).
Proof. intros self. reflexivity. Qed.

Lemma keeps_self_call ev (r : result A) : keeps_self (call ev r).
Proof. intros self. reflexivity. Qed.

Lemma keeps_self_bind (m : M A) (k : A -> M B) :
  keeps_self m -> (forall a, keeps_self (k a)) -> keeps_self (bind m k).
Proof.
  intros Hm Hk self. unfold bind. specialize (Hm self).
  destruct (m self) as [[a | e] self' t]; simpl in *; subst.
  - rewrite self_after_after. apply Hk.
  - reflexivity.
Qed.

Lemma keeps_self_except (m handler : M A) :
  keeps_self m -> keeps_self handler -> keeps_self (except_NotFittedError m handler).
Proof.
  intros Hm Hh self. unfold except_NotFittedError. specialize (Hm self).
  destruct (m self) as [[a | e] self' t]; simpl in *; subst; [reflexivity |].
  destruct e; try reflexivity. rewrite self_after_after. apply Hh.
Qed.

Lemma quiet_ret (a : A) : quiet p (ret a).
Proof. intros self. reflexivity. Qed.

Lemma quiet_raise e : quiet p (@raise A e).
Proof. intros self. reflexivity. Qed.

Lemma quiet_call ev (r : result A) : p ev = false -> quiet p (call ev r).
Proof. intros H self. unfold never. simpl. rewrite H. reflexivity. Qed.

Lemma quiet_bind (m : M A) (k : A -> M B) :
  quiet p m -> (forall a, quiet p (k a)) -> quiet p (bind m k).
Proof.
  intros Hm Hk self. unfold bind. specialize (Hm self).
  destruct (m self) as [[a | e] self' t]; simpl in *.
  - rewrite trace_after. apply never_app; [assumption | apply Hk].
  - assumption.
Qed.

Lemma quiet_except (m handler : M A) :
  quiet p m -> quiet p handler -> quiet p (except_NotFittedError m handler).
Proof.
  intros Hm Hh self. unfold except_NotFittedError. specialize (Hm self).
  destruct (m self) as [[a | e] self' t]; simpl in *; [assumption |].
  destruct e; try assumption.
  rewrite trace_after. apply never_app; [assumption | apply Hh].
Qed.
End Combinators.

Lemma keeps_self_get_self : keeps_self get_self.
Proof. intros self. reflexivity. Qed.

Lemma keeps_self_emit ev : keeps_self (emit ev).
Proof. intros self. reflexivity. Qed.

Lemma keeps_self_when b m : keeps_self m -> keeps_self (when b m).
Proof. intros H. destruct b; [exact H | apply keeps_self_ret]. Qed.

Lemma keeps_self_check_keywords written kw : keeps_self (check_keywords written kw).
Proof.
  unfold check_keywords.
  destruct (List.filter _ written); [apply keeps_self_ret | apply keeps_self_raise].
Qed.

Lemma keeps_self_get_model model_name : keeps_self (get_model model_name).
Proof. intros self. rewrite get_model_pure. reflexivity. Qed.

Lemma quiet_get_self p : quiet p get_self.
Proof. intros self. reflexivity. Qed.

Lemma quiet_put_self p self' : quiet p (put_self self').
Proof. intros self. reflexivity. Qed.

Lemma quiet_emit p ev : p ev = false -> quiet p (emit ev).
Proof. intros H self. unfold never. simpl. rewrite H. reflexivity. Qed.

Lemma quiet_when p b m : quiet p m -> quiet p (when b m).
Proof. intros H. destruct b; [exact H | apply quiet_ret]. Qed.

Lemma quiet_check_keywords p written kw : quiet p (check_keywords written kw).
Proof.
  unfold check_keywords.
  destruct (List.filter _ written); [apply quiet_ret | apply quiet_raise].
Qed.

Lemma quiet_get_model p model_name : quiet p (get_model model_name).
Proof. intros self. rewrite get_model_pure. reflexivity. Qed.

#[global] Hint Resolve keeps_self_ret keeps_self_raise keeps_self_call
  keeps_self_bind keeps_self_except keeps_self_get_self keeps_self_emit
  keeps_self_when keeps_self_check_keywords keeps_self_get_model
  quiet_ret quiet_raise quiet_call quiet_bind quiet_except quiet_get_self
  quiet_put_self quiet_emit quiet_when quiet_check_keywords quiet_get_model
  : controller.

Lemma keeps_self_fit_or_search name model params d ws wf kw :
  keeps_self (fit_or_search name model params d ws wf kw).
Proof.
  unfold fit_or_search, dict_pop.
  destruct (opt_dict_truthy params); auto with controller.
Qed.

Lemma keeps_self_apply_transforms transforms before X :
  keeps_self before -> keeps_self (apply_transforms transforms before X).
Proof.
  intros H. unfold apply_transforms.
  destruct transforms; auto with controller.
Qed.

Lemma quiet_fit_or_search p name model params d ws wf kw :
  (forall n q fd me mt k, p (CallFindBest n q fd me mt k) = false) ->
  (forall n fd k, p (CallFit n fd k) = false) ->
  quiet p (fit_or_search name model params d ws wf kw).
Proof.
  intros Hs Hf. unfold fit_or_search, dict_pop.
  destruct (opt_dict_truthy params); auto with controller.
Qed.

Lemma quiet_apply_transforms p transforms before X :
  (forall a, p (CallTransform a) = false) ->
  (forall a, p (CallFitTransform a) = false) ->
  quiet p before ->
  quiet p (apply_transforms transforms before X).
Proof.
  intros Ht Hf Hb. unfold apply_transforms.
  destruct transforms; auto with controller.
Qed.

#[global] Hint Resolve keeps_self_fit_or_search keeps_self_apply_transforms
  quiet_fit_or_search quiet_apply_transforms : controller.

Lemma keeps_self_predict_on W name model dataset transforms proba splits_mapping kw :
  keeps_self (predict_on W name model dataset transforms proba splits_mapping kw).
Proof.
  unfold predict_on. apply keeps_self_bind; [auto with controller |].
  intros self. destruct dataset as [t | d].
  - apply keeps_self_bind; [auto with controller |]. intros X.
    apply keeps_self_bind; [auto with controller |]. intros Xt.
    destruct (proba && is_SKModel model); auto with controller.
  - apply keeps_self_bind; [auto with controller |]. intros _.
    destruct (proba && is_SKModel model); auto with controller.
Qed.

(** [predict] never alters the task object. *)
Lemma keeps_self_predict W dataset model_name transforms proba splits_mapping kw :
  keeps_self (predict W dataset model_name transforms proba splits_mapping kw).
Proof.
  unfold predict.
  apply keeps_self_bind; [auto with controller |].
  intros [name model]. apply keeps_self_bind; [auto with controller |].
  intros self. apply keeps_self_bind; [auto with controller |].
  intros _. apply keeps_self_predict_on.
Qed.

(** ** Training *)

Lemma keeps_self_train_on W name model X y transforms params splits kw :
  keeps_self (train_on W name model X y transforms params splits kw).
Proof.
  unfold train_on. apply keeps_self_bind; [auto with controller |].
  intros self. destruct X as [t | d]; [| auto with controller].
  destruct y as [ty |]; [| auto with controller].
  apply keeps_self_bind; [auto with controller |]. intros X.
  apply keeps_self_bind; [auto with controller |]. intros Xt.
  apply keeps_self_bind; [auto with controller |]. intros yt.
  auto with controller.
Qed.

Lemma quiet_train_on W p name model X y transforms params splits kw :
  (forall t, p (CallToNumpy t) = false) ->
  (forall a, p (CallTransform a) = false) ->
  (forall a, p (CallFitTransform a) = false) ->
  (forall n q fd me mt k, p (CallFindBest n q fd me mt k) = false) ->
  (forall n fd k, p (CallFit n fd k) = false) ->
  quiet p (train_on W name model X y transforms params splits kw).
Proof.
  intros Hn Ht Hft Hs Hf.
  unfold train_on. apply quiet_bind; [auto with controller |].
  intros self. destruct X as [t | d]; [| auto with controller].
  destruct y as [ty |]; [| auto with controller].
  apply quiet_bind; [auto with controller |]. intros X.
  apply quiet_bind; [auto with controller |]. intros Xt.
  apply quiet_bind; [auto with controller |]. intros yt.
  auto with controller.
Qed.

(** [train] when the model does not resolve: the error of [get_model], and
    nothing else happens. *)
Lemma train_unresolved W X y model_name transforms params splits kw self e :
  returned (get_model model_name self) = Raise e ->
  train W X y model_name transforms params splits kw self
  = Outcome (Raise e) self [].
Proof. intros H. unfold train. apply bind_get_model_Raise. exact H. Qed.

(** [train] when the model resolves: the handle is fitted or searched, and
    only if that returns is the name appended to [trained_models]. *)
Lemma train_resolved W X y model_name transforms params splits kw self name model :
  returned (get_model model_name self) = Ok (name, model) ->
  train W X y model_name transforms params splits kw self
  = match train_on W name model X y transforms params splits kw self with
    | Outcome (Ok _) _ t =>
        Outcome (Ok model) (with_trained self (trained_models self ++ [name])) t
    | Outcome (Raise e) _ t => Outcome (Raise e) self t
    end.
Proof.
  intros H. unfold train. rewrite (bind_get_model_Ok _ _ _ _ H).
  pose proof (keeps_self_train_on W name model X y transforms params splits kw self)
    as Hself.
  unfold bind at 1.
  destruct (train_on W name model X y transforms params splits kw self)
    as [[u | e] self' t]; simpl in Hself; subst self'.
  - rewrite bind_get_self. unfold bind, put_self, ret, after. simpl.
    rewrite app_nil_r. reflexivity.
  - reflexivity.
Qed.

(** [train_on] for a raw source, once both conversions and the transform
    have produced their arrays. *)
Lemma train_on_raw W name model t ty transforms params splits kw self X Xt y tt' :
  to_numpy W t = Ok X ->
  apply_transforms transforms (ret tt) X self = Outcome (Ok Xt) self tt' ->
  to_numpy W ty = Ok y ->
  train_on W name model (Tabular t) (Some ty) transforms params splits kw self
  = after (CallToNumpy t :: tt' ++ [CallToNumpy ty])
      (if (len Xt =? len y)%nat
       then fit_or_search name model params (FitArrays Xt y)
              ["y"; "metric"; "method"] [] kw self
       else Outcome (Raise AssertionError) self []).
Proof.
  intros HX HXt Hy. unfold train_on. rewrite bind_get_self.
  rewrite HX, bind_call_Ok.
  rewrite (bind_Ok _ _ _ _ _ _ HXt).
  rewrite Hy, bind_call_Ok.
  destruct (len Xt =? len y)%nat; simpl.
  - rewrite bind_ret.
    destruct (fit_or_search _ _ _ _ _ _ _ self) as [r s' t']. simpl.
    rewrite <- app_assoc. reflexivity.
  - rewrite <- app_assoc. reflexivity.
Qed.

(** What [apply_transforms] returns comes with the task object unchanged. *)
Lemma apply_transforms_outcome transforms before X self :
  keeps_self before ->
  apply_transforms transforms before X self
  = Outcome (returned (apply_transforms transforms before X self)) self
      (trace (apply_transforms transforms before X self)).
Proof.
  intros Hb.
  pose proof (keeps_self_apply_transforms transforms before X Hb self) as H.
  destruct (apply_transforms transforms before X self); simpl in *; subst.
  reflexivity.
Qed.

(** ** Loading and predicting *)

Lemma load_pretrained_model_resolved filepath model_name kw self name model :
  returned (get_model model_name self) = Ok (name, model) ->
  load_pretrained_model filepath model_name kw self
  = match load_model model filepath kw with
    | Ok _ =>
        Outcome (Ok model)
          (with_pretrained self (pretrained_models self ++ [name]))
          [CallLoadModel name filepath kw]
    | Raise e => Outcome (Raise e) self [CallLoadModel name filepath kw]
    end.
Proof.
  intros H. unfold load_pretrained_model. rewrite (bind_get_model_Ok _ _ _ _ H).
  destruct (load_model model filepath kw) as [u | e]; reflexivity.
Qed.

(** [predict] when the model does not resolve. *)
Lemma predict_unresolved W dataset model_name transforms proba splits kw self e :
  returned (get_model model_name self) = Raise e ->
  predict W dataset model_name transforms proba splits kw self
  = Outcome (Raise e) self [].
Proof. intros H. unfold predict. apply bind_get_model_Raise. exact H. Qed.

(** [predict] on a resolved name that was neither trained nor loaded. *)
Lemma predict_not_fitted W dataset model_name transforms proba splits kw self
    name model :
  returned (get_model model_name self) = Ok (name, model) ->
  str_in name (fitted_names self) = false ->
  predict W dataset model_name transforms proba splits kw self
  = Outcome (Raise (NotFittedError (msg_not_fitted 16))) self [].
Proof.
  intros H Hfit. unfold predict. rewrite (bind_get_model_Ok _ _ _ _ H).
  rewrite bind_get_self, Hfit. reflexivity.
Qed.

(** [predict] on a resolved name that was trained or loaded. *)
Lemma predict_fitted W dataset model_name transforms proba splits kw self
    name model :
  returned (get_model model_name self) = Ok (name, model) ->
  str_in name (fitted_names self) = true ->
  predict W dataset model_name transforms proba splits kw self
  = predict_on W name model dataset transforms proba splits kw self.
Proof.
  intros H Hfit. unfold predict. rewrite (bind_get_model_Ok _ _ _ _ H).
  rewrite bind_get_self, Hfit. simpl. rewrite bind_ret. reflexivity.
Qed.

(** C4: when [train] returns, the name [get_model] resolved has been
    appended to [trained_models]; when [load_pretrained_model] returns, it
    has been appended to [pretrained_models]; [predict] on a resolved name
    that is in neither list raises [NotFittedError] at once: the task
    object is untouched and no call has been made, so no prediction was
    attempted. *)
Theorem fit_state_bookkeeping W self model_name :
  (forall X y transforms params splits kw model,
     returned (train W X y model_name transforms params splits kw self) = Ok model ->
     exists name,
       returned (get_model model_name self) = Ok (name, model) /\
       trained_models
         (self_after (train W X y model_name transforms params splits kw self))
       = trained_models self ++ [name] /\
       str_in name
         (trained_models
            (self_after (train W X y model_name transforms params splits kw self)))
       = true) /\
  (forall filepath kw model,
     returned (load_pretrained_model filepath model_name kw self) = Ok model ->
     exists name,
       returned (get_model model_name self) = Ok (name, model) /\
       pretrained_models
         (self_after (load_pretrained_model filepath model_name kw self))
       = pretrained_models self ++ [name] /\
       str_in name
         (pretrained_models
            (self_after (load_pretrained_model filepath model_name kw self)))
       = true) /\
  (forall name model,
     returned (get_model model_name self) = Ok (name, model) ->
     str_in name (fitted_names self) = false ->
     forall dataset transforms proba splits kw,
       predict W dataset model_name transforms proba splits kw self
       = Outcome (Raise (NotFittedError (msg_not_fitted 16))) self []).
Proof.
  assert (Hlast : forall (l : list string) name, str_in name (l ++ [name]) = true).
  { intros l name. rewrite str_in_app. unfold str_in at 2. simpl.
    rewrite String.eqb_refl. apply orb_true_iff. right. reflexivity. }
  split; [| split].
  - intros X y transforms params splits kw model Hret.
    destruct (returned (get_model model_name self)) as [[name model'] | e] eqn:Hget.
    + rewrite (train_resolved _ _ _ _ _ _ _ _ _ _ _ Hget) in *.
      destruct (train_on W name model' X y transforms params splits kw self)
        as [[u | e] self' t]; simpl in *; [| discriminate].
      exists name. injection Hret as ->. auto.
    + rewrite (train_unresolved _ _ _ _ _ _ _ _ _ _ Hget) in Hret. discriminate.
  - intros filepath kw model Hret.
    destruct (returned (get_model model_name self)) as [[name model'] | e] eqn:Hget.
    + rewrite (load_pretrained_model_resolved _ _ _ _ _ _ Hget) in *.
      destruct (load_model model' filepath kw) as [u | e]; simpl in *;
        [| discriminate].
      exists name. injection Hret as ->. auto.
    + unfold load_pretrained_model in Hret.
      rewrite (bind_get_model_Raise _ _ _ _ Hget) in Hret. discriminate.
  - intros name model Hget Hfit dataset transforms proba splits kw.
    apply (predict_not_fitted _ _ _ _ _ _ _ _ _ _ Hget Hfit).
Qed.

Lemma fit_state_bookkeeping_witness :
  trained_models
    (self_after (train Fixtures.world (Tabular Fixtures.X3) (Some Fixtures.y3) None None
                   None Fixtures.train_splits ∅ Fixtures.one_model))
  = ["lr"] /\
  pretrained_models
    (self_after (load_pretrained_model "lr.pkl" None ∅ Fixtures.one_model))
  = ["lr"] /\
  predict Fixtures.world (Tabular Fixtures.X3) None None true Fixtures.test_splits ∅
    Fixtures.one_model
  = Outcome (Raise (NotFittedError (msg_not_fitted 16))) Fixtures.one_model [].
Proof.
  destruct (fit_state_bookkeeping Fixtures.world Fixtures.one_model None)
    as [Htrain [Hload Hpredict]].
  split; [| split].
  - destruct (Htrain (Tabular Fixtures.X3) (Some Fixtures.y3) None None Fixtures.train_splits
                ∅ (Fixtures.handle true) eq_refl) as [name [Hget [Hlist _]]].
    rewrite Hlist. injection Hget as <-. reflexivity.
  - destruct (Hload "lr.pkl" ∅ (Fixtures.handle true) eq_refl)
      as [name [Hget [Hlist _]]].
    rewrite Hlist. injection Hget as <-. reflexivity.
  - apply (Hpredict "lr" (Fixtures.handle true) eq_refl eq_refl).
Defined.

(** ** Training on raw arrays *)

(** C9: [train] on a raw source without labels always raises, makes no
    call at all (so neither [fit] nor [find_best]) and leaves the task
    object, [trained_models] included, as it was.  Once [get_model] has
    resolved the handle, which [train] does first, the error is the
    [ValueError] whose text starts with "Missing data labels 'y'". *)
Theorem train_raw_missing_labels W t model_name transforms params splits kw self :
  let o := train W (Tabular t) None model_name transforms params splits kw self in
  (exists e, returned o = Raise e) /\
  trace o = [] /\
  never is_fit_call (trace o) /\
  never is_search_call (trace o) /\
  self_after o = self /\
  trained_models (self_after o) = trained_models self /\
  (forall r,
     returned (get_model model_name self) = Ok r ->
     returned o = Raise (ValueError msg_missing_labels)).
Proof.
  cbv zeta.
  destruct (returned (get_model model_name self)) as [[name model] | e] eqn:Hget.
  - rewrite (train_resolved _ _ _ _ _ _ _ _ _ _ _ Hget).
    unfold train_on. rewrite bind_get_self. simpl.
    repeat split; eauto.
  - rewrite (train_unresolved _ _ _ _ _ _ _ _ _ _ Hget). simpl.
    repeat split; eauto. intros r Hr. discriminate Hr.
Qed.

Lemma train_raw_missing_labels_witness :
  returned (train Fixtures.world (Tabular Fixtures.X3) None None None None
              Fixtures.train_splits ∅ Fixtures.one_model)
  = Raise (ValueError
             (Text ("Missing data labels 'y'. Please provide the labels for "
                    ++ spaces 20
                    ++ "the training data when not using a Hugging Face dataset "
                    ++ spaces 20 ++ "as the input."))).
Proof.
  pose proof (train_raw_missing_labels Fixtures.world Fixtures.X3 None None
                None Fixtures.train_splits ∅ Fixtures.one_model) as H.
  cbv zeta in H. destruct H as [_ [_ [_ [_ [_ [_ Herr]]]]]].
  apply (Herr ("lr", Fixtures.handle true)). reflexivity.
Defined.

(** C6: [train] on a raw source whose feature array, as it stands after
    the optional transform, and label array differ in length: the call
    raises, and no [fit] and no [find_best] call has been made on any
    handle; the task object is as it was.  Once [get_model] has resolved the
    handle, the error is the [AssertionError] of [assert len(X) == len(y)]. *)
Theorem train_raw_length_mismatch W t ty model_name transforms params splits kw
    self X Xt y :
  to_numpy W t = Ok X ->
  returned (apply_transforms transforms (ret tt) X self) = Ok Xt ->
  to_numpy W ty = Ok y ->
  len Xt <> len y ->
  let o := train W (Tabular t) (Some ty) model_name transforms params splits kw
             self in
  (exists e, returned o = Raise e) /\
  never is_fit_call (trace o) /\
  never is_search_call (trace o) /\
  self_after o = self /\
  (forall r,
     returned (get_model model_name self) = Ok r ->
     returned o = Raise AssertionError).
Proof.
  intros HX HXt Hy Hlen. cbv zeta.
  destruct (returned (get_model model_name self)) as [[name model] | e] eqn:Hget.
  - rewrite (train_resolved _ _ _ _ _ _ _ _ _ _ _ Hget).
    pose proof (apply_transforms_outcome transforms (ret tt) X self
                  (keeps_self_ret tt)) as Hout.
    rewrite HXt in Hout.
    rewrite (train_on_raw _ _ _ _ _ _ _ _ _ _ _ _ _ _ HX Hout Hy).
    apply Nat.eqb_neq in Hlen. rewrite Hlen. simpl. rewrite app_nil_r.
    assert (Hquiet : forall p,
               (forall a, p (CallTransform a) = false) ->
               (forall a, p (CallFitTransform a) = false) ->
               (forall a, p (CallToNumpy a) = false) ->
               never p (CallToNumpy t
                          :: trace (apply_transforms transforms (ret tt) X self)
                          ++ [CallToNumpy ty])).
    { intros p Ht Hft Hn.
      change (never p ([CallToNumpy t]
                         ++ trace (apply_transforms transforms (ret tt) X self)
                         ++ [CallToNumpy ty])).
      repeat apply never_app.
      - unfold never. simpl. rewrite Hn. reflexivity.
      - apply quiet_apply_transforms; auto with controller.
      - unfold never. simpl. rewrite Hn. reflexivity. }
    repeat split; eauto.
  - rewrite (train_unresolved _ _ _ _ _ _ _ _ _ _ Hget). simpl.
    repeat split; eauto. intros r Hr. discriminate Hr.
Qed.

Lemma train_raw_length_mismatch_witness :
  returned (train Fixtures.world (Tabular Fixtures.X3) (Some Fixtures.y2) None
              (Some Fixtures.unfitted_pipeline) None Fixtures.train_splits ∅
              Fixtures.one_model)
  = Raise AssertionError /\
  never is_fit_call
    (trace (train Fixtures.world (Tabular Fixtures.X3) (Some Fixtures.y2) None
              (Some Fixtures.unfitted_pipeline) None Fixtures.train_splits ∅
              Fixtures.one_model)) /\
  never is_search_call
    (trace (train Fixtures.world (Tabular Fixtures.X3) (Some Fixtures.y2) None
              (Some Fixtures.unfitted_pipeline) None Fixtures.train_splits ∅
              Fixtures.one_model)).
Proof.
  destruct (train_raw_length_mismatch Fixtures.world Fixtures.X3 Fixtures.y2 None
              (Some Fixtures.unfitted_pipeline) None Fixtures.train_splits ∅
              Fixtures.one_model
              (Arr2 [[1; 0]; [0; 1]; [1; 1]]%Z) (Arr2 [[1; 0]; [0; 1]; [1; 1]]%Z)
              (Arr1 [0; 1]%Z) eq_refl eq_refl eq_refl)
    as [_ [Hfit [Hsearch [_ Herr]]]].
  - simpl. lia.
  - split; [| split].
    + apply (Herr ("lr", Fixtures.handle true)). reflexivity.
    + exact Hfit.
    + exact Hsearch.
Defined.

(** ** Transform pipelines that are not fitted *)

(** When [transform] raises [NotFittedError], the handler runs and the
    pipeline is asked to [fit_transform] the same array. *)
Lemma apply_transforms_not_fitted pipeline before X self msg :
  transform pipeline X = Raise (NotFittedError msg) ->
  apply_transforms (Some pipeline) before X self
  = after [CallTransform X]
      (bind before (fun _ => call (CallFitTransform X) (fit_transform pipeline X))
         self).
Proof.
  intros H. unfold apply_transforms, except_NotFittedError, call.
  rewrite H. reflexivity.
Qed.

(** [train] logs no warning, whatever it is called on. *)
Lemma train_never_warns W X y model_name transforms params splits kw :
  quiet is_warning (train W X y model_name transforms params splits kw).
Proof.
  unfold train. apply quiet_bind; [auto with controller |].
  intros [name model]. apply quiet_bind.
  - apply quiet_train_on; reflexivity.
  - intros _. apply quiet_bind; [auto with controller |].
    intros self. apply quiet_bind; auto with controller.
Qed.

(** C7: a pipeline whose [transform] raises [NotFittedError] on the
    converted array.  [train] (raw source, labels given, model resolved)
    calls [transform], then [fit_transform] on the same array, and fits the
    handle on what [fit_transform] returned; [predict] (raw source, model
    resolved and fitted) does the same and logs one warning between the two
    calls.  [train] logs no warning, on this path or any other. *)
Theorem unfitted_transform_fallback W t pipeline X msg :
  to_numpy W t = Ok X ->
  transform pipeline X = Raise (NotFittedError msg) ->
  (forall ty model_name params splits kw self name model,
     returned (get_model model_name self) = Ok (name, model) ->
     let o := train W (Tabular t) (Some ty) model_name (Some pipeline) params
                splits kw self in
     (exists rest,
        trace o = [CallToNumpy t; CallTransform X; CallFitTransform X] ++ rest) /\
     never is_warning (trace o) /\
     (forall Xt y,
        fit_transform pipeline X = Ok Xt ->
        to_numpy W ty = Ok y ->
        len Xt = len y ->
        opt_dict_truthy params = false ->
        trace o = [CallToNumpy t; CallTransform X; CallFitTransform X;
                   CallToNumpy ty; CallFit name (FitArrays Xt y) kw] /\
        returned o = match fit model (FitArrays Xt y) kw with
                     | Ok _ => Ok model
                     | Raise e => Raise e
                     end)) /\
  (forall model_name proba splits kw self name model,
     returned (get_model model_name self) = Ok (name, model) ->
     str_in name (fitted_names self) = true ->
     let o := predict W (Tabular t) model_name (Some pipeline) proba splits kw
                self in
     (exists rest,
        trace o = [CallToNumpy t; CallTransform X;
                   Log WARNING msg_fitting_preprocessor; CallFitTransform X]
                  ++ rest /\
        never is_warning rest) /\
     (forall Xt,
        fit_transform pipeline X = Ok Xt ->
        o = if proba && is_SKModel model
            then Outcome (model_predict_proba model (PredictArray Xt) kw) self
                   [CallToNumpy t; CallTransform X;
                    Log WARNING msg_fitting_preprocessor; CallFitTransform X;
                    CallPredictProba name (PredictArray Xt) kw]
            else Outcome (model_predict model (PredictArray Xt) kw) self
                   [CallToNumpy t; CallTransform X;
                    Log WARNING msg_fitting_preprocessor; CallFitTransform X;
                    CallPredict name (PredictArray Xt) kw])) /\
  (forall source y model_name transforms params splits kw self,
     never is_warning
       (trace (train W source y model_name transforms params splits kw self))).
Proof.
  intros HX Hnot. split; [| split].
  - intros ty model_name params splits kw self name model Hget. cbv zeta.
    split; [| split].
    + rewrite (train_resolved _ _ _ _ _ _ _ _ _ _ _ Hget).
      unfold train_on. rewrite bind_get_self, HX, bind_call_Ok.
      unfold bind at 1.
      rewrite (apply_transforms_not_fitted _ _ _ _ _ Hnot), bind_ret.
      unfold call at 1.
      destruct (fit_transform pipeline X) as [Xt | e]; simpl.
      * match goal with
        | |- context [bind ?m ?k self] =>
            destruct (bind m k self) as [[u | e] s' rest]
        end; simpl; eauto.
      * eauto.
    + apply train_never_warns.
    + intros Xt y HXt Hy Hlen Hparams.
      rewrite (train_resolved _ _ _ _ _ _ _ _ _ _ _ Hget).
      assert (Hout : apply_transforms (Some pipeline) (ret tt) X self
                     = Outcome (Ok Xt) self [CallTransform X; CallFitTransform X]).
      { rewrite (apply_transforms_not_fitted _ _ _ _ _ Hnot), bind_ret.
        unfold call. rewrite HXt. reflexivity. }
      rewrite (train_on_raw _ _ _ _ _ _ _ _ _ _ _ _ _ _ HX Hout Hy).
      apply Nat.eqb_eq in Hlen. rewrite Hlen.
      unfold fit_or_search. rewrite Hparams.
      unfold check_keywords. simpl.
      destruct (fit model (FitArrays Xt y) kw) as [u | e]; simpl; auto.
  - intros model_name proba splits kw self name model Hget Hfit. cbv zeta.
    rewrite (predict_fitted _ _ _ _ _ _ _ _ _ _ Hget Hfit).
    assert (Hrun :
      predict_on W name model (Tabular t) (Some pipeline) proba splits kw self
      = match fit_transform pipeline X with
        | Ok Xt =>
            after [CallToNumpy t; CallTransform X;
                   Log WARNING msg_fitting_preprocessor; CallFitTransform X]
              ((if proba && is_SKModel model
                then call (CallPredictProba name (PredictArray Xt) kw)
                       (model_predict_proba model (PredictArray Xt) kw)
                else call (CallPredict name (PredictArray Xt) kw)
                       (model_predict model (PredictArray Xt) kw)) self)
        | Raise e =>
            Outcome (Raise e) self
              [CallToNumpy t; CallTransform X;
               Log WARNING msg_fitting_preprocessor; CallFitTransform X]
        end).
    { unfold predict_on. rewrite bind_get_self, HX, bind_call_Ok.
      unfold bind at 1.
      rewrite (apply_transforms_not_fitted _ _ _ _ _ Hnot).
      unfold bind at 1, emit, call at 1.
      destruct (fit_transform pipeline X) as [Xt | e]; simpl; [| reflexivity].
      destruct (proba && is_SKModel model); reflexivity. }
    rewrite Hrun. split.
    + destruct (fit_transform pipeline X) as [Xt | e]; simpl.
      * destruct (proba && is_SKModel model); unfold call; simpl;
          eexists; (split; [reflexivity | reflexivity]).
      * exists []. split; reflexivity.
    + intros Xt HXt. rewrite HXt.
      destruct (proba && is_SKModel model); reflexivity.
  - intros source y model_name transforms params splits kw self.
    apply train_never_warns.
Qed.

Lemma unfitted_transform_fallback_witness :
  trace (train Fixtures.world (Tabular Fixtures.X3) (Some Fixtures.y3) None
           (Some Fixtures.unfitted_pipeline) None Fixtures.train_splits ∅
           Fixtures.one_model)
  = [CallToNumpy Fixtures.X3;
     CallTransform (Arr2 [[1; 0]; [0; 1]; [1; 1]]%Z);
     CallFitTransform (Arr2 [[1; 0]; [0; 1]; [1; 1]]%Z);
     CallToNumpy Fixtures.y3;
     CallFit "lr" (FitArrays (Arr2 [[1; 0]; [0; 1]; [1; 1]]%Z) (Arr1 [0; 1; 1]%Z)) ∅] /\
  predict Fixtures.world (Tabular Fixtures.X3) None
    (Some Fixtures.unfitted_pipeline) true Fixtures.test_splits ∅
    (with_trained Fixtures.one_model ["lr"])
  = Outcome (Ok (Tabular (NDArray (Arr1 [1; 1; 1]%Z))))
      (with_trained Fixtures.one_model ["lr"])
      [CallToNumpy Fixtures.X3;
       CallTransform (Arr2 [[1; 0]; [0; 1]; [1; 1]]%Z);
       Log WARNING msg_fitting_preprocessor;
       CallFitTransform (Arr2 [[1; 0]; [0; 1]; [1; 1]]%Z);
       CallPredictProba "lr" (PredictArray (Arr2 [[1; 0]; [0; 1]; [1; 1]]%Z)) ∅].
Proof.
  destruct (unfitted_transform_fallback Fixtures.world Fixtures.X3
              Fixtures.unfitted_pipeline (Arr2 [[1; 0]; [0; 1]; [1; 1]]%Z)
              (Text "This ColumnTransformer instance is not fitted yet.")
              eq_refl eq_refl) as [Htrain [Hpredict _]].
  split.
  - destruct (Htrain Fixtures.y3 None None Fixtures.train_splits ∅
                Fixtures.one_model "lr" (Fixtures.handle true) eq_refl)
      as [_ [_ Hflow]].
    apply (Hflow (Arr2 [[1; 0]; [0; 1]; [1; 1]]%Z) (Arr1 [0; 1; 1]%Z));
      reflexivity.
  - destruct (Hpredict None true Fixtures.test_splits ∅
                (with_trained Fixtures.one_model ["lr"]) "lr"
                (Fixtures.handle true) eq_refl eq_refl) as [_ Hflow].
    apply (Hflow (Arr2 [[1; 0]; [0; 1]; [1; 1]]%Z)). reflexivity.
Defined.

(** ** Plain fit or hyperparameter search *)

Lemma check_keywords_free written (kw : kwargs) self :
  (forall k, In k written -> kw !! k = None) ->
  check_keywords written kw self = Outcome (Ok tt) self [].
Proof.
  intros Hfree. unfold check_keywords.
  replace (List.filter (fun k => bool_decide (is_Some (kw !! k))) written)
    with (@nil string); [reflexivity |].
  induction written as [| k ks IH]; [reflexivity |].
  simpl. rewrite (Hfree k) by (left; reflexivity). simpl.
  apply IH. intros k' Hk'. apply Hfree. right. exact Hk'.
Qed.


Lemma dict_truthy_non_empty (d : dict) : d <> ∅ -> dict_truthy d = true.
Proof.
  intros H. unfold dict_truthy.
  destruct (size d) eqn:Hsize; [| reflexivity].
  apply map_size_empty_iff in Hsize. contradiction.
Qed.

(** With a non-empty search space [fit_or_search] either refuses the
    keywords or calls [find_best] with the two keys popped. *)
Lemma fit_or_search_search name model (d : dict) fd ws wf kw self :
  d <> ∅ ->
  let ev := CallFindBest name (delete "method" (delete "metric" d)) fd
              (from_option id VNone (d !! "metric"))
              (from_option id (VStr "grid") (d !! "method")) kw in
  (exists e,
     fit_or_search name model (Some d) fd ws wf kw self
     = Outcome (Raise e) self []) \/
  fit_or_search name model (Some d) fd ws wf kw self
  = Outcome (find_best model (delete "method" (delete "metric" d)) fd
               (from_option id VNone (d !! "metric"))
               (from_option id (VStr "grid") (d !! "method")) kw)
      self [ev].
Proof.
  intros Hd. cbv zeta. unfold fit_or_search, dict_pop. simpl.
  rewrite (dict_truthy_non_empty d Hd).
  rewrite lookup_delete_ne by discriminate.
  unfold check_keywords.
  destruct (List.filter _ ws) as [| k ks].
  - right. rewrite bind_ret. reflexivity.
  - left. eexists. reflexivity.
Qed.

(** Without a search space (none, or an empty one) [fit_or_search] either
    refuses the keywords or calls [fit]. *)
Lemma fit_or_search_fit name model params fd ws wf kw self :
  opt_dict_truthy params = false ->
  (exists e,
     fit_or_search name model params fd ws wf kw self
     = Outcome (Raise e) self []) \/
  fit_or_search name model params fd ws wf kw self
  = Outcome (fit model fd kw) self [CallFit name fd kw].
Proof.
  intros Hp. unfold fit_or_search. rewrite Hp.
  unfold check_keywords.
  destruct (List.filter _ wf) as [| k ks].
  - right. rewrite bind_ret. reflexivity.
  - left. eexists. reflexivity.
Qed.

(** [train_on] is a run of calls that are neither [fit] nor [find_best],
    which ends in an exception or goes on with [fit_or_search]. *)
Lemma train_on_shape W name model X y transforms params splits kw self :
  exists pre,
    never is_fit_call pre /\
    never is_search_call pre /\
    ((exists e,
        train_on W name model X y transforms params splits kw self
        = Outcome (Raise e) self pre) \/
     (exists fd ws wf,
        train_on W name model X y transforms params splits kw self
        = after pre (fit_or_search name model params fd ws wf kw self))).
Proof.
  destruct X as [t | d]; [destruct y as [ty |] |].
  - pose (tr X := trace (apply_transforms transforms (ret tt) X self)).
    assert (Hquiet : forall p X l,
               (forall a, p (CallToNumpy a) = false) ->
               (forall a, p (CallTransform a) = false) ->
               (forall a, p (CallFitTransform a) = false) ->
               never p l ->
               never p (CallToNumpy t :: tr X ++ l)).
    { intros p X l Hn Ht Hft Hl. apply (never_app _ [_]).
      - unfold never. simpl. rewrite Hn. reflexivity.
      - apply never_app; [| assumption].
        apply quiet_apply_transforms; auto with controller. }
    assert (Hnumpy : forall p ty',
               (forall a, p (CallToNumpy a) = false) -> never p [CallToNumpy ty']).
    { intros p ty' Hn. unfold never. simpl. rewrite Hn. reflexivity. }
    destruct (to_numpy W t) as [X | e] eqn:HX.
    + pose proof (apply_transforms_outcome transforms (ret tt) X self
                    (keeps_self_ret tt)) as Hout.
      fold (tr X) in Hout.
      destruct (returned (apply_transforms transforms (ret tt) X self))
        as [Xt | e].
      * destruct (to_numpy W ty) as [yt | e] eqn:Hy.
        -- exists (CallToNumpy t :: tr X ++ [CallToNumpy ty]).
           split; [apply Hquiet; auto |]. split; [apply Hquiet; auto |].
           rewrite (train_on_raw _ _ _ _ _ _ _ _ _ _ _ _ _ _ HX Hout Hy).
           destruct (len Xt =? len yt)%nat.
           ++ right. eexists _, _, _. reflexivity.
           ++ left. eexists. simpl. rewrite app_nil_r. reflexivity.
        -- exists (CallToNumpy t :: tr X ++ [CallToNumpy ty]).
           split; [apply Hquiet; auto |]. split; [apply Hquiet; auto |].
           left. exists e. unfold train_on.
           rewrite bind_get_self, HX, bind_call_Ok.
           rewrite (bind_Ok _ _ _ _ _ _ Hout), Hy, bind_call_Raise.
           reflexivity.
      * exists (CallToNumpy t :: tr X ++ []).
        split; [apply Hquiet; auto; reflexivity |].
        split; [apply Hquiet; auto; reflexivity |].
        left. exists e. unfold train_on.
        rewrite bind_get_self, HX, bind_call_Ok.
        rewrite (bind_Raise _ _ _ _ _ _ Hout). simpl.
        rewrite app_nil_r. reflexivity.
    + exists [CallToNumpy t].
      split; [reflexivity |]. split; [reflexivity |].
      left. exists e. unfold train_on.
      rewrite bind_get_self, HX, bind_call_Raise. reflexivity.
  - exists []. split; [reflexivity |]. split; [reflexivity |].
    left. eexists. unfold train_on. rewrite bind_get_self. reflexivity.
  - exists []. split; [reflexivity |]. split; [reflexivity |].
    right. eexists _, _, _. unfold train_on.
    rewrite bind_get_self, after_nil. reflexivity.
Qed.

Lemma never_In p t ev : never p t -> In ev t -> p ev = false.
Proof.
  unfold never. intros Hn Hin.
  destruct (p ev) eqn:Hp; [| reflexivity].
  assert (existsb p t = true) by (apply existsb_exists; eauto).
  congruence.
Qed.

(** What [train] returns and emits, read off [train_on]. *)
Lemma train_resolved_trace W X y model_name transforms params splits kw self
    name model :
  returned (get_model model_name self) = Ok (name, model) ->
  trace (train W X y model_name transforms params splits kw self)
  = trace (train_on W name model X y transforms params splits kw self) /\
  (forall model',
     returned (train W X y model_name transforms params splits kw self) = Ok model' ->
     model' = model /\
     returned (train_on W name model X y transforms params splits kw self) = Ok tt).
Proof.
  intros Hget. rewrite (train_resolved _ _ _ _ _ _ _ _ _ _ _ Hget).
  destruct (train_on W name model X y transforms params splits kw self)
    as [[[] | e] s' t]; simpl.
  - split; [reflexivity |]. intros model' H. injection H as <-. auto.
  - split; [reflexivity |]. intros model' H. discriminate H.
Qed.

(** The handle calls of [train], as events: with a non-empty search space
    [fit] is never called and any [find_best] call carries the popped dict
    and the two popped values; without one [find_best] is never called; a
    [train] that returns ended with the respective call. *)
Lemma train_search_or_fit_events W X y model_name transforms params splits kw self :
  let o := train W X y model_name transforms params splits kw self in
  (forall d : dict,
     params = Some d ->
     d <> ∅ ->
     let searched := delete "method" (delete "metric" d) in
     let metric := from_option id VNone (d !! "metric") in
     let method := from_option id (VStr "grid") (d !! "method") in
     never is_fit_call (trace o) /\
     (forall ev,
        In ev (trace o) ->
        is_search_call ev = true ->
        exists name fd, ev = CallFindBest name searched fd metric method kw) /\
     (forall model,
        returned o = Ok model ->
        exists name fd pre,
          returned (get_model model_name self) = Ok (name, model) /\
          trace o = pre ++ [CallFindBest name searched fd metric method kw] /\
          never is_search_call pre /\
          find_best model searched fd metric method kw = Ok tt)) /\
  (params = None \/ params = Some ∅ ->
   never is_search_call (trace o) /\
   (forall model,
      returned o = Ok model ->
      exists name fd pre,
        returned (get_model model_name self) = Ok (name, model) /\
        trace o = pre ++ [CallFit name fd kw] /\
        never is_fit_call pre /\
        fit model fd kw = Ok tt)).
Proof.
  cbv zeta.
  destruct (returned (get_model model_name self)) as [[name model] | e] eqn:Hget.
  - destruct (train_resolved_trace W X y model_name transforms params splits kw
                self name model Hget) as [Htrace Hret].
    rewrite Htrace.
    destruct (train_on_shape W name model X y transforms params splits kw self)
      as [pre [Hpf [Hps [[e Hon] | [fd [ws [wf Hon]]]]]]].
    + (* the call fails before the handle is reached *)
      split.
      * intros d -> Hd. rewrite Hon. simpl. split; [assumption |]. split.
        -- intros ev Hin Hev. rewrite (never_In _ _ _ Hps Hin) in Hev.
           discriminate Hev.
        -- intros model' H. apply Hret in H as [_ H].
           rewrite Hon in H. discriminate H.
      * intros _. rewrite Hon. simpl. split; [assumption |].
        intros model' H. apply Hret in H as [_ H].
        rewrite Hon in H. discriminate H.
    + split.
      * intros d -> Hd.
        destruct (fit_or_search_search name model d fd ws wf kw self Hd)
          as [[e Hfs] | Hfs]; cbv zeta in Hfs; rewrite Hon, Hfs; simpl.
        -- rewrite app_nil_r. split; [assumption |]. split.
           ++ intros ev Hin Hev. rewrite (never_In _ _ _ Hps Hin) in Hev.
              discriminate Hev.
           ++ intros model' H. apply Hret in H as [_ H].
              rewrite Hon, Hfs in H. discriminate H.
        -- split; [apply never_app; [assumption | reflexivity] |]. split.
           ++ intros ev Hin Hev. apply in_app_or in Hin as [Hin | Hin].
              ** rewrite (never_In _ _ _ Hps Hin) in Hev. discriminate Hev.
              ** destruct Hin as [<- | []]. eauto.
           ++ intros model' H. apply Hret in H as [-> H].
              rewrite Hon, Hfs in H. simpl in H.
              exists name, fd, pre. repeat split; assumption.
      * intros Hparams.
        assert (Hp : opt_dict_truthy params = false)
          by (destruct Hparams as [-> | ->]; reflexivity).
        destruct (fit_or_search_fit name model params fd ws wf kw self Hp)
          as [[e Hfs] | Hfs]; rewrite Hon, Hfs; simpl.
        -- rewrite app_nil_r. split; [assumption |].
           intros model' H. apply Hret in H as [_ H].
           rewrite Hon, Hfs in H. discriminate H.
        -- split; [apply never_app; [assumption | reflexivity] |].
           intros model' H. apply Hret in H as [-> H].
           rewrite Hon, Hfs in H. simpl in H.
           exists name, fd, pre. repeat split; assumption.
  - rewrite (train_unresolved _ _ _ _ _ _ _ _ _ _ Hget). simpl. split.
    + intros d _ _. split; [reflexivity |]. split.
      * intros ev [].
      * intros model H. discriminate H.
    + intros _. split; [reflexivity |]. intros model H. discriminate H.
Qed.

(** *** The caller's dict *)

Lemma bindR_lift {A B} (m : M A) (k : A -> R B) params self :
  bindR (lift m) k params self
  = match m self with
    | Outcome (Ok a) self' t => after_ref t (k a params self')
    | Outcome (Raise e) self' t => (Outcome (Raise e) self' t, params)
    end.
Proof.
  unfold bindR, lift. destruct (m self) as [[a | e] self' t]; reflexivity.
Qed.

(** Forgetting the dict gives back the code in [M]. *)
Lemma fst_bindR {A B} (m : R A) (k : A -> R B) (m' : M A) (k' : A -> M B)
    params self :
  fst (m params self) = m' self ->
  (forall a params' self', fst (k a params' self') = k' a self') ->
  fst (bindR m k params self) = bind m' k' self.
Proof.
  intros Hm Hk. unfold bindR, bind. rewrite <- Hm.
  destruct (m params self) as [[[a | e] self' t] params']; simpl;
    [rewrite Hk |]; reflexivity.
Qed.

(** [fit_or_search_ref] is [fit_or_search] on the dict it starts from, and
    leaves the dict popped. *)
Lemma fit_or_search_ref_run name model d ws wf kw params self :
  fit_or_search_ref name model d ws wf kw params self
  = (fit_or_search name model params d ws wf kw self, popped params).
Proof.
  unfold fit_or_search_ref, fit_or_search, popped.
  unfold bindR at 1, get_params at 1. simpl.
  destruct (opt_dict_truthy params) eqn:Hp.
  - unfold bindR, pop_param, get_params, lift, dict_pop, after_ref, bind. simpl.
    destruct (check_keywords ws kw self) as [[[] | e] self' t]; simpl;
      reflexivity.
  - rewrite bindR_lift. unfold bind, lift, after_ref.
    destruct (check_keywords wf kw self) as [[[] | e] self' t]; simpl;
      reflexivity.
Qed.

Lemma fst_bindR_lift {A B} (m : M A) (k : A -> R B) (k' : A -> M B) params self :
  (forall a self', fst (k a params self') = k' a self') ->
  fst (bindR (lift m) k params self) = bind m k' self.
Proof.
  intros Hk. rewrite bindR_lift. unfold bind.
  destruct (m self) as [[a | e] self' t]; simpl; [rewrite Hk |]; reflexivity.
Qed.

Lemma snd_bindR_lift_Ok {A B} (m : M A) (k : A -> R B) params self a self' t :
  m self = Outcome (Ok a) self' t ->
  snd (bindR (lift m) k params self) = snd (k a params self').
Proof. intros H. rewrite bindR_lift, H. reflexivity. Qed.

Lemma snd_bindR_lift_Raise {A B} (m : M A) (k : A -> R B) params self e self' t :
  m self = Outcome (Raise e) self' t ->
  snd (bindR (lift m) k params self) = params.
Proof. intros H. rewrite bindR_lift, H. reflexivity. Qed.

Lemma train_on_ref_fst W name model X y transforms splits kw params self :
  fst (train_on_ref W name model X y transforms splits kw params self)
  = train_on W name model X y transforms params splits kw self.
Proof.
  unfold train_on_ref, train_on.
  apply fst_bindR_lift. intros self0 self'.
  destruct X as [t | d].
  - destruct y as [ty |]; [| reflexivity].
    apply fst_bindR_lift. intros X self1.
    apply fst_bindR_lift. intros Xt self2.
    apply fst_bindR_lift. intros yt self3.
    apply fst_bindR_lift. intros u self4.
    rewrite fit_or_search_ref_run. reflexivity.
  - rewrite fit_or_search_ref_run. reflexivity.
Qed.

(** [train_ref] gives the outcome of [train]. *)
Lemma train_ref_fst W X y model_name transforms splits kw params self :
  fst (train_ref W X y model_name transforms splits kw params self)
  = train W X y model_name transforms params splits kw self.
Proof.
  unfold train_ref, train.
  apply fst_bindR_lift. intros [name model] self'.
  apply fst_bindR; [apply train_on_ref_fst |]. intros u p1 self1.
  apply fst_bindR; [reflexivity |]. intros self2 p2 self3.
  apply fst_bindR; reflexivity.
Qed.

(** The dict after [train] is the dict after [train_on], if the model
    resolved, and is untouched otherwise. *)
Lemma train_ref_snd W X y model_name transforms splits kw params self :
  snd (train_ref W X y model_name transforms splits kw params self)
  = match returned (get_model model_name self) with
    | Ok (name, model) =>
        snd (train_on_ref W name model X y transforms splits kw params self)
    | Raise _ => params
    end.
Proof.
  destruct (returned (get_model model_name self)) as [[name model] | e] eqn:Hget;
    unfold train_ref; rewrite bindR_lift, get_model_pure, Hget;
    [| reflexivity].
  unfold after_ref. cbn [snd]. unfold bindR at 1.
  destruct (train_on_ref W name model X y transforms splits kw params self)
    as [[[u | e] self' t] params']; reflexivity.
Qed.

(** On a Hugging Face dataset the dict is always reached. *)
Lemma train_on_ref_snd_HF W name model ds y transforms splits kw params self :
  snd (train_on_ref W name model (HF ds) y transforms splits kw params self)
  = popped params.
Proof.
  unfold train_on_ref. rewrite bindR_lift. unfold get_self, after_ref.
  rewrite fit_or_search_ref_run. reflexivity.
Qed.

(** On raw arrays the dict is reached once the arrays are there and their
    lengths agree. *)
Lemma train_on_ref_snd_raw W name model t ty transforms splits kw params self
    X Xt y tt' :
  to_numpy W t = Ok X ->
  apply_transforms transforms (ret tt) X self = Outcome (Ok Xt) self tt' ->
  to_numpy W ty = Ok y ->
  snd (train_on_ref W name model (Tabular t) (Some ty) transforms splits kw
         params self)
  = if (len Xt =? len y)%nat then popped params else params.
Proof.
  intros HX HXt Hy. unfold train_on_ref.
  rewrite (snd_bindR_lift_Ok _ _ _ _ self self [] eq_refl); cbn beta iota.
  rewrite (snd_bindR_lift_Ok (call (CallToNumpy t) (to_numpy W t)) _ _ _ X self
             [CallToNumpy t])
    by (unfold call; rewrite HX; reflexivity).
  cbn beta iota.
  rewrite (snd_bindR_lift_Ok _ _ _ _ _ _ _ HXt); cbn beta iota.
  rewrite (snd_bindR_lift_Ok (call (CallToNumpy ty) (to_numpy W ty)) _ _ _ y self
             [CallToNumpy ty])
    by (unfold call; rewrite Hy; reflexivity).
  cbn beta iota.
  destruct (len Xt =? len y)%nat; cbn [negb when].
  - rewrite (snd_bindR_lift_Ok (ret tt) _ _ _ tt self [] eq_refl).
    rewrite fit_or_search_ref_run. reflexivity.
  - rewrite (snd_bindR_lift_Raise (raise AssertionError) _ _ _ AssertionError
               self [] eq_refl).
    reflexivity.
Qed.

(** Either [train_on] stopped before the dispatch (the dict is untouched,
    no handle was called, an exception was raised), or the dict is popped. *)
Lemma train_on_ref_reached W name model X y transforms splits kw params self :
  (snd (train_on_ref W name model X y transforms splits kw params self) = params /\
   never is_fit_call
     (trace (train_on W name model X y transforms params splits kw self)) /\
   never is_search_call
     (trace (train_on W name model X y transforms params splits kw self)) /\
   exists e,
     returned (train_on W name model X y transforms params splits kw self)
     = Raise e) \/
  snd (train_on_ref W name model X y transforms splits kw params self)
  = popped params.
Proof.
  destruct X as [t | ds]; [| right; apply train_on_ref_snd_HF].
  destruct y as [ty |].
  - destruct (to_numpy W t) as [X | e] eqn:HX.
    + pose proof (apply_transforms_outcome transforms (ret tt) X self
                    (keeps_self_ret tt)) as Hout.
      pose proof (quiet_apply_transforms is_fit_call transforms (ret tt) X
                    (fun _ => eq_refl) (fun _ => eq_refl)
                    (quiet_ret is_fit_call tt) self) as Hqf.
      pose proof (quiet_apply_transforms is_search_call transforms (ret tt) X
                    (fun _ => eq_refl) (fun _ => eq_refl)
                    (quiet_ret is_search_call tt) self) as Hqs.
      destruct (returned (apply_transforms transforms (ret tt) X self))
        as [Xt | e].
      * destruct (to_numpy W ty) as [yt | e] eqn:Hy.
        -- rewrite (train_on_ref_snd_raw _ _ _ _ _ _ _ _ _ _ _ _ _ _ HX Hout Hy).
           rewrite (train_on_raw _ _ _ _ _ _ _ _ _ _ _ _ _ _ HX Hout Hy).
           destruct (len Xt =? len yt)%nat; [right; reflexivity |].
           left. simpl. rewrite app_nil_r.
           split; [reflexivity |].
           split; [apply (never_app _ [_]); [reflexivity |];
                   apply never_app; [assumption | reflexivity] |].
           split; [apply (never_app _ [_]); [reflexivity |];
                   apply never_app; [assumption | reflexivity] |].
           eauto.
        -- left. unfold train_on_ref, train_on.
           rewrite (snd_bindR_lift_Ok _ _ _ _ self self [] eq_refl); cbn beta iota.
           rewrite (snd_bindR_lift_Ok (call (CallToNumpy t) (to_numpy W t)) _ _ _ X self
             [CallToNumpy t])
             by (unfold call; rewrite HX; reflexivity).
        cbn beta iota.
           cbn beta iota.
  cbn beta iota.
           rewrite (snd_bindR_lift_Ok _ _ _ _ _ _ _ Hout); cbn beta iota.
           rewrite (snd_bindR_lift_Raise (call (CallToNumpy ty) (to_numpy W ty)) _ _ _ e self
                      [CallToNumpy ty])
             by (unfold call; rewrite Hy; reflexivity).
           rewrite bind_get_self, HX, bind_call_Ok.
           rewrite (bind_Ok _ _ _ _ _ _ Hout), Hy, bind_call_Raise. simpl.
           split; [reflexivity |].
           split; [apply (never_app _ [_]); [reflexivity |];
                   apply never_app; [assumption | reflexivity] |].
           split; [apply (never_app _ [_]); [reflexivity |];
                   apply never_app; [assumption | reflexivity] |].
           eauto.
      * left. unfold train_on_ref, train_on.
        rewrite (snd_bindR_lift_Ok _ _ _ _ self self [] eq_refl); cbn beta iota.
        rewrite (snd_bindR_lift_Ok (call (CallToNumpy t) (to_numpy W t)) _ _ _ X self
             [CallToNumpy t])
          by (unfold call; rewrite HX; reflexivity).
        cbn beta iota.
  cbn beta iota.
        rewrite (snd_bindR_lift_Raise _ _ _ _ _ _ _ Hout).
        rewrite bind_get_self, HX, bind_call_Ok.
        rewrite (bind_Raise _ _ _ _ _ _ Hout). simpl.
        split; [reflexivity |].
        split; [apply (never_app _ [_]); [reflexivity | assumption] |].
        split; [apply (never_app _ [_]); [reflexivity | assumption] |].
        eauto.
    + left. unfold train_on_ref, train_on.
      rewrite (snd_bindR_lift_Ok _ _ _ _ self self [] eq_refl); cbn beta iota.
      rewrite (snd_bindR_lift_Raise (call (CallToNumpy t) (to_numpy W t)) _ _ _ e self
                 [CallToNumpy t])
        by (unfold call; rewrite HX; reflexivity).
  cbn beta iota.
      rewrite bind_get_self, HX, bind_call_Raise. simpl.
      repeat split; eauto.
  - left. unfold train_on_ref, train_on.
    rewrite (snd_bindR_lift_Ok _ _ _ _ self self [] eq_refl); cbn beta iota.
    rewrite bind_get_self. simpl. repeat split; eauto.
Qed.

(** With a non-empty search space and keywords that do not clash,
    [fit_or_search] is the one call to [find_best]. *)
Lemma fit_or_search_search_free name model (d : dict) fd ws wf kw self :
  d <> ∅ ->
  (forall k, In k ws -> kw !! k = None) ->
  fit_or_search name model (Some d) fd ws wf kw self
  = Outcome (find_best model (delete "method" (delete "metric" d)) fd
               (from_option id VNone (d !! "metric"))
               (from_option id (VStr "grid") (d !! "method")) kw)
      self
      [CallFindBest name (delete "method" (delete "metric" d)) fd
         (from_option id VNone (d !! "metric"))
         (from_option id (VStr "grid") (d !! "method")) kw].
Proof.
  intros Hd Hfree. unfold fit_or_search, dict_pop. simpl.
  rewrite (dict_truthy_non_empty d Hd).
  rewrite lookup_delete_ne by discriminate.
  rewrite (bind_Ok _ _ _ _ _ _ (check_keywords_free _ _ self Hfree)).
  rewrite after_nil. reflexivity.
Qed.

(** Without a search space and with keywords that do not clash,
    [fit_or_search] is the one call to [fit]. *)
Lemma fit_or_search_fit_free name model params fd ws wf kw self :
  opt_dict_truthy params = false ->
  (forall k, In k wf -> kw !! k = None) ->
  fit_or_search name model params fd ws wf kw self
  = Outcome (fit model fd kw) self [CallFit name fd kw].
Proof.
  intros Hp Hfree. unfold fit_or_search. rewrite Hp.
  rewrite (bind_Ok _ _ _ _ _ _ (check_keywords_free _ _ self Hfree)).
  rewrite after_nil. reflexivity.
Qed.

(** [train] on a Hugging Face dataset, once the model is resolved. *)
Lemma train_structured_run W ds y model_name transforms params splits kw self
    name model :
  returned (get_model model_name self) = Ok (name, model) ->
  train W (HF ds) y model_name transforms params splits kw self
  = match fit_or_search name model params
            (FitDataset ds (task_features self) (task_target self) transforms
               splits)
            ["feature_columns"; "target_columns"; "transforms"; "metric";
             "method"; "splits_mapping"]
            ["feature_columns"; "target_columns"; "transforms"; "splits_mapping"]
            kw self with
    | Outcome (Ok _) _ t =>
        Outcome (Ok model) (with_trained self (trained_models self ++ [name])) t
    | Outcome (Raise e) _ t => Outcome (Raise e) self t
    end.
Proof.
  intros Hget. rewrite (train_resolved _ _ _ _ _ _ _ _ _ _ _ Hget).
  unfold train_on. rewrite bind_get_self. reflexivity.
Qed.

(** [train] on raw arrays, once the model is resolved, the arrays are
    there and their lengths agree. *)
Lemma train_raw_run W t ty model_name transforms params splits kw self name model
    X Xt y :
  returned (get_model model_name self) = Ok (name, model) ->
  to_numpy W t = Ok X ->
  returned (apply_transforms transforms (ret tt) X self) = Ok Xt ->
  to_numpy W ty = Ok y ->
  len Xt = len y ->
  train W (Tabular t) (Some ty) model_name transforms params splits kw self
  = match after (CallToNumpy t
                   :: trace (apply_transforms transforms (ret tt) X self)
                   ++ [CallToNumpy ty])
            (fit_or_search name model params (FitArrays Xt y)
               ["y"; "metric"; "method"] [] kw self) with
    | Outcome (Ok _) _ t =>
        Outcome (Ok model) (with_trained self (trained_models self ++ [name])) t
    | Outcome (Raise e) _ t => Outcome (Raise e) self t
    end.
Proof.
  intros Hget HX HXt Hy Hlen.
  rewrite (train_resolved _ _ _ _ _ _ _ _ _ _ _ Hget).
  pose proof (apply_transforms_outcome transforms (ret tt) X self
                (keeps_self_ret tt)) as Hout.
  rewrite HXt in Hout.
  rewrite (train_on_raw _ _ _ _ _ _ _ _ _ _ _ _ _ _ HX Hout Hy).
  apply Nat.eqb_eq in Hlen. rewrite Hlen. reflexivity.
Qed.

Lemma popped_non_empty (d : dict) :
  d <> ∅ -> popped (Some d) = Some (delete "method" (delete "metric" d)).
Proof.
  intros Hd. unfold popped. simpl. rewrite (dict_truthy_non_empty d Hd).
  reflexivity.
Qed.

Lemma popped_nothing params :
  params = None \/ params = Some ∅ -> popped params = params.
Proof. intros [-> | ->]; reflexivity. Qed.

(** C8: every [train] call, with [best_model_params] followed as the
    caller's own dict ([train_ref], whose outcome is that of [train]).

    With a non-empty dict: [fit] is never called, and a [find_best] call
    carries the dict with ["metric"] and ["method"] removed and the two
    values as keywords ([None] and ["grid"] when absent).  On a Hugging Face
    dataset, as soon as the model resolves, and on raw arrays, as soon as
    the arrays are there with equal lengths, the two keys are gone from the
    caller's dict and [find_best] is called (unless Python refuses the
    keywords): it is the only handle call, it comes last, and [train]
    returns the handle and records the name exactly when [find_best]
    returns, and raises what [find_best] raises otherwise.  If [train]
    stopped before that point, the caller's dict is untouched.

    With no dict, or an empty one: [find_best] is never called, the
    caller's dict is untouched, and at the same two points [fit] is called
    in the same way. *)
Theorem train_search_or_fit W X y model_name transforms params splits kw self :
  let o := train W X y model_name transforms params splits kw self in
  let params_after :=
    snd (train_ref W X y model_name transforms splits kw params self) in
  fst (train_ref W X y model_name transforms splits kw params self) = o /\
  (forall d : dict,
     params = Some d ->
     d <> ∅ ->
     let searched := delete "method" (delete "metric" d) in
     let metric := from_option id VNone (d !! "metric") in
     let method := from_option id (VStr "grid") (d !! "method") in
     never is_fit_call (trace o) /\
     (forall ev,
        In ev (trace o) ->
        is_search_call ev = true ->
        exists name fd, ev = CallFindBest name searched fd metric method kw) /\
     (forall model,
        returned o = Ok model ->
        exists name fd pre,
          returned (get_model model_name self) = Ok (name, model) /\
          trace o = pre ++ [CallFindBest name searched fd metric method kw] /\
          never is_search_call pre /\
          find_best model searched fd metric method kw = Ok tt) /\
     (params_after = Some searched \/
      params_after = Some d /\
      never is_search_call (trace o) /\
      exists e, returned o = Raise e) /\
     (forall ds name model,
        X = HF ds ->
        returned (get_model model_name self) = Ok (name, model) ->
        let fd := FitDataset ds (task_features self) (task_target self)
                    transforms splits in
        params_after = Some searched /\
        ((forall k,
            In k ["feature_columns"; "target_columns"; "transforms"; "metric";
                  "method"; "splits_mapping"] ->
            kw !! k = None) ->
         o = match find_best model searched fd metric method kw with
             | Ok _ =>
                 Outcome (Ok model)
                   (with_trained self (trained_models self ++ [name]))
                   [CallFindBest name searched fd metric method kw]
             | Raise e =>
                 Outcome (Raise e) self
                   [CallFindBest name searched fd metric method kw]
             end)) /\
     (forall t ty name model X0 Xt y0,
        X = Tabular t ->
        y = Some ty ->
        returned (get_model model_name self) = Ok (name, model) ->
        to_numpy W t = Ok X0 ->
        returned (apply_transforms transforms (ret tt) X0 self) = Ok Xt ->
        to_numpy W ty = Ok y0 ->
        len Xt = len y0 ->
        let fd := FitArrays Xt y0 in
        let events :=
          CallToNumpy t :: trace (apply_transforms transforms (ret tt) X0 self)
          ++ [CallToNumpy ty; CallFindBest name searched fd metric method kw] in
        params_after = Some searched /\
        ((forall k, In k ["y"; "metric"; "method"] -> kw !! k = None) ->
         o = match find_best model searched fd metric method kw with
             | Ok _ =>
                 Outcome (Ok model)
                   (with_trained self (trained_models self ++ [name])) events
             | Raise e => Outcome (Raise e) self events
             end))) /\
  (params = None \/ params = Some ∅ ->
   never is_search_call (trace o) /\
   params_after = params /\
   (forall model,
      returned o = Ok model ->
      exists name fd pre,
        returned (get_model model_name self) = Ok (name, model) /\
        trace o = pre ++ [CallFit name fd kw] /\
        never is_fit_call pre /\
        fit model fd kw = Ok tt) /\
   (forall ds name model,
      X = HF ds ->
      returned (get_model model_name self) = Ok (name, model) ->
      (forall k,
         In k ["feature_columns"; "target_columns"; "transforms";
               "splits_mapping"] ->
         kw !! k = None) ->
      let fd := FitDataset ds (task_features self) (task_target self) transforms
                  splits in
      o = match fit model fd kw with
          | Ok _ =>
              Outcome (Ok model)
                (with_trained self (trained_models self ++ [name]))
                [CallFit name fd kw]
          | Raise e => Outcome (Raise e) self [CallFit name fd kw]
          end) /\
   (forall t ty name model X0 Xt y0,
      X = Tabular t ->
      y = Some ty ->
      returned (get_model model_name self) = Ok (name, model) ->
      to_numpy W t = Ok X0 ->
      returned (apply_transforms transforms (ret tt) X0 self) = Ok Xt ->
      to_numpy W ty = Ok y0 ->
      len Xt = len y0 ->
      let fd := FitArrays Xt y0 in
      let events :=
        CallToNumpy t :: trace (apply_transforms transforms (ret tt) X0 self)
        ++ [CallToNumpy ty; CallFit name fd kw] in
      o = match fit model fd kw with
          | Ok _ =>
              Outcome (Ok model)
                (with_trained self (trained_models self ++ [name])) events
          | Raise e => Outcome (Raise e) self events
          end)).
Proof.
  cbv zeta.
  destruct (train_search_or_fit_events W X y model_name transforms params splits
              kw self) as [Hsearch Hfit].
  cbv zeta in Hsearch.
  assert (Hafter :
    snd (train_ref W X y model_name transforms splits kw params self)
    = popped params \/
    snd (train_ref W X y model_name transforms splits kw params self) = params /\
    never is_search_call
      (trace (train W X y model_name transforms params splits kw self)) /\
    exists e,
      returned (train W X y model_name transforms params splits kw self) = Raise e).
  { rewrite train_ref_snd.
    destruct (returned (get_model model_name self)) as [[name model] | e] eqn:Hget.
    - destruct (train_on_ref_reached W name model X y transforms splits kw params
                  self) as [[Hsnd [_ [Hq [e Hret]]]] | Hsnd]; [right | left; exact Hsnd].
      split; [exact Hsnd |].
      rewrite (proj1 (train_resolved_trace W X y model_name transforms params
                        splits kw self name model Hget)).
      split; [exact Hq |].
      rewrite (train_resolved _ _ _ _ _ _ _ _ _ _ _ Hget).
      destruct (train_on W name model X y transforms params splits kw self)
        as [[u | e'] self' t]; simpl in *; [discriminate Hret | eauto].
    - right. rewrite (train_unresolved _ _ _ _ _ _ _ _ _ _ Hget). simpl.
      split; [reflexivity |]. split; [reflexivity | eauto]. }
  split; [apply train_ref_fst |]. split.
  - intros d -> Hd.
    destruct (Hsearch d eq_refl Hd) as [H1 [H2 H3]].
    split; [exact H1 |]. split; [exact H2 |]. split; [exact H3 |].
    rewrite (popped_non_empty d Hd) in Hafter.
    split; [exact Hafter |]. split.
    + intros ds name model -> Hget. split.
      * rewrite train_ref_snd, Hget, train_on_ref_snd_HF.
        apply popped_non_empty, Hd.
      * intros Hfree.
        rewrite (train_structured_run _ _ _ _ _ _ _ _ _ _ _ Hget).
        rewrite (fit_or_search_search_free _ _ _ _ _ _ _ _ Hd Hfree).
        destruct (find_best model _ _ _ _ kw); reflexivity.
    + intros t ty name model X0 Xt y0 -> -> Hget HX HXt Hy Hlen. split.
      * rewrite train_ref_snd, Hget.
        rewrite (train_on_ref_snd_raw W name model t ty transforms splits kw
                   (Some d) self X0 Xt y0
                   (trace (apply_transforms transforms (ret tt) X0 self)) HX);
          [| | exact Hy].
        -- apply Nat.eqb_eq in Hlen. rewrite Hlen.
           apply popped_non_empty, Hd.
        -- rewrite <- HXt. apply apply_transforms_outcome, keeps_self_ret.
      * intros Hfree.
        rewrite (train_raw_run _ _ _ _ _ _ _ _ _ _ _ _ _ _ Hget HX HXt Hy Hlen).
        rewrite (fit_or_search_search_free _ _ _ _ _ _ _ _ Hd Hfree).
        destruct (find_best model _ _ _ _ kw); simpl;
          rewrite <- app_assoc; reflexivity.
  - intros Hparams.
    destruct (Hfit Hparams) as [H1 H2].
    assert (Hp : opt_dict_truthy params = false)
      by (destruct Hparams as [-> | ->]; reflexivity).
    split; [exact H1 |]. split.
    { rewrite (popped_nothing params Hparams) in Hafter.
      destruct Hafter as [H | [H _]]; exact H. }
    split; [exact H2 |]. split.
    + intros ds name model -> Hget Hfree.
      rewrite (train_structured_run _ _ _ _ _ _ _ _ _ _ _ Hget).
      rewrite (fit_or_search_fit_free _ _ _ _ _ _ _ _ Hp Hfree).
      destruct (fit model _ kw); reflexivity.
    + intros t ty name model X0 Xt y0 -> -> Hget HX HXt Hy Hlen.
      rewrite (train_raw_run _ _ _ _ _ _ _ _ _ _ _ _ _ _ Hget HX HXt Hy Hlen).
      rewrite (fit_or_search_fit_free name model params (FitArrays Xt y0)
                 ["y"; "metric"; "method"] [] kw self Hp
                 (fun k (H : In k []) => False_ind _ H)).
      destruct (fit model _ kw); simpl; rewrite <- app_assoc; reflexivity.
Qed.

Lemma train_search_or_fit_witness :
  (train Fixtures.world Fixtures.test_set None None None
     (Some Fixtures.search_space) Fixtures.train_splits ∅ Fixtures.one_model
   = Outcome (Ok (Fixtures.handle true))
       (with_trained Fixtures.one_model ["lr"])
       [CallFindBest "lr" {["C" := VList [VInt 1; VInt 10]]}
          (FitDataset Fixtures.test_hf Fixtures.features Fixtures.target None
             Fixtures.train_splits)
          (VStr "accuracy") (VStr "random") ∅] /\
   snd (train_ref Fixtures.world Fixtures.test_set None None None
          Fixtures.train_splits ∅ (Some Fixtures.search_space)
          Fixtures.one_model)
   = Some {["C" := VList [VInt 1; VInt 10]]}) /\
  (train Fixtures.world Fixtures.test_set None None None
     (Some Fixtures.search_space) Fixtures.train_splits ∅
     SearchFixtures.one_failing
   = Outcome (Raise SearchFixtures.search_error) SearchFixtures.one_failing
       [CallFindBest "lr" {["C" := VList [VInt 1; VInt 10]]}
          (FitDataset Fixtures.test_hf Fixtures.features Fixtures.target None
             Fixtures.train_splits)
          (VStr "accuracy") (VStr "random") ∅] /\
   snd (train_ref Fixtures.world Fixtures.test_set None None None
          Fixtures.train_splits ∅ (Some Fixtures.search_space)
          SearchFixtures.one_failing)
   = Some {["C" := VList [VInt 1; VInt 10]]}) /\
  (train Fixtures.world (Tabular Fixtures.X3) (Some Fixtures.y3) None None
     (Some Fixtures.search_space_no_method) Fixtures.train_splits ∅
     Fixtures.one_model
   = Outcome (Ok (Fixtures.handle true))
       (with_trained Fixtures.one_model ["lr"])
       [CallToNumpy Fixtures.X3; CallToNumpy Fixtures.y3;
        CallFindBest "lr" {["C" := VList [VInt 1; VInt 10]]}
          (FitArrays (Arr2 [[1; 0]; [0; 1]; [1; 1]]%Z) (Arr1 [0; 1; 1]%Z))
          VNone (VStr "grid") ∅]) /\
  (train Fixtures.world (Tabular Fixtures.X3) (Some Fixtures.y3) None None
     None Fixtures.train_splits ∅ Fixtures.one_model
   = Outcome (Ok (Fixtures.handle true))
       (with_trained Fixtures.one_model ["lr"])
       [CallToNumpy Fixtures.X3; CallToNumpy Fixtures.y3;
        CallFit "lr"
          (FitArrays (Arr2 [[1; 0]; [0; 1]; [1; 1]]%Z) (Arr1 [0; 1; 1]%Z)) ∅] /\
   snd (train_ref Fixtures.world (Tabular Fixtures.X3) (Some Fixtures.y3) None
          None Fixtures.train_splits ∅ None Fixtures.one_model)
   = None).
Proof.
  assert (Hfree : forall ws (k : string), In k ws -> (∅ : kwargs) !! k = None)
    by (intros ws k _; apply lookup_empty).
  split; [| split; [| split]].
  - destruct (train_search_or_fit Fixtures.world Fixtures.test_set None None
                None (Some Fixtures.search_space) Fixtures.train_splits ∅
                Fixtures.one_model) as [_ [Hsearch _]].
    destruct (Hsearch Fixtures.search_space eq_refl)
      as [_ [_ [_ [_ [Hhf _]]]]].
    { apply insert_non_empty. }
    destruct (Hhf Fixtures.test_hf "lr" (Fixtures.handle true) eq_refl eq_refl)
      as [Hdict Hrun].
    split; [exact (Hrun (Hfree _)) | exact Hdict].
  - destruct (train_search_or_fit Fixtures.world Fixtures.test_set None None
                None (Some Fixtures.search_space) Fixtures.train_splits ∅
                SearchFixtures.one_failing) as [_ [Hsearch _]].
    destruct (Hsearch Fixtures.search_space eq_refl)
      as [_ [_ [_ [_ [Hhf _]]]]].
    { apply insert_non_empty. }
    destruct (Hhf Fixtures.test_hf "lr" SearchFixtures.failing_search eq_refl
                eq_refl) as [Hdict Hrun].
    split; [exact (Hrun (Hfree _)) | exact Hdict].
  - destruct (train_search_or_fit Fixtures.world (Tabular Fixtures.X3)
                (Some Fixtures.y3) None None
                (Some Fixtures.search_space_no_method) Fixtures.train_splits ∅
                Fixtures.one_model) as [_ [Hsearch _]].
    destruct (Hsearch Fixtures.search_space_no_method eq_refl)
      as [_ [_ [_ [_ [_ Hraw]]]]].
    { apply insert_non_empty. }
    destruct (Hraw Fixtures.X3 Fixtures.y3 "lr" (Fixtures.handle true)
                (Arr2 [[1; 0]; [0; 1]; [1; 1]]%Z)
                (Arr2 [[1; 0]; [0; 1]; [1; 1]]%Z) (Arr1 [0; 1; 1]%Z)
                eq_refl eq_refl eq_refl eq_refl eq_refl eq_refl eq_refl)
      as [_ Hrun].
    exact (Hrun (Hfree _)).
  - destruct (train_search_or_fit Fixtures.world (Tabular Fixtures.X3)
                (Some Fixtures.y3) None None None Fixtures.train_splits ∅
                Fixtures.one_model) as [_ [_ Hfit]].
    destruct (Hfit (or_introl eq_refl)) as [_ [Hdict [_ [_ Hraw]]]].
    split; [| exact Hdict].
    exact (Hraw Fixtures.X3 Fixtures.y3 "lr" (Fixtures.handle true)
             (Arr2 [[1; 0]; [0; 1]; [1; 1]]%Z)
             (Arr2 [[1; 0]; [0; 1]; [1; 1]]%Z) (Arr1 [0; 1; 1]%Z)
             eq_refl eq_refl eq_refl eq_refl eq_refl eq_refl eq_refl).
Defined.

(** The values the search of the fixture runs with: the two keys are gone
    from the dict and travel as keywords; without a ["method"] key the
    method is ["grid"]. *)
Example search_space_popped :
  delete "method" (delete "metric" Fixtures.search_space)
  = {["C" := VList [VInt 1; VInt 10]]} /\
  from_option id VNone (Fixtures.search_space !! "metric") = VStr "accuracy" /\
  from_option id (VStr "grid") (Fixtures.search_space !! "method") = VStr "random" /\
  from_option id (VStr "grid") (Fixtures.search_space_no_method !! "method")
  = VStr "grid".
Proof.
  repeat split; reflexivity.
Qed.

(** ** Predicting *)

(** C5: [predict] with [proba=True] on a resolved, fitted model.  On a
    structured dataset and on a raw source alike, the last thing the
    controller does is one call on the handle: [predict_proba] when the
    handle is an [SKModel] (the test the code uses for "supports
    probabilities"), plain [predict] otherwise; what that call returns or
    raises is what [predict] returns or raises. *)
Theorem predict_proba_dispatch W model_name self name model kw :
  returned (get_model model_name self) = Ok (name, model) ->
  str_in name (fitted_names self) = true ->
  (forall d transforms splits,
     (forall k,
        In k ["feature_columns"; "transforms"; "model_name"; "splits_mapping"] ->
        kw !! k = None) ->
     let pd := PredictDataset d (task_features self) transforms name splits in
     predict W (HF d) model_name transforms true splits kw self
     = if is_SKModel model
       then Outcome (model_predict_proba model pd kw) self
              [CallPredictProba name pd kw]
       else Outcome (model_predict model pd kw) self [CallPredict name pd kw]) /\
  (forall t transforms splits X Xt,
     to_numpy W t = Ok X ->
     returned (apply_transforms transforms
                 (emit (Log WARNING msg_fitting_preprocessor)) X self) = Ok Xt ->
     let pd := PredictArray Xt in
     let pre := CallToNumpy t
                  :: trace (apply_transforms transforms
                              (emit (Log WARNING msg_fitting_preprocessor)) X self) in
     never is_prediction_call pre /\
     predict W (Tabular t) model_name transforms true splits kw self
     = if is_SKModel model
       then Outcome (model_predict_proba model pd kw) self
              (pre ++ [CallPredictProba name pd kw])
       else Outcome (model_predict model pd kw) self
              (pre ++ [CallPredict name pd kw])).
Proof.
  intros Hget Hfit. split.
  - intros d transforms splits Hfree. cbv zeta.
    rewrite (predict_fitted _ _ _ _ _ _ _ _ _ _ Hget Hfit).
    unfold predict_on. rewrite bind_get_self.
    rewrite (bind_Ok _ _ _ _ _ _ (check_keywords_free _ _ self Hfree)).
    rewrite after_nil. simpl.
    destruct (is_SKModel model); reflexivity.
  - intros t transforms splits X Xt HX HXt. cbv zeta. split.
    + apply (never_app _ [_]); [reflexivity |].
      apply quiet_apply_transforms; auto with controller.
    + rewrite (predict_fitted _ _ _ _ _ _ _ _ _ _ Hget Hfit).
      unfold predict_on. rewrite bind_get_self, HX, bind_call_Ok.
      pose proof (apply_transforms_outcome transforms
                    (emit (Log WARNING msg_fitting_preprocessor)) X self
                    (keeps_self_emit _)) as Hout.
      rewrite HXt in Hout. rewrite (bind_Ok _ _ _ _ _ _ Hout). simpl.
      destruct (is_SKModel model); reflexivity.
Qed.

Lemma predict_proba_dispatch_witness :
  predict Fixtures.world Fixtures.test_set (Some "lr") None true
    Fixtures.test_splits ∅ Fixtures.two_trained
  = Outcome (Ok Fixtures.test_set) Fixtures.two_trained
      [CallPredictProba "lr"
         (PredictDataset Fixtures.test_hf Fixtures.features None "lr"
            Fixtures.test_splits) ∅] /\
  predict Fixtures.world Fixtures.test_set (Some "mlp") None true
    Fixtures.test_splits ∅ Fixtures.two_trained
  = Outcome (Ok Fixtures.test_set) Fixtures.two_trained
      [CallPredict "mlp"
         (PredictDataset Fixtures.test_hf Fixtures.features None "mlp"
            Fixtures.test_splits) ∅] /\
  predict Fixtures.world (Tabular Fixtures.X3) (Some "mlp") None true
    Fixtures.test_splits ∅ Fixtures.two_trained
  = Outcome (Ok (Tabular (NDArray (Arr1 [0; 0; 0]%Z)))) Fixtures.two_trained
      [CallToNumpy Fixtures.X3;
       CallPredict "mlp" (PredictArray (Arr2 [[1; 0]; [0; 1]; [1; 1]]%Z)) ∅].
Proof.
  split; [| split].
  - apply (proj1 (predict_proba_dispatch Fixtures.world (Some "lr")
                    Fixtures.two_trained "lr" (Fixtures.handle true) ∅
                    eq_refl eq_refl)).
    intros k _. apply lookup_empty.
  - apply (proj1 (predict_proba_dispatch Fixtures.world (Some "mlp")
                    Fixtures.two_trained "mlp" (Fixtures.handle false) ∅
                    eq_refl eq_refl)).
    intros k _. apply lookup_empty.
  - apply (proj2 (predict_proba_dispatch Fixtures.world (Some "mlp")
                    Fixtures.two_trained "mlp" (Fixtures.handle false) ∅
                    eq_refl eq_refl)
             Fixtures.X3 None Fixtures.test_splits
             (Arr2 [[1; 0]; [0; 1]; [1; 1]]%Z) (Arr2 [[1; 0]; [0; 1]; [1; 1]]%Z)
             eq_refl eq_refl).
Defined.

(** ** Evaluating *)

Lemma keeps_self_comprehension {A B} (f : A -> M B) l :
  (forall x, keeps_self (f x)) -> keeps_self (comprehension f l).
Proof.
  intros Hf. induction l as [| x l IH]; simpl; auto with controller.
Qed.

Lemma quiet_comprehension {A B} p (f : A -> M B) l :
  (forall x, quiet p (f x)) -> quiet p (comprehension f l).
Proof.
  intros Hf. induction l as [| x l IH]; simpl; auto with controller.
Qed.

Lemma keeps_self_build_metrics W metrics : keeps_self (build_metrics W metrics).
Proof.
  unfold build_metrics. apply keeps_self_bind; [auto with controller |].
  intros self. destruct metrics as [[| m names] | c]; auto with controller.
  apply keeps_self_bind; [| auto with controller].
  apply keeps_self_comprehension. auto with controller.
Qed.

Lemma quiet_build_metrics W metrics : quiet is_engine_call (build_metrics W metrics).
Proof.
  unfold build_metrics. apply quiet_bind; [auto with controller |].
  intros self. destruct metrics as [[| m names] | c]; auto with controller.
  apply quiet_bind.
  - apply quiet_comprehension. intros x. apply quiet_call. reflexivity.
  - intros built. apply quiet_bind; [| auto with controller].
    apply quiet_call. reflexivity.
Qed.

Lemma quiet_predict W dataset model_name transforms proba splits kw :
  quiet is_engine_call (predict W dataset model_name transforms proba splits kw).
Proof.
  unfold predict. apply quiet_bind; [auto with controller |].
  intros [name model]. apply quiet_bind; [auto with controller |].
  intros self. apply quiet_bind; [auto with controller |].
  intros _. unfold predict_on. apply quiet_bind; [auto with controller |].
  intros self'. destruct dataset as [t | d].
  - apply quiet_bind; [apply quiet_call; reflexivity |]. intros X.
    apply quiet_bind.
    + apply quiet_apply_transforms; try reflexivity.
      apply quiet_emit. reflexivity.
    + intros Xt. destruct (proba && is_SKModel model);
        apply quiet_call; reflexivity.
  - apply quiet_bind; [auto with controller |]. intros _.
    destruct (proba && is_SKModel model); apply quiet_call; reflexivity.
Qed.

Lemma keeps_self_evaluate_model W transforms prefix splits dataset model_name :
  keeps_self (evaluate_model W transforms prefix splits dataset model_name).
Proof.
  unfold evaluate_model. apply keeps_self_bind; [auto with controller |].
  intros self. apply keeps_self_bind; [auto with controller |].
  intros _. apply keeps_self_predict.
Qed.

Lemma quiet_evaluate_model W transforms prefix splits dataset model_name :
  quiet is_engine_call
    (evaluate_model W transforms prefix splits dataset model_name).
Proof.
  unfold evaluate_model. apply quiet_bind; [auto with controller |].
  intros self. apply quiet_bind.
  - apply quiet_when, quiet_emit. reflexivity.
  - intros _. apply quiet_predict.
Qed.

(** The loop body on a non-empty name that was neither trained nor
    loaded: the warning is logged, then [predict] is called and raises. *)
Lemma evaluate_model_not_fitted W transforms prefix splits dataset n self :
  str_truthy n = true ->
  str_in n (fitted_names self) = false ->
  evaluate_model W transforms prefix splits dataset n self
  = Outcome
      (Raise (if str_in n (list_models self)
              then NotFittedError (msg_not_fitted 16)
              else ValueError (msg_does_not_exist n)))
      self [Log WARNING (msg_not_fitted 20)].
Proof.
  intros Hn Hfit. unfold evaluate_model.
  rewrite bind_get_self, Hfit. simpl. unfold bind at 1, emit. simpl.
  destruct (str_in n (list_models self)) eqn:Hin.
  - destruct (get_model_known n self Hn Hin) as [model [_ Hget]].
    rewrite (predict_not_fitted W dataset (Some n) transforms true splits _
               self n model); [reflexivity | rewrite Hget; reflexivity | exact Hfit].
  - rewrite (predict_unresolved W dataset (Some n) transforms true splits _ self
               (ValueError (msg_does_not_exist n))); [reflexivity |].
    rewrite (get_model_unknown n self Hn Hin). reflexivity.
Qed.

(** A loop that meets such a name does not get past it. *)
Lemma evaluate_loop_not_fitted W transforms prefix splits n self names :
  str_truthy n = true ->
  str_in n (fitted_names self) = false ->
  In n names ->
  forall dataset,
  exists e t,
    for_each names dataset (evaluate_model W transforms prefix splits) self
    = Outcome (Raise e) self t /\
    never is_engine_call t.
Proof.
  intros Hn Hfit. induction names as [| x names IH]; intros Hin dataset.
  - destruct Hin.
  - simpl. unfold bind.
    pose proof (keeps_self_evaluate_model W transforms prefix splits dataset x self)
      as Hself.
    pose proof (quiet_evaluate_model W transforms prefix splits dataset x self)
      as Hquiet.
    destruct (evaluate_model W transforms prefix splits dataset x self)
      as [[dataset' | e] self' t] eqn:Hbody; simpl in Hself, Hquiet; subst self'.
    + destruct Hin as [-> | Hin].
      * rewrite (evaluate_model_not_fitted _ _ _ _ _ _ _ Hn Hfit) in Hbody.
        discriminate Hbody.
      * destruct (IH Hin dataset') as [e [t' [Hloop Ht']]].
        rewrite Hloop. simpl. exists e, (t ++ t').
        split; [reflexivity | apply never_app; assumption].
    + exists e, t. split; [reflexivity | assumption].
Qed.

(** C1, as the code has it: for a non-empty name that was neither trained
    nor loaded, the loop of [evaluate] logs the warning and then calls
    [predict] on the name, which raises ([NotFittedError] when the name is
    registered, the [ValueError] of [get_model] when it is not).  So an
    [evaluate] call whose names include such a name raises, never reaches
    the evaluation engine and leaves the task object as it was; with a
    built metric collection and that name alone, all it does is log the
    warning and raise.  [predict] called directly on such a registered name
    raises [NotFittedError] and logs nothing. *)
Theorem evaluate_unfitted_name_raises W self n :
  str_truthy n = true ->
  str_in n (fitted_names self) = false ->
  (forall transforms prefix splits dataset,
     evaluate_model W transforms prefix splits dataset n self
     = Outcome
         (Raise (if str_in n (list_models self)
                 then NotFittedError (msg_not_fitted 16)
                 else ValueError (msg_does_not_exist n)))
         self [Log WARNING (msg_not_fitted 20)]) /\
  (forall dataset metrics model_names transforms prefix splits slice_spec
          batch_size remove_columns,
     In n (evaluated_names self model_names) ->
     let o := evaluate W dataset metrics model_names transforms prefix splits
                slice_spec batch_size remove_columns self in
     (exists e, returned o = Raise e) /\
     never is_engine_call (trace o) /\
     self_after o = self) /\
  (forall dataset collection transforms prefix splits slice_spec batch_size
          remove_columns,
     evaluate W dataset (Metrics collection) (Some (OneStr n)) transforms prefix
       splits slice_spec batch_size remove_columns self
     = Outcome
         (Raise (if str_in n (list_models self)
                 then NotFittedError (msg_not_fitted 16)
                 else ValueError (msg_does_not_exist n)))
         self [Log WARNING (msg_not_fitted 20)]) /\
  (str_in n (list_models self) = true ->
   forall dataset transforms proba splits kw,
     predict W dataset (Some n) transforms proba splits kw self
     = Outcome (Raise (NotFittedError (msg_not_fitted 16))) self []).
Proof.
  intros Hn Hfit. split; [| split; [| split]].
  - intros. apply evaluate_model_not_fitted; assumption.
  - intros dataset metrics model_names transforms prefix splits slice_spec
           batch_size remove_columns Hin. cbv zeta.
    assert (Hrun : exists e t,
               evaluate W dataset metrics model_names transforms prefix splits
                 slice_spec batch_size remove_columns self
               = Outcome (Raise e) self t /\
               never is_engine_call t).
    { unfold evaluate. unfold bind at 1.
      pose proof (keeps_self_build_metrics W metrics self) as Hself.
      pose proof (quiet_build_metrics W metrics self) as Hquiet.
      destruct (build_metrics W metrics self) as [[built | e] self' t];
        simpl in Hself, Hquiet; subst self'.
      - rewrite bind_get_self.
        destruct (evaluate_loop_not_fitted W transforms prefix splits n self
                    (evaluated_names self model_names) Hn Hfit Hin dataset)
          as [e [t' [Hloop Ht']]].
        rewrite (bind_Raise _ _ _ _ _ _ Hloop). simpl.
        exists e, (t ++ t'). split; [reflexivity | apply never_app; assumption].
      - exists e, t. split; [reflexivity | assumption]. }
    destruct Hrun as [e [t [-> Ht]]]. simpl. eauto.
  - intros dataset collection transforms prefix splits slice_spec batch_size
           remove_columns.
    unfold evaluate.
    rewrite (bind_Ok _ _ self (Metrics collection) self []) by reflexivity.
    rewrite after_nil, bind_get_self.
    apply bind_Raise. simpl. apply bind_Raise.
    apply evaluate_model_not_fitted; assumption.
  - intros Hin dataset transforms proba splits kw.
    destruct (get_model_known n self Hn Hin) as [model [_ Hget]].
    apply (predict_not_fitted W dataset (Some n) transforms proba splits kw
             self n model); [rewrite Hget; reflexivity | exact Hfit].
Qed.

Lemma evaluate_unfitted_name_raises_witness :
  evaluate Fixtures.world Fixtures.test_set
    (Metrics {| collected := [] |}) (Some (OneStr "lr")) None
    "predictions" Fixtures.test_splits None 1000%Z None Fixtures.one_model
  = Outcome (Raise (NotFittedError (msg_not_fitted 16))) Fixtures.one_model
      [Log WARNING (msg_not_fitted 20)] /\
  predict Fixtures.world Fixtures.test_set (Some "lr") None true
    Fixtures.test_splits ∅ Fixtures.one_model
  = Outcome (Raise (NotFittedError (msg_not_fitted 16))) Fixtures.one_model [].
Proof.
  destruct (evaluate_unfitted_name_raises Fixtures.world Fixtures.one_model "lr"
              eq_refl eq_refl) as [_ [_ [Hevaluate Hpredict]]].
  split.
  - apply Hevaluate.
  - apply Hpredict. reflexivity.
Defined.

(** C1 as the specification words it fails: [evaluate] on a registered
    model that was neither trained nor loaded logs the warning and then
    raises [NotFittedError]; the evaluation engine is never called. *)
Lemma evaluate_unfitted_model_does_not_complete :
  str_in "lr" (fitted_names Fixtures.one_model) = false /\
  returned (evaluate Fixtures.world Fixtures.test_set (MetricNames ["accuracy"])
              (Some (OneStr "lr")) None "predictions" Fixtures.test_splits None
              1000%Z None Fixtures.one_model)
  = Raise (NotFittedError (msg_not_fitted 16)) /\
  trace (evaluate Fixtures.world Fixtures.test_set (MetricNames ["accuracy"])
           (Some (OneStr "lr")) None "predictions" Fixtures.test_splits None
           1000%Z None Fixtures.one_model)
  = [CallCreateMetric "accuracy" "binary" 4;
     CallMetricCollection
       [{| metric_name := "accuracy";
           metric_task := "binary";
           metric_num_labels := 4 |}];
     Log WARNING (msg_not_fitted 20)] /\
  ~ (exists r,
       returned (evaluate Fixtures.world Fixtures.test_set
                   (MetricNames ["accuracy"]) (Some (OneStr "lr")) None
                   "predictions" Fixtures.test_splits None 1000%Z None
                   Fixtures.one_model)
       = Ok r).
Proof.
  repeat split.
  intros [r Hr]. discriminate Hr.
Qed.

(** * Further properties of the controller *)

(** ** The registry as an ordered dict *)

Lemma str_in_In x l : str_in x l = true <-> In x l.
Proof.
  unfold str_in. rewrite existsb_exists. split.
  - intros [y [Hy Heq]]. apply String.eqb_eq in Heq. subst. assumption.
  - intros H. exists x. split; [assumption | apply String.eqb_refl].
Qed.

Lemma str_in_not_In x l : str_in x l = false <-> ~ In x l.
Proof.
  rewrite <- str_in_In. destruct (str_in x l); split; intros H; congruence.
Qed.

Lemma odict_get_In_keys {V} k (d : list (string * V)) v :
  odict_get k d = Some v -> In k (odict_keys d).
Proof.
  induction d as [| [k' v'] d IH]; simpl; [discriminate |].
  destruct (String.eqb k k') eqn:E.
  - apply String.eqb_eq in E. subst. auto.
  - auto.
Qed.

Lemma odict_get_not_In {V} k (d : list (string * V)) :
  ~ In k (odict_keys d) -> odict_get k d = None.
Proof.
  intros H. destruct (odict_get k d) eqn:E; [| reflexivity].
  apply odict_get_In_keys in E. contradiction.
Qed.

(** Reading after [d[k] = v]. *)
Lemma odict_get_set {V} k' k (v : V) d :
  odict_get k' (odict_set k v d)
  = if String.eqb k' k then Some v else odict_get k' d.
Proof.
  induction d as [| [k0 v0] d IH]; simpl.
  - reflexivity.
  - destruct (String.eqb k k0) eqn:E; simpl.
    + apply String.eqb_eq in E. subst k0.
      destruct (String.eqb k' k); reflexivity.
    + rewrite IH. destruct (String.eqb k' k0) eqn:E0; [| reflexivity].
      apply String.eqb_eq in E0. subst k0.
      rewrite String.eqb_sym, E. reflexivity.
Qed.

(** [d[k] = v] keeps the keys in place and puts a new key last. *)
Lemma odict_keys_set {V} k (v : V) d :
  odict_keys (odict_set k v d)
  = if str_in k (odict_keys d) then odict_keys d else odict_keys d ++ [k].
Proof.
  unfold str_in, odict_keys.
  induction d as [| [k0 v0] d IH]; simpl; [reflexivity |].
  destruct (String.eqb k k0); simpl; [reflexivity |].
  rewrite IH. destruct (existsb (String.eqb k) (map fst d)); reflexivity.
Qed.

(** Reading after [d.update(other)], for [other] with distinct keys. *)
Lemma odict_get_update {V} k (d other : list (string * V)) :
  List.NoDup (odict_keys other) ->
  odict_get k (odict_update d other)
  = match odict_get k other with
    | Some v => Some v
    | None => odict_get k d
    end.
Proof.
  unfold odict_update. revert d.
  induction other as [| [k0 v0] other IH]; intros d Hnd; simpl.
  - reflexivity.
  - inversion Hnd as [| ? ? Hnotin Hnd']; subst.
    rewrite (IH _ Hnd'), odict_get_set.
    destruct (String.eqb k k0) eqn:E; [| reflexivity].
    apply String.eqb_eq in E. subst k0.
    rewrite (odict_get_not_In k other Hnotin). reflexivity.
Qed.

(** [d.update(other)] keeps the keys of [d] where they are; the keys it
    adds come from [other] and are new. *)
Lemma odict_keys_update {V} (d other : list (string * V)) :
  exists added,
    odict_keys (odict_update d other) = odict_keys d ++ added /\
    (forall k, In k added -> In k (odict_keys other) /\ ~ In k (odict_keys d)) /\
    (forall k, In k (odict_keys other) -> In k (odict_keys d ++ added)).
Proof.
  unfold odict_update. revert d.
  induction other as [| [k0 v0] other IH]; intros d; simpl.
  - exists []. rewrite app_nil_r.
    split; [reflexivity |]. split; intros k Hk; destruct Hk.
  - destruct (IH (odict_set k0 v0 d)) as [added [Hkeys [Hnew Hall]]].
    rewrite odict_keys_set in Hkeys, Hnew, Hall.
    destruct (str_in k0 (odict_keys d)) eqn:E.
    + exists added. split; [exact Hkeys |]. split.
      * intros k Hk. destruct (Hnew k Hk). auto.
      * intros k [<- | Hk]; [| auto].
        apply in_or_app. left. apply str_in_In. exact E.
    + exists (k0 :: added). rewrite <- app_assoc in Hkeys, Hall. simpl in *.
      split; [exact Hkeys |]. split.
      * intros k [<- | Hk].
        -- split; [auto |]. apply str_in_not_In. exact E.
        -- destruct (Hnew k Hk) as [H1 H2]. split; [auto |].
           intros Hin. apply H2. apply in_or_app. auto.
      * intros k [<- | Hk]; [| auto].
        apply in_or_app. right. left. reflexivity.
Qed.

(** ** Resolving a model *)

(** X1: the outcomes of [get_model].  A returned handle is the one the
    registry holds under the returned name; the returned name is the name
    asked for, or, when none was given, the only registered name.  The call
    fails in three ways only: no name and several models, a non-empty name
    that is not registered, no name and no model ([IndexError]).  The
    subscript [self.models[model_name]] never fails: no [KeyError]. *)
Theorem get_model_outcomes self model_name :
  match returned (get_model model_name self) with
  | Ok (name, model) =>
      odict_get name (models self) = Some model /\
      (if name_truthy model_name
       then model_name = Some name
       else list_models self = [name])
  | Raise e =>
      (e = ValueError (msg_specify_model (list_models self)) /\
       (1 < models_count self)%nat /\
       name_truthy model_name = false) \/
      (exists s,
         e = ValueError (msg_does_not_exist s) /\
         model_name = Some s /\
         str_truthy s = true /\
         str_in s (list_models self) = false) \/
      (e = IndexError /\
       models self = [] /\
       name_truthy model_name = false)
  end.
Proof.
  assert (Hfirst : forall n,
             name_truthy n = false ->
             (1 <? models_count self)%nat = false ->
             match list_models self with
             | first :: _ =>
                 exists model,
                   odict_get first (models self) = Some model /\
                   list_models self = [first]
             | [] => models self = []
             end).
  { intros n _ Hcount. unfold list_models, models_count, odict_keys in *.
    destruct (models self) as [| [k v] ms]; simpl in *; [reflexivity |].
    rewrite String.eqb_refl. exists v. split; [reflexivity |].
    destruct ms; [reflexivity |]. simpl in Hcount. discriminate Hcount. }
  unfold get_model, bind, when, get_self, raise, ret; simpl.
  destruct (1 <? models_count self)%nat eqn:Hcount; simpl.
  - destruct (name_truthy model_name) eqn:Hn; simpl.
    + destruct model_name as [s |]; [| discriminate Hn]. simpl in Hn.
      rewrite Hn. simpl.
      destruct (str_in s (list_models self)) eqn:Hin; simpl.
      * destruct (odict_get_known s (models self) Hin) as [model Hget].
        rewrite Hget. simpl. auto.
      * right. left. exists s. auto.
    + left. apply Nat.ltb_lt in Hcount. auto.
  - destruct model_name as [s |]; simpl.
    + destruct (str_truthy s) eqn:Hs; simpl.
      * destruct (str_in s (list_models self)) eqn:Hin; simpl.
        -- destruct (odict_get_known s (models self) Hin) as [model Hget].
           rewrite Hget. simpl. auto.
        -- right. left. exists s. auto.
      * specialize (Hfirst (Some s) Hs eq_refl).
        destruct (list_models self) as [| first rest]; simpl.
        -- right. right. auto.
        -- destruct Hfirst as [model [Hget Hone]]. rewrite Hget. simpl. auto.
    + specialize (Hfirst None eq_refl eq_refl).
      destruct (list_models self) as [| first rest]; simpl.
      * right. right. auto.
      * destruct Hfirst as [model [Hget Hone]]. rewrite Hget. simpl. auto.
Qed.

(** ** Registering models *)

(** X2: when the supplied dict brings no new name (every key is already
    registered, or the dict is empty), [add_model] logs the error and the
    task object, with the handles it holds, stays as it was. *)
Theorem add_model_without_new_name W model config_path self model_dict :
  prepare_models W model config_path = Ok model_dict ->
  (forall k, In k (odict_keys model_dict) -> In k (list_models self)) ->
  add_model W model config_path self
  = Outcome (Ok tt) self
      [CallPrepareModels model config_path; Log ERROR msg_add_failed].
Proof.
  intros Hprep Hall. apply (add_model_all_registered _ _ _ _ _ Hprep).
  apply forallb_forall. intros k Hk. apply str_in_In. auto.
Qed.

Lemma add_model_without_new_name_witness :
  add_model Fixtures.world (ModelDict []) None Fixtures.two_models
  = Outcome (Ok tt) Fixtures.two_models
      [CallPrepareModels (ModelDict []) None; Log ERROR msg_add_failed] /\
  add_model Fixtures.world (ModelDict [("lr", Fixtures.handle false)]) None
    Fixtures.one_model
  = Outcome (Ok tt) Fixtures.one_model
      [CallPrepareModels (ModelDict [("lr", Fixtures.handle false)]) None;
       Log ERROR msg_add_failed].
Proof.
  split.
  - apply (add_model_without_new_name Fixtures.world (ModelDict []) None
             Fixtures.two_models [] eq_refl).
    intros k [].
  - apply (add_model_without_new_name Fixtures.world
             (ModelDict [("lr", Fixtures.handle false)]) None
             Fixtures.one_model [("lr", Fixtures.handle false)] eq_refl).
    intros k [<- | []]. left. reflexivity.
Defined.

(** X3: [add_model] raises nothing of its own: it raises exactly when
    [prepare_models] does, with the same exception, and then the task
    object is unchanged and nothing is logged. *)
Theorem add_model_raises_only_from_prepare_models W model config_path self e :
  (returned (add_model W model config_path self) = Raise e
   <-> prepare_models W model config_path = Raise e) /\
  (prepare_models W model config_path = Raise e ->
   add_model W model config_path self
   = Outcome (Raise e) self [CallPrepareModels model config_path]).
Proof.
  unfold add_model, bind, call, get_self.
  destruct (prepare_models W model config_path) as [model_dict | e'] eqn:Hprep;
    simpl.
  - destruct (forallb _ (odict_keys model_dict)); simpl;
      (split; [split |]; intros H; discriminate H).
  - split; [split |]; intros H; injection H as ->; reflexivity.
Qed.

Lemma add_model_raises_only_from_prepare_models_witness :
  add_model Fixtures.world (ModelName "sgd_classifier") None Fixtures.one_model
  = Outcome (Raise (OtherError "NotImplementedError" (Text "fixture")))
      Fixtures.one_model
      [CallPrepareModels (ModelName "sgd_classifier") None].
Proof.
  apply (proj2 (add_model_raises_only_from_prepare_models Fixtures.world
                  (ModelName "sgd_classifier") None Fixtures.one_model
                  (OtherError "NotImplementedError" (Text "fixture")))).
  reflexivity.
Defined.

Lemma forallb_known_false (self : Task) (keys : list string) :
  (exists k, In k keys /\ ~ In k (list_models self)) ->
  forallb (fun k => str_in k (list_models self)) keys = false.
Proof.
  intros [k [Hk Hnew]].
  destruct (forallb _ keys) eqn:E; [| reflexivity].
  rewrite forallb_forall in E. specialize (E k Hk).
  apply str_in_In in E. contradiction.
Qed.

(** What a merge leaves behind: lookups, the order of the names, and the
    fields it does not touch. *)
Lemma add_model_merge_facts W model config_path self model_dict :
  prepare_models W model config_path = Ok model_dict ->
  List.NoDup (odict_keys model_dict) ->
  (exists k, In k (odict_keys model_dict) /\ ~ In k (list_models self)) ->
  let self' := self_after (add_model W model config_path self) in
  (forall k,
     odict_get k (models self')
     = match odict_get k model_dict with
       | Some handle => Some handle
       | None => odict_get k (models self)
       end) /\
  (exists added,
     added <> [] /\
     list_models self' = list_models self ++ added /\
     forall k, In k added -> In k (odict_keys model_dict)) /\
  trained_models self' = trained_models self /\
  pretrained_models self' = pretrained_models self /\
  task_features self' = task_features self /\
  task_target self' = task_target self.
Proof.
  intros Hprep Hnd Hnew. cbv zeta.
  rewrite (add_model_some_new _ _ _ _ _ Hprep (forallb_known_false _ _ Hnew)).
  simpl. split; [| split; [| auto]].
  - intros k. apply odict_get_update. exact Hnd.
  - unfold list_models. simpl.
    destruct (odict_keys_update (models self) model_dict)
      as [added [Hkeys [Hadded Hall]]].
    exists added. split; [| split; [exact Hkeys |]].
    + destruct Hnew as [k [Hk Hnotin]]. intros ->.
      rewrite app_nil_r in Hall. apply Hnotin, Hall, Hk.
    + intros k Hk. apply (Hadded k Hk).
Qed.

(** X4: when the supplied dict (distinct keys) brings at least one new
    name, [add_model] merges all of it: afterwards a name reads as the
    supplied handle if the dict has it and as before otherwise, the names
    registered before keep their places at the front of [list_models] and
    at least one name follows them; the fit-state lists and the column lists
    are untouched. *)
Theorem add_model_merges W model config_path self model_dict :
  prepare_models W model config_path = Ok model_dict ->
  List.NoDup (odict_keys model_dict) ->
  (exists k, In k (odict_keys model_dict) /\ ~ In k (list_models self)) ->
  let self' := self_after (add_model W model config_path self) in
  (forall k,
     odict_get k (models self')
     = match odict_get k model_dict with
       | Some handle => Some handle
       | None => odict_get k (models self)
       end) /\
  (exists added,
     added <> [] /\
     list_models self' = list_models self ++ added /\
     forall k, In k added -> In k (odict_keys model_dict)) /\
  trained_models self' = trained_models self /\
  pretrained_models self' = pretrained_models self /\
  task_features self' = task_features self /\
  task_target self' = task_target self.
Proof.
  intros Hprep Hnd Hnew.
  exact (add_model_merge_facts W model config_path self model_dict Hprep Hnd
           Hnew).
Qed.

Lemma add_model_merges_witness :
  list_models (self_after (add_model Fixtures.world (ModelDict Fixtures.newcomer)
                             None Fixtures.one_model))
  = ["lr"; "rf"].
Proof.
  destruct (add_model_merges Fixtures.world (ModelDict Fixtures.newcomer) None
              Fixtures.one_model Fixtures.newcomer eq_refl)
    as [_ [[added [_ [Hkeys _]]] _]].
  - repeat constructor. intros [].
  - exists "rf". split; [left; reflexivity |].
    intros [H | []]. discriminate H.
  - reflexivity.
Defined.

(** [get_model] reads nothing of the task object but the registry. *)
Lemma get_model_same_models model_name self self' :
  models self' = models self ->
  returned (get_model model_name self') = returned (get_model model_name self).
Proof.
  intros H. unfold get_model, bind, when, get_self, list_models, models_count.
  rewrite H. simpl.
  destruct ((1 <? length (models self))%nat && negb (name_truthy model_name));
    simpl; [reflexivity |].
  destruct model_name as [s |]; simpl.
  - destruct (str_truthy s && negb (str_in s (odict_keys (models self))));
      simpl; [reflexivity |].
    destruct (str_truthy s); simpl.
    + destruct (odict_get s (models self)); reflexivity.
    + destruct (odict_keys (models self)) as [| first rest]; simpl;
        [reflexivity |].
      destruct (odict_get first (models self)); reflexivity.
  - destruct (odict_keys (models self)) as [| first rest]; simpl;
      [reflexivity |].
    destruct (odict_get first (models self)); reflexivity.
Qed.

(** Several models and no name: the call is refused. *)
Lemma get_model_ambiguous self model_name :
  (1 < models_count self)%nat ->
  name_truthy model_name = false ->
  get_model model_name self
  = Outcome (Raise (ValueError (msg_specify_model (list_models self)))) self [].
Proof.
  intros Hcount Hn. unfold get_model, bind, when, get_self.
  apply Nat.ltb_lt in Hcount. rewrite Hcount, Hn. reflexivity.
Qed.

(** X5: [add_model] followed by [get_model].  After a dict with a new name
    has been merged, each supplied non-empty name resolves to the supplied
    handle; and if the registry was not empty before, a call without a name
    is now refused as ambiguous. *)
Theorem add_model_then_get_model W model config_path self model_dict :
  prepare_models W model config_path = Ok model_dict ->
  List.NoDup (odict_keys model_dict) ->
  (exists k, In k (odict_keys model_dict) /\ ~ In k (list_models self)) ->
  let self' := self_after (add_model W model config_path self) in
  (forall k handle,
     str_truthy k = true ->
     odict_get k model_dict = Some handle ->
     get_model (Some k) self' = Outcome (Ok (k, handle)) self' []) /\
  (forall model_name,
     models self <> [] ->
     name_truthy model_name = false ->
     get_model model_name self'
     = Outcome (Raise (ValueError (msg_specify_model (list_models self'))))
         self' []).
Proof.
  intros Hprep Hnd Hnew.
  destruct (add_model_merge_facts W model config_path self model_dict Hprep Hnd
              Hnew)
    as [Hget [[added [Hadded [Hkeys _]]] _]].
  cbv zeta in *. split.
  - intros k handle Hk Hin.
    destruct (get_model_known k (self_after (add_model W model config_path self)) Hk)
      as [handle' [Hget' ->]].
    + apply str_in_In. apply (odict_get_In_keys k _ handle).
      rewrite Hget, Hin. reflexivity.
    + rewrite Hget, Hin in Hget'. congruence.
  - intros model_name Hne Hn.
    apply get_model_ambiguous; [| exact Hn].
    unfold models_count.
    replace (length (models (self_after (add_model W model config_path self))))
      with (length (list_models (self_after (add_model W model config_path self))))
      by (unfold list_models, odict_keys; apply length_map).
    rewrite Hkeys, length_app.
    assert (0 < length (list_models self))%nat.
    { unfold list_models, odict_keys. rewrite length_map.
      destruct (models self); [contradiction | simpl; lia]. }
    assert (0 < length added)%nat by (destruct added; [contradiction | simpl; lia]).
    lia.
Qed.

Lemma add_model_then_get_model_witness :
  get_model (Some "rf")
    (self_after (add_model Fixtures.world (ModelDict Fixtures.newcomer) None
                   Fixtures.one_model))
  = Outcome (Ok ("rf", Fixtures.handle false))
      (self_after (add_model Fixtures.world (ModelDict Fixtures.newcomer) None
                     Fixtures.one_model)) [] /\
  returned (get_model None
              (self_after (add_model Fixtures.world (ModelDict Fixtures.newcomer)
                             None Fixtures.one_model)))
  = Raise (ValueError (TextNames "Please specify a model from " ["lr"; "rf"])).
Proof.
  destruct (add_model_then_get_model Fixtures.world (ModelDict Fixtures.newcomer)
              None Fixtures.one_model Fixtures.newcomer eq_refl)
    as [Hnamed Hnone].
  - repeat constructor. intros [].
  - exists "rf". split; [left; reflexivity |].
    intros [H | []]. discriminate H.
  - split.
    + apply Hnamed; reflexivity.
    + rewrite (Hnone None); [reflexivity | discriminate | reflexivity].
Defined.

(** ** What the operations do to the task object *)

Lemma keeps_self_for_each {A B} (body : B -> A -> M B) l acc :
  (forall acc' x, keeps_self (body acc' x)) -> keeps_self (for_each l acc body).
Proof.
  intros Hbody. revert acc.
  induction l as [| x l IH]; intros acc; simpl; auto with controller.
Qed.

Lemma keeps_self_evaluate W dataset metrics model_names transforms prefix splits
    slice_spec batch_size remove_columns :
  keeps_self (evaluate W dataset metrics model_names transforms prefix splits
                slice_spec batch_size remove_columns).
Proof.
  unfold evaluate.
  apply keeps_self_bind; [apply keeps_self_build_metrics |]. intros m.
  apply keeps_self_bind; [auto with controller |]. intros self.
  apply keeps_self_bind.
  - apply keeps_self_for_each. intros acc x. apply keeps_self_evaluate_model.
  - intros ds. apply keeps_self_bind; [auto with controller |]. intros self'.
    auto with controller.
Qed.

(** What [train] leaves behind: the task object as it was when it raises,
    the resolved name appended to [trained_models] when it returns. *)
Lemma train_changes_only_trained_models_aux W X y model_name transforms params
    splits kw self :
  (forall e,
     returned (train W X y model_name transforms params splits kw self) = Raise e ->
     self_after (train W X y model_name transforms params splits kw self) = self) /\
  (forall model,
     returned (train W X y model_name transforms params splits kw self) = Ok model ->
     exists name,
       returned (get_model model_name self) = Ok (name, model) /\
       self_after (train W X y model_name transforms params splits kw self)
       = with_trained self (trained_models self ++ [name])).
Proof.
  destruct (returned (get_model model_name self)) as [[name model] | e] eqn:Hget.
  - rewrite (train_resolved _ _ _ _ _ _ _ _ _ _ _ Hget).
    destruct (train_on W name model X y transforms params splits kw self)
      as [[u | e] self' t]; simpl.
    + split; [intros e H; discriminate H |].
      intros model' H. injection H as <-. eauto.
    + split; [reflexivity |]. intros model' H. discriminate H.
  - rewrite (train_unresolved _ _ _ _ _ _ _ _ _ _ Hget). simpl.
    split; [reflexivity |]. intros model' H. discriminate H.
Qed.

(** X6: [train] touches nothing but [trained_models], and only when it
    returns: a [train] that raises, for whatever reason and however far it
    got, leaves the task object exactly as it was; a [train] that returns
    has appended the resolved name, also when the name was listed already. *)
Theorem train_changes_only_trained_models W X y model_name transforms params
    splits kw self :
  (forall e,
     returned (train W X y model_name transforms params splits kw self) = Raise e ->
     self_after (train W X y model_name transforms params splits kw self) = self) /\
  (forall model,
     returned (train W X y model_name transforms params splits kw self) = Ok model ->
     exists name,
       returned (get_model model_name self) = Ok (name, model) /\
       self_after (train W X y model_name transforms params splits kw self)
       = with_trained self (trained_models self ++ [name])) /\
  models (self_after (train W X y model_name transforms params splits kw self))
  = models self /\
  pretrained_models
    (self_after (train W X y model_name transforms params splits kw self))
  = pretrained_models self /\
  task_features (self_after (train W X y model_name transforms params splits kw self))
  = task_features self /\
  task_target (self_after (train W X y model_name transforms params splits kw self))
  = task_target self.
Proof.
  destruct (returned (get_model model_name self)) as [[name model] | e] eqn:Hget.
  - rewrite (train_resolved _ _ _ _ _ _ _ _ _ _ _ Hget).
    destruct (train_on W name model X y transforms params splits kw self)
      as [[u | e] self' t]; simpl.
    + split; [intros e H; discriminate H |].
      split; [| auto]. intros model' H. injection H as <-. eauto.
    + split; [reflexivity |]. split; [| auto]. intros model' H. discriminate H.
  - rewrite (train_unresolved _ _ _ _ _ _ _ _ _ _ Hget). simpl.
    split; [reflexivity |]. split; [| auto]. intros model' H. discriminate H.
Qed.

Lemma train_changes_only_trained_models_witness :
  self_after (train Fixtures.world (Tabular Fixtures.X3) (Some Fixtures.y2) None
                None None Fixtures.train_splits ∅ Fixtures.one_trained)
  = Fixtures.one_trained /\
  trained_models
    (self_after (train Fixtures.world (Tabular Fixtures.X3) (Some Fixtures.y3)
                   None None None Fixtures.train_splits ∅ Fixtures.one_trained))
  = ["lr"; "lr"].
Proof.
  split.
  - apply (proj1 (train_changes_only_trained_models Fixtures.world
                    (Tabular Fixtures.X3) (Some Fixtures.y2) None None None
                    Fixtures.train_splits ∅ Fixtures.one_trained)
             AssertionError).
    reflexivity.
  - destruct (proj1 (proj2 (train_changes_only_trained_models Fixtures.world
                              (Tabular Fixtures.X3) (Some Fixtures.y3) None None
                              None Fixtures.train_splits ∅ Fixtures.one_trained))
                (Fixtures.handle true) eq_refl) as [name [Hget ->]].
    injection Hget as <-. reflexivity.
Defined.



(** X8: [predict] and [evaluate] only read the task object: whatever
    they are called on, and whether they return or raise, the registry, the
    fit-state lists and the column lists are afterwards what they were. *)
Theorem predict_and_evaluate_read_only W self :
  (forall dataset model_name transforms proba splits kw,
     self_after (predict W dataset model_name transforms proba splits kw self)
     = self) /\
  (forall dataset metrics model_names transforms prefix splits slice_spec
          batch_size remove_columns,
     self_after (evaluate W dataset metrics model_names transforms prefix splits
                   slice_spec batch_size remove_columns self)
     = self).
Proof.
  split; intros.
  - apply keeps_self_predict.
  - apply keeps_self_evaluate.
Qed.

(** [add_model] removes no name from the registry and leaves the
    fit-state lists alone. *)
Lemma add_model_keeps_names W model config_path self :
  (forall k,
     In k (list_models self) ->
     In k (list_models (self_after (add_model W model config_path self)))) /\
  fitted_names (self_after (add_model W model config_path self))
  = fitted_names self.
Proof.
  unfold add_model, bind, call, get_self.
  destruct (prepare_models W model config_path) as [model_dict | e]; simpl;
    [| auto].
  destruct (forallb _ (odict_keys model_dict)); simpl; [auto |].
  split; [| reflexivity].
  intros k Hk. unfold list_models in *. simpl.
  destruct (odict_keys_update (models self) model_dict) as [added [-> _]].
  apply in_or_app. auto.
Qed.

(** X9: every name in [trained_models] or [pretrained_models] is a key
    of the registry.  This holds for a new task object, and every operation
    keeps it: [add_model], [train], [load_pretrained_model], [predict] and
    [evaluate]. *)
Theorem fitted_names_are_registered W :
  (forall models task_features task_target,
     fitted_registered (init models task_features task_target)) /\
  (forall self,
     fitted_registered self ->
     (forall model config_path,
        fitted_registered (self_after (add_model W model config_path self))) /\
     (forall X y model_name transforms params splits kw,
        fitted_registered
          (self_after (train W X y model_name transforms params splits kw self))) /\
     (forall filepath model_name kw,
        fitted_registered
          (self_after (load_pretrained_model filepath model_name kw self))) /\
     (forall dataset model_name transforms proba splits kw,
        fitted_registered
          (self_after (predict W dataset model_name transforms proba splits kw
                         self))) /\
     (forall dataset metrics model_names transforms prefix splits slice_spec
             batch_size remove_columns,
        fitted_registered
          (self_after (evaluate W dataset metrics model_names transforms prefix
                         splits slice_spec batch_size remove_columns self)))).
Proof.
  split.
  - intros ms f t n Hn. destruct Hn.
  - intros self Hinv. split; [| split; [| split; [| split]]].
    + intros model config_path n Hn.
      destruct (add_model_keeps_names W model config_path self) as [Hkeep Hfit].
      rewrite Hfit in Hn. auto.
    + intros X y model_name transforms params splits kw.
      destruct (returned (get_model model_name self)) as [[name model] | e] eqn:Hget.
      * rewrite (train_resolved _ _ _ _ _ _ _ _ _ _ _ Hget).
        destruct (train_on W name model X y transforms params splits kw self)
          as [[u | e] self' t]; simpl; [| exact Hinv].
        intros n Hn. unfold fitted_names, list_models in *. simpl in *.
        rewrite app_assoc in Hn. apply in_app_or in Hn as [Hn | [<- | []]].
        -- auto.
        -- apply (odict_get_In_keys _ _ model).
           apply (get_model_resolved _ _ _ _ Hget).
      * rewrite (train_unresolved _ _ _ _ _ _ _ _ _ _ Hget). exact Hinv.
    + intros filepath model_name kw.
      destruct (returned (get_model model_name self)) as [[name model] | e] eqn:Hget.
      * rewrite (load_pretrained_model_resolved _ _ _ _ _ _ Hget).
        destruct (load_model model filepath kw) as [u | e]; simpl; [| exact Hinv].
        intros n Hn. unfold fitted_names, list_models in *. simpl in *.
        apply in_app_or in Hn as [Hn | Hn].
        -- apply in_app_or in Hn as [Hn | [<- | []]].
           ++ apply Hinv. apply in_or_app. auto.
           ++ apply (odict_get_In_keys _ _ model).
              apply (get_model_resolved _ _ _ _ Hget).
        -- apply Hinv. apply in_or_app. auto.
      * unfold load_pretrained_model.
        rewrite (bind_get_model_Raise _ _ _ _ Hget). exact Hinv.
    + intros. rewrite keeps_self_predict. exact Hinv.
    + intros. rewrite keeps_self_evaluate. exact Hinv.
Qed.

Lemma fitted_names_are_registered_witness :
  fitted_registered
    (self_after (add_model Fixtures.world (ModelDict Fixtures.colliding) None
                   Fixtures.one_trained)) /\
  fitted_registered
    (self_after (load_pretrained_model "lr.pkl" None ∅ Fixtures.one_trained)).
Proof.
  assert (H : fitted_registered Fixtures.one_trained).
  { intros n [<- | []]. left. reflexivity. }
  destruct (proj2 (fitted_names_are_registered Fixtures.world)
              Fixtures.one_trained H) as [Hadd [_ [Hload _]]].
  split; [apply Hadd | apply Hload].
Defined.

(** X10: [train] and [load_pretrained_model] open the way for [predict].
    Once either has returned, a [predict] call with the same [model_name]
    argument resolves the same name and handle and passes the not-fitted
    check: it goes on to the prediction branch, whatever the source. *)
Theorem train_or_load_then_predict W self model_name :
  (forall X y transforms params splits kw model,
     returned (train W X y model_name transforms params splits kw self) = Ok model ->
     exists name,
       forall dataset transforms' proba splits' kw',
         predict W dataset model_name transforms' proba splits' kw'
           (self_after (train W X y model_name transforms params splits kw self))
         = predict_on W name model dataset transforms' proba splits' kw'
             (self_after (train W X y model_name transforms params splits kw self))) /\
  (forall filepath kw model,
     returned (load_pretrained_model filepath model_name kw self) = Ok model ->
     exists name,
       forall dataset transforms' proba splits' kw',
         predict W dataset model_name transforms' proba splits' kw'
           (self_after (load_pretrained_model filepath model_name kw self))
         = predict_on W name model dataset transforms' proba splits' kw'
             (self_after (load_pretrained_model filepath model_name kw self))).
Proof.
  assert (Hlast : forall (l : list string) name, str_in name (l ++ [name]) = true).
  { intros l name. apply str_in_In. apply in_or_app. right. left. reflexivity. }
  split.
  - intros X y transforms params splits kw model Hret.
    destruct (proj2 (train_changes_only_trained_models_aux W X y model_name
                       transforms params splits kw self) model Hret)
      as [name [Hget Hself]].
    exists name. intros dataset transforms' proba splits' kw'.
    rewrite Hself. apply predict_fitted.
    + rewrite <- Hget. apply get_model_same_models. reflexivity.
    + unfold fitted_names. simpl. rewrite str_in_app, Hlast.
      apply orb_true_r.
  - intros filepath kw model Hret.
    destruct (returned (get_model model_name self)) as [[name model'] | e] eqn:Hget.
    + rewrite (load_pretrained_model_resolved _ _ _ _ _ _ Hget) in *.
      destruct (load_model model' filepath kw) as [u | e]; simpl in *;
        [| discriminate Hret].
      injection Hret as ->. exists name.
      intros dataset transforms' proba splits' kw'. apply predict_fitted.
      * rewrite <- Hget. apply get_model_same_models. reflexivity.
      * unfold fitted_names. simpl. rewrite str_in_app, Hlast. reflexivity.
    + unfold load_pretrained_model in Hret.
      rewrite (bind_get_model_Raise _ _ _ _ Hget) in Hret. discriminate Hret.
Qed.

Lemma train_or_load_then_predict_witness :
  (exists name,
     forall dataset transforms proba splits kw,
       predict Fixtures.world dataset None transforms proba splits kw
         (self_after (train Fixtures.world (Tabular Fixtures.X3)
                        (Some Fixtures.y3) None None None Fixtures.train_splits ∅
                        Fixtures.one_model))
       = predict_on Fixtures.world name (Fixtures.handle true) dataset transforms
           proba splits kw
           (self_after (train Fixtures.world (Tabular Fixtures.X3)
                          (Some Fixtures.y3) None None None Fixtures.train_splits
                          ∅ Fixtures.one_model))) /\
  (exists name,
     forall dataset transforms proba splits kw,
       predict Fixtures.world dataset None transforms proba splits kw
         (self_after (load_pretrained_model "lr.pkl" None ∅ Fixtures.one_model))
       = predict_on Fixtures.world name (Fixtures.handle true) dataset transforms
           proba splits kw
           (self_after (load_pretrained_model "lr.pkl" None ∅ Fixtures.one_model))).
Proof.
  split.
  - apply (proj1 (train_or_load_then_predict Fixtures.world Fixtures.one_model
                    None) (Tabular Fixtures.X3) (Some Fixtures.y3) None None
             Fixtures.train_splits ∅ (Fixtures.handle true)).
    reflexivity.
  - apply (proj2 (train_or_load_then_predict Fixtures.world Fixtures.one_model
                    None) "lr.pkl" ∅ (Fixtures.handle true)).
    reflexivity.
Defined.

(** ** Predicting *)

(** X11: on a task object as the constructor leaves it, [predict] never
    gets to the data: it raises without a single call or log record,
    whatever the registry and the arguments; when the model resolves, the
    error is [NotFittedError]. *)
Theorem predict_on_new_task_raises W models task_features task_target dataset
    model_name transforms proba splits kw :
  trace (predict W dataset model_name transforms proba splits kw
           (init models task_features task_target))
  = [] /\
  (exists e,
     returned (predict W dataset model_name transforms proba splits kw
                 (init models task_features task_target))
     = Raise e) /\
  (forall r,
     returned (get_model model_name (init models task_features task_target)) = Ok r ->
     returned (predict W dataset model_name transforms proba splits kw
                 (init models task_features task_target))
     = Raise (NotFittedError (msg_not_fitted 16))).
Proof.
  destruct (returned (get_model model_name (init models task_features task_target)))
    as [[name model] | e] eqn:Hget.
  - rewrite (predict_not_fitted _ _ _ _ _ _ _ _ _ _ Hget eq_refl). simpl. eauto.
  - rewrite (predict_unresolved _ _ _ _ _ _ _ _ _ Hget). simpl.
    split; [reflexivity |]. split; [eauto |]. intros r H. discriminate H.
Qed.

Lemma predict_on_new_task_raises_witness :
  returned (predict Fixtures.world Fixtures.test_set None None true
              Fixtures.test_splits ∅
              (init [("lr", Fixtures.handle true)] Fixtures.features
                 Fixtures.target))
  = Raise (NotFittedError (msg_not_fitted 16)).
Proof.
  apply (proj2 (proj2 (predict_on_new_task_raises Fixtures.world
                         [("lr", Fixtures.handle true)] Fixtures.features
                         Fixtures.target Fixtures.test_set None None true
                         Fixtures.test_splits ∅))
           ("lr", Fixtures.handle true)).
  reflexivity.
Defined.

(** The keywords are accepted, or the call is refused before it is
    made. *)
Lemma check_keywords_cases written kw self :
  check_keywords written kw self = Outcome (Ok tt) self [] \/
  exists e, check_keywords written kw self = Outcome (Raise e) self [].
Proof.
  unfold check_keywords.
  destruct (List.filter _ written) as [| k ks]; [left | right; eexists];
    reflexivity.
Qed.

(** The events of [predict_on], given what the call on the handle may
    emit. *)
Lemma quiet_predict_on p W name model dataset transforms proba splits kw :
  (forall t, p (CallToNumpy t) = false) ->
  (forall a, p (CallTransform a) = false) ->
  (forall a, p (CallFitTransform a) = false) ->
  p (Log WARNING msg_fitting_preprocessor) = false ->
  (forall d,
     p (if proba && is_SKModel model
        then CallPredictProba name d kw
        else CallPredict name d kw) = false) ->
  quiet p (predict_on W name model dataset transforms proba splits kw).
Proof.
  intros Hn Ht Hft Hw Hcall. unfold predict_on.
  apply quiet_bind; [auto with controller |]. intros self.
  destruct dataset as [t | d].
  - apply quiet_bind; [auto with controller |]. intros X.
    apply quiet_bind; [auto with controller |]. intros Xt.
    specialize (Hcall (PredictArray Xt)).
    destruct (proba && is_SKModel model); auto with controller.
  - apply quiet_bind; [auto with controller |]. intros _.
    match goal with
    | |- context [CallPredict name ?d kw] => specialize (Hcall d)
    end.
    destruct (proba && is_SKModel model); auto with controller.
Qed.

(** The events of [predict], in the same terms. *)
Lemma quiet_predict_cases p W dataset model_name transforms proba splits kw self :
  (forall t, p (CallToNumpy t) = false) ->
  (forall a, p (CallTransform a) = false) ->
  (forall a, p (CallFitTransform a) = false) ->
  p (Log WARNING msg_fitting_preprocessor) = false ->
  (forall name model d,
     returned (get_model model_name self) = Ok (name, model) ->
     p (if proba && is_SKModel model
        then CallPredictProba name d kw
        else CallPredict name d kw) = false) ->
  never p (trace (predict W dataset model_name transforms proba splits kw self)).
Proof.
  intros Hn Ht Hft Hw Hcall.
  destruct (returned (get_model model_name self)) as [[name model] | e] eqn:Hget.
  - destruct (str_in name (fitted_names self)) eqn:Hfit.
    + rewrite (predict_fitted _ _ _ _ _ _ _ _ _ _ Hget Hfit).
      apply quiet_predict_on; auto.
    + rewrite (predict_not_fitted _ _ _ _ _ _ _ _ _ _ Hget Hfit). reflexivity.
  - rewrite (predict_unresolved _ _ _ _ _ _ _ _ _ Hget). reflexivity.
Qed.

(** X12: when [predict] does not ask for probabilities.  With
    [proba=False] the controller never calls [predict_proba], on any handle
    and any source; nor does it on a handle that is not an [SKModel],
    whatever [proba] is.  With [proba=True] on an [SKModel] it never calls
    plain [predict].  In every case it makes at most one prediction call. *)
Theorem predict_proba_only_when_asked_and_supported W dataset model_name
    transforms proba splits kw self :
  (proba = false ->
   never is_predict_proba_call
     (trace (predict W dataset model_name transforms proba splits kw self))) /\
  (forall name model,
     returned (get_model model_name self) = Ok (name, model) ->
     is_SKModel model = false ->
     never is_predict_proba_call
       (trace (predict W dataset model_name transforms proba splits kw self))) /\
  (forall name model,
     returned (get_model model_name self) = Ok (name, model) ->
     is_SKModel model = true ->
     proba = true ->
     never is_plain_predict_call
       (trace (predict W dataset model_name transforms proba splits kw self))) /\
  (length (List.filter is_prediction_call
             (trace (predict W dataset model_name transforms proba splits kw self)))
   <= 1)%nat.
Proof.
  split; [| split; [| split]].
  - intros ->. apply quiet_predict_cases; try reflexivity.
  - intros name model Hget Hsk.
    apply quiet_predict_cases; try reflexivity.
    intros name' model' d Hget'. rewrite Hget in Hget'.
    injection Hget' as <- <-. rewrite Hsk, andb_false_r. reflexivity.
  - intros name model Hget Hsk ->.
    apply quiet_predict_cases; try reflexivity.
    intros name' model' d Hget'. rewrite Hget in Hget'.
    injection Hget' as <- <-. rewrite Hsk. reflexivity.
  - destruct (returned (get_model model_name self)) as [[name model] | e] eqn:Hget.
    + destruct (str_in name (fitted_names self)) eqn:Hfit.
      * rewrite (predict_fitted _ _ _ _ _ _ _ _ _ _ Hget Hfit).
        unfold predict_on. rewrite bind_get_self.
        destruct dataset as [t | d].
        -- unfold bind at 1, call at 1.
           destruct (to_numpy W t) as [X | e]; simpl; [| lia].
           unfold bind.
           rewrite (apply_transforms_outcome transforms
                      (emit (Log WARNING msg_fitting_preprocessor)) X self
                      (keeps_self_emit _)).
           pose proof (quiet_apply_transforms is_prediction_call transforms
                         (emit (Log WARNING msg_fitting_preprocessor)) X
                         (fun _ => eq_refl) (fun _ => eq_refl)
                         (quiet_emit is_prediction_call
                            (Log WARNING msg_fitting_preprocessor) eq_refl)
                         self) as Hq.
           assert (Hnone : forall l,
                      never is_prediction_call l ->
                      List.filter is_prediction_call l = []).
           { intros l Hl. induction l as [| ev l IH]; [reflexivity |].
             unfold never in Hl. simpl in Hl. apply orb_false_iff in Hl as [H1 H2].
             simpl. rewrite H1. apply IH. exact H2. }
           destruct (returned (apply_transforms transforms _ X self)) as [Xt | e];
             simpl.
           ++ destruct (proba && is_SKModel model); unfold call; simpl;
                rewrite List.filter_app, (Hnone _ Hq); simpl; lia.
           ++ rewrite (Hnone _ Hq). simpl. lia.
        -- match goal with
           | |- context [check_keywords ?w kw] =>
               destruct (check_keywords_cases w kw self) as [Hkw | [e Hkw]]
           end.
           ++ rewrite (bind_Ok _ _ _ _ _ _ Hkw).
              destruct (proba && is_SKModel model); simpl; lia.
           ++ rewrite (bind_Raise _ _ _ _ _ _ Hkw). simpl. lia.
      * rewrite (predict_not_fitted _ _ _ _ _ _ _ _ _ _ Hget Hfit). simpl. lia.
    + rewrite (predict_unresolved _ _ _ _ _ _ _ _ _ Hget). simpl. lia.
Qed.

Lemma predict_proba_only_when_asked_and_supported_witness :
  never is_predict_proba_call
    (trace (predict Fixtures.world Fixtures.test_set (Some "lr") None false
              Fixtures.test_splits ∅ Fixtures.two_trained)) /\
  never is_predict_proba_call
    (trace (predict Fixtures.world Fixtures.test_set (Some "mlp") None true
              Fixtures.test_splits ∅ Fixtures.two_trained)) /\
  never is_plain_predict_call
    (trace (predict Fixtures.world Fixtures.test_set (Some "lr") None true
              Fixtures.test_splits ∅ Fixtures.two_trained)).
Proof.
  split; [| split].
  - apply (proj1 (predict_proba_only_when_asked_and_supported Fixtures.world
                    Fixtures.test_set (Some "lr") None false Fixtures.test_splits
                    ∅ Fixtures.two_trained)).
    reflexivity.
  - apply (proj1 (proj2 (predict_proba_only_when_asked_and_supported
                           Fixtures.world Fixtures.test_set (Some "mlp") None true
                           Fixtures.test_splits ∅ Fixtures.two_trained))
             "mlp" (Fixtures.handle false)); reflexivity.
  - apply (proj1 (proj2 (proj2 (predict_proba_only_when_asked_and_supported
                                  Fixtures.world Fixtures.test_set (Some "lr")
                                  None true Fixtures.test_splits ∅
                                  Fixtures.two_trained)))
             "lr" (Fixtures.handle true)); reflexivity.
Defined.

(** ** Training *)

Lemma dict_truthy_true_non_empty (d : dict) : dict_truthy d = true -> d <> ∅.
Proof. intros H ->. discriminate H. Qed.

(** X13: [train] on a Hugging Face dataset.  The labels argument is
    ignored; the controller converts and transforms nothing itself: once the
    model is resolved it makes no call, or exactly one, a [fit] or a
    [find_best] on the dataset as given, with the task's feature and target
    columns, the pipeline and the split mapping. *)
Theorem train_on_structured_dataset W X y model_name transforms params splits kw
    self :
  train W (HF X) y model_name transforms params splits kw self
  = train W (HF X) None model_name transforms params splits kw self /\
  (forall name model,
     returned (get_model model_name self) = Ok (name, model) ->
     let fd := FitDataset X (task_features self) (task_target self) transforms
                 splits in
     trace (train W (HF X) y model_name transforms params splits kw self) = [] \/
     trace (train W (HF X) y model_name transforms params splits kw self)
     = [CallFit name fd kw] \/
     exists searched metric method,
       trace (train W (HF X) y model_name transforms params splits kw self)
       = [CallFindBest name searched fd metric method kw]).
Proof.
  split; [reflexivity |].
  intros name model Hget. cbv zeta.
  rewrite (proj1 (train_resolved_trace W (HF X) y model_name transforms params
                    splits kw self name model Hget)).
  unfold train_on. rewrite bind_get_self.
  destruct (opt_dict_truthy params) eqn:Hp.
  - destruct params as [d |]; [| discriminate Hp]. simpl in Hp.
    match goal with
    | |- context [fit_or_search name model (Some d) ?fd ?ws ?wf kw self] =>
        destruct (fit_or_search_search name model d fd ws wf kw self
                    (dict_truthy_true_non_empty d Hp)) as [[e ->] | ->]
    end; simpl.
    + left. reflexivity.
    + right. right. eexists _, _, _. reflexivity.
  - match goal with
    | |- context [fit_or_search name model params ?fd ?ws ?wf kw self] =>
        destruct (fit_or_search_fit name model params fd ws wf kw self Hp)
          as [[e ->] | ->]
    end; simpl.
    + left. reflexivity.
    + right. left. reflexivity.
Qed.

Lemma train_on_structured_dataset_witness :
  trace (train Fixtures.world Fixtures.test_set (Some Fixtures.y3) None None None
           Fixtures.train_splits ∅ Fixtures.one_model)
  = [CallFit "lr"
       (FitDataset Fixtures.test_hf Fixtures.features Fixtures.target None
          Fixtures.train_splits) ∅].
Proof.
  destruct (proj2 (train_on_structured_dataset Fixtures.world Fixtures.test_hf
                     (Some Fixtures.y3) None None None Fixtures.train_splits ∅
                     Fixtures.one_model) "lr" (Fixtures.handle true) eq_refl)
    as [H | [H | [searched [metric [method H]]]]].
  - discriminate H.
  - exact H.
  - discriminate H.
Defined.

(** When [transform] raises anything but [NotFittedError], nothing is
    caught. *)
Lemma apply_transforms_other_error pipeline before X self e :
  transform pipeline X = Raise e ->
  (forall m, e <> NotFittedError m) ->
  apply_transforms (Some pipeline) before X self
  = Outcome (Raise e) self [CallTransform X].
Proof.
  intros H Hne. unfold apply_transforms, except_NotFittedError, call.
  rewrite H. destruct e; try reflexivity. destruct (Hne m). reflexivity.
Qed.

(** X14: only [NotFittedError] is recovered from.  When [transform]
    raises any other exception on a raw source, [train] and [predict] raise
    it on: [fit_transform] is not tried, no warning is logged, the handle is
    not called and the task object is unchanged. *)
Theorem transform_failure_propagates W t pipeline X e :
  to_numpy W t = Ok X ->
  transform pipeline X = Raise e ->
  (forall m, e <> NotFittedError m) ->
  (forall ty model_name params splits kw self r,
     returned (get_model model_name self) = Ok r ->
     train W (Tabular t) (Some ty) model_name (Some pipeline) params splits kw self
     = Outcome (Raise e) self [CallToNumpy t; CallTransform X]) /\
  (forall model_name proba splits kw self name model,
     returned (get_model model_name self) = Ok (name, model) ->
     str_in name (fitted_names self) = true ->
     predict W (Tabular t) model_name (Some pipeline) proba splits kw self
     = Outcome (Raise e) self [CallToNumpy t; CallTransform X]).
Proof.
  intros HX He Hne. split.
  - intros ty model_name params splits kw self [name model] Hget.
    rewrite (train_resolved _ _ _ _ _ _ _ _ _ _ _ Hget).
    unfold train_on. rewrite bind_get_self, HX, bind_call_Ok.
    rewrite (bind_Raise _ _ _ _ _ _
               (apply_transforms_other_error pipeline _ X self e He Hne)).
    reflexivity.
  - intros model_name proba splits kw self name model Hget Hfit.
    rewrite (predict_fitted _ _ _ _ _ _ _ _ _ _ Hget Hfit).
    unfold predict_on. rewrite bind_get_self, HX, bind_call_Ok.
    rewrite (bind_Raise _ _ _ _ _ _
               (apply_transforms_other_error pipeline _ X self e He Hne)).
    reflexivity.
Qed.

Lemma transform_failure_propagates_witness :
  train Fixtures.world (Tabular Fixtures.X3) (Some Fixtures.y3) None
    (Some Fixtures.broken_pipeline) None Fixtures.train_splits ∅
    Fixtures.one_model
  = Outcome (Raise (ValueError (Text "could not convert string to float")))
      Fixtures.one_model
      [CallToNumpy Fixtures.X3; CallTransform (Arr2 [[1; 0]; [0; 1]; [1; 1]]%Z)].
Proof.
  apply (proj1 (transform_failure_propagates Fixtures.world Fixtures.X3
                  Fixtures.broken_pipeline (Arr2 [[1; 0]; [0; 1]; [1; 1]]%Z)
                  (ValueError (Text "could not convert string to float"))
                  eq_refl eq_refl (fun m H => ltac:(discriminate H)))
           Fixtures.y3 None None Fixtures.train_splits ∅ Fixtures.one_model
           ("lr", Fixtures.handle true)).
  reflexivity.
Defined.

(** X15: [train] on raw arrays without a search space, when the
    conversions and the optional transform go through and the lengths
    agree.  The handle is fitted once, on the transformed features and the
    converted labels, with the caller's keyword arguments; if [fit] raises,
    the exception is raised on and the name is not recorded as trained. *)
Theorem train_on_raw_arrays_fits W t ty model_name transforms params splits kw
    self name model X Xt y :
  returned (get_model model_name self) = Ok (name, model) ->
  to_numpy W t = Ok X ->
  returned (apply_transforms transforms (ret tt) X self) = Ok Xt ->
  to_numpy W ty = Ok y ->
  len Xt = len y ->
  params = None \/ params = Some ∅ ->
  let events :=
    CallToNumpy t :: trace (apply_transforms transforms (ret tt) X self)
    ++ [CallToNumpy ty; CallFit name (FitArrays Xt y) kw] in
  train W (Tabular t) (Some ty) model_name transforms params splits kw self
  = match fit model (FitArrays Xt y) kw with
    | Ok _ =>
        Outcome (Ok model) (with_trained self (trained_models self ++ [name]))
          events
    | Raise e => Outcome (Raise e) self events
    end.
Proof.
  intros Hget HX HXt Hy Hlen Hparams. cbv zeta.
  rewrite (train_resolved _ _ _ _ _ _ _ _ _ _ _ Hget).
  pose proof (apply_transforms_outcome transforms (ret tt) X self
                (keeps_self_ret tt)) as Hout.
  rewrite HXt in Hout.
  rewrite (train_on_raw _ _ _ _ _ _ _ _ _ _ _ _ _ _ HX Hout Hy).
  apply Nat.eqb_eq in Hlen. rewrite Hlen.
  assert (Hp : opt_dict_truthy params = false)
    by (destruct Hparams as [-> | ->]; reflexivity).
  unfold fit_or_search. rewrite Hp.
  unfold check_keywords. simpl.
  destruct (fit model (FitArrays Xt y) kw) as [u | e]; simpl;
    rewrite <- app_assoc; reflexivity.
Qed.

Lemma train_on_raw_arrays_fits_witness :
  train Fixtures.world (Tabular Fixtures.X3) (Some Fixtures.y3) None None
    (Some ∅) Fixtures.train_splits ∅ Fixtures.one_model
  = Outcome (Ok (Fixtures.handle true)) (with_trained Fixtures.one_model ["lr"])
      [CallToNumpy Fixtures.X3; CallToNumpy Fixtures.y3;
       CallFit "lr" (FitArrays (Arr2 [[1; 0]; [0; 1]; [1; 1]]%Z)
                       (Arr1 [0; 1; 1]%Z)) ∅].
Proof.
  apply (train_on_raw_arrays_fits Fixtures.world Fixtures.X3 Fixtures.y3 None None
           (Some ∅) Fixtures.train_splits ∅ Fixtures.one_model "lr"
           (Fixtures.handle true) (Arr2 [[1; 0]; [0; 1]; [1; 1]]%Z)
           (Arr2 [[1; 0]; [0; 1]; [1; 1]]%Z) (Arr1 [0; 1; 1]%Z)
           eq_refl eq_refl eq_refl eq_refl eq_refl).
  right. reflexivity.
Defined.

(** ** Evaluating *)

Lemma comprehension_all_ok {A B} (ev : A -> event) (r : A -> result B) l ys self :
  Forall2 (fun x y => r x = Ok y) l ys ->
  comprehension (fun x => call (ev x) (r x)) l self
  = Outcome (Ok ys) self (map ev l).
Proof.
  intros H. induction H as [| x y l ys Hx Hl IH]; simpl; [reflexivity |].
  unfold bind at 1, call at 1. rewrite Hx. simpl.
  unfold bind at 1. rewrite IH. unfold ret. simpl.
  rewrite app_nil_r. reflexivity.
Qed.

Lemma comprehension_first_failure {A B} (ev : A -> event) (r : A -> result B)
    done ys x rest e self :
  Forall2 (fun x y => r x = Ok y) done ys ->
  r x = Raise e ->
  comprehension (fun x => call (ev x) (r x)) (done ++ x :: rest) self
  = Outcome (Raise e) self (map ev (done ++ [x])).
Proof.
  intros H Hx. induction H as [| x' y l ys' Hx' Hl IH]; simpl.
  - unfold bind at 1, call at 1. rewrite Hx. reflexivity.
  - unfold bind at 1, call at 1. rewrite Hx'. simpl.
    unfold bind at 1. rewrite IH. reflexivity.
Qed.

(** X16: how [evaluate] builds its metrics.  An empty list of names and
    a ready collection go through untouched, with no call.  A non-empty list
    of names is built in order, each metric created for the task type
    ["binary"] and with [num_labels] set to the number of task features, and
    the results are wrapped in one collection; the first name the factory
    refuses ends the call, and the names after it are not tried. *)
Theorem build_metrics_behaviour W self :
  (forall metrics,
     metrics = MetricNames [] \/ (exists c, metrics = Metrics c) ->
     build_metrics W metrics self = Outcome (Ok metrics) self []) /\
  (forall names built,
     names <> [] ->
     Forall2 (fun n m =>
                create_metric W n "binary" (length (task_features self)) = Ok m)
       names built ->
     build_metrics W (MetricNames names) self
     = Outcome
         (match new_MetricCollection W built with
          | Ok c => Ok (Metrics c)
          | Raise e => Raise e
          end)
         self
         (map (fun n => CallCreateMetric n "binary" (length (task_features self)))
            names
          ++ [CallMetricCollection built])) /\
  (forall done built n rest e,
     Forall2 (fun n m =>
                create_metric W n "binary" (length (task_features self)) = Ok m)
       done built ->
     create_metric W n "binary" (length (task_features self)) = Raise e ->
     build_metrics W (MetricNames (done ++ n :: rest)) self
     = Outcome (Raise e) self
         (map (fun n => CallCreateMetric n "binary" (length (task_features self)))
            (done ++ [n]))).
Proof.
  split; [| split].
  - intros metrics [-> | [c ->]]; reflexivity.
  - intros names built Hne Hall.
    unfold build_metrics. rewrite bind_get_self.
    destruct names as [| n names]; [contradiction |].
    unfold task_type.
    rewrite (bind_Ok _ _ _ _ _ _
               (comprehension_all_ok
                  (fun m => CallCreateMetric m "binary" (length (task_features self)))
                  (fun m => create_metric W m "binary" (length (task_features self)))
                  (n :: names) built self Hall)).
    unfold bind, call.
    destruct (new_MetricCollection W built) as [c | e]; simpl;
      rewrite ?app_nil_r; reflexivity.
  - intros done built n rest e Hall Hn.
    unfold build_metrics. rewrite bind_get_self.
    destruct (done ++ n :: rest) as [| n0 names] eqn:Hl;
      [destruct done; discriminate Hl |].
    rewrite <- Hl. unfold task_type.
    apply bind_Raise.
    apply (comprehension_first_failure
             (fun m => CallCreateMetric m "binary" (length (task_features self)))
             (fun m => create_metric W m "binary" (length (task_features self)))
             done built n rest e self Hall Hn).
Qed.

Lemma build_metrics_behaviour_witness :
  build_metrics Fixtures.world (MetricNames []) Fixtures.one_model
  = Outcome (Ok (MetricNames [])) Fixtures.one_model [] /\
  build_metrics Fixtures.world (MetricNames ["accuracy"; "auroc"])
    Fixtures.one_model
  = Outcome
      (Ok (Metrics
             {| collected :=
                  [{| metric_name := "accuracy"; metric_task := "binary";
                      metric_num_labels := 4 |};
                   {| metric_name := "auroc"; metric_task := "binary";
                      metric_num_labels := 4 |}] |}))
      Fixtures.one_model
      [CallCreateMetric "accuracy" "binary" 4; CallCreateMetric "auroc" "binary" 4;
       CallMetricCollection
         [{| metric_name := "accuracy"; metric_task := "binary";
             metric_num_labels := 4 |};
          {| metric_name := "auroc"; metric_task := "binary";
             metric_num_labels := 4 |}]].
Proof.
  destruct (build_metrics_behaviour Fixtures.world Fixtures.one_model)
    as [Hsame [Hbuilt _]].
  split.
  - apply Hsame. left. reflexivity.
  - apply (Hbuilt ["accuracy"; "auroc"]
             [{| metric_name := "accuracy"; metric_task := "binary";
                 metric_num_labels := 4 |};
              {| metric_name := "auroc"; metric_task := "binary";
                 metric_num_labels := 4 |}]).
    + discriminate.
    + repeat constructor.
Defined.




Lemma quiet_for_each {A B} p (body : B -> A -> M B) l acc :
  (forall acc' x, quiet p (body acc' x)) -> quiet p (for_each l acc body).
Proof.
  intros Hbody. revert acc.
  induction l as [| x l IH]; intros acc; simpl; auto with controller.
Qed.

Lemma quiet_build_metrics_calls p W metrics :
  (forall n task k, p (CallCreateMetric n task k) = false) ->
  (forall ms, p (CallMetricCollection ms) = false) ->
  quiet p (build_metrics W metrics).
Proof.
  intros Hc Hm. unfold build_metrics. apply quiet_bind; [auto with controller |].
  intros self. destruct metrics as [[| m names] | c]; auto with controller.
  apply quiet_bind.
  - apply quiet_comprehension. intros x. apply quiet_call. apply Hc.
  - intros built. apply quiet_bind; [| auto with controller].
    apply quiet_call. apply Hm.
Qed.

(** [evaluate] in three stages: the metrics, the loop over the names, the
    engine. *)
Lemma evaluate_stages W dataset metrics model_names transforms prefix splits
    slice_spec batch_size remove_columns self :
  evaluate W dataset metrics model_names transforms prefix splits slice_spec
    batch_size remove_columns self
  = match build_metrics W metrics self with
    | Outcome (Ok built) _ t1 =>
        match for_each (evaluated_names self model_names) dataset
                (evaluate_model W transforms prefix splits) self with
        | Outcome (Ok ds) _ t2 =>
            let args :=
              {| ea_dataset := ds;
                 ea_metrics := built;
                 ea_target_columns := task_target self;
                 ea_slice_spec := slice_spec;
                 ea_prediction_column_prefix := prefix;
                 ea_batch_size := batch_size;
                 ea_remove_columns := remove_columns |} in
            Outcome
              (match engine_evaluate W args with
               | Ok results => Ok (results, ds)
               | Raise e => Raise e
               end)
              self (t1 ++ t2 ++ [CallEvaluate args])
        | Outcome (Raise e) _ t2 => Outcome (Raise e) self (t1 ++ t2)
        end
    | Outcome (Raise e) _ t1 => Outcome (Raise e) self t1
    end.
Proof.
  unfold evaluate. unfold bind at 1.
  pose proof (keeps_self_build_metrics W metrics self) as Hself.
  destruct (build_metrics W metrics self) as [[built | e] self' t1];
    simpl in Hself; subst self'; [| reflexivity].
  rewrite bind_get_self. unfold bind at 1.
  pose proof (keeps_self_for_each (evaluate_model W transforms prefix splits)
                (evaluated_names self model_names) dataset
                (fun acc x => keeps_self_evaluate_model W transforms prefix splits
                                acc x) self) as Hself.
  destruct (for_each (evaluated_names self model_names) dataset
              (evaluate_model W transforms prefix splits) self)
    as [[ds | e] self' t2]; simpl in Hself; subst self'; [| reflexivity].
  rewrite bind_get_self. unfold bind, call. cbv zeta.
  destruct (engine_evaluate W _) as [results | e]; simpl;
    rewrite ?app_nil_r; reflexivity.
Qed.

(** X18: the evaluation engine is called at most once, as the last thing
    [evaluate] does, and only after every model has predicted.  When
    [evaluate] returns [(results, dataset)], the engine was called on that
    dataset (what the loop ended with), with the built metrics, the task's
    target columns and the caller's slice specification, prefix, batch size
    and columns to remove, and [results] is what it returned. *)
Theorem evaluate_calls_engine_last W dataset metrics model_names transforms prefix
    splits slice_spec batch_size remove_columns self :
  (exists pre,
     never is_engine_call pre /\
     (trace (evaluate W dataset metrics model_names transforms prefix splits
               slice_spec batch_size remove_columns self) = pre \/
      exists args,
        trace (evaluate W dataset metrics model_names transforms prefix splits
                 slice_spec batch_size remove_columns self)
        = pre ++ [CallEvaluate args])) /\
  (forall results ds,
     returned (evaluate W dataset metrics model_names transforms prefix splits
                 slice_spec batch_size remove_columns self) = Ok (results, ds) ->
     exists pre built,
       returned (build_metrics W metrics self) = Ok built /\
       returned (for_each (evaluated_names self model_names) dataset
                   (evaluate_model W transforms prefix splits) self) = Ok ds /\
       never is_engine_call pre /\
       trace (evaluate W dataset metrics model_names transforms prefix splits
                slice_spec batch_size remove_columns self)
       = pre ++ [CallEvaluate
                   {| ea_dataset := ds;
                      ea_metrics := built;
                      ea_target_columns := task_target self;
                      ea_slice_spec := slice_spec;
                      ea_prediction_column_prefix := prefix;
                      ea_batch_size := batch_size;
                      ea_remove_columns := remove_columns |}] /\
       engine_evaluate W
         {| ea_dataset := ds;
            ea_metrics := built;
            ea_target_columns := task_target self;
            ea_slice_spec := slice_spec;
            ea_prediction_column_prefix := prefix;
            ea_batch_size := batch_size;
            ea_remove_columns := remove_columns |}
       = Ok results).
Proof.
  rewrite evaluate_stages.
  pose proof (quiet_build_metrics W metrics self) as Hq1.
  pose proof (quiet_for_each is_engine_call
                (evaluate_model W transforms prefix splits)
                (evaluated_names self model_names) dataset
                (fun acc x => quiet_evaluate_model W transforms prefix splits acc x)
                self) as Hq2.
  destruct (build_metrics W metrics self) as [[built | e] self1 t1]; simpl in *.
  - destruct (for_each (evaluated_names self model_names) dataset
                (evaluate_model W transforms prefix splits) self)
      as [[ds | e] self2 t2]; simpl in *.
    + split.
      * exists (t1 ++ t2). split; [apply never_app; assumption |].
        right. eexists. rewrite app_assoc. reflexivity.
      * intros results ds' H.
        destruct (engine_evaluate W _) as [r | e] eqn:Hengine;
          [| discriminate H].
        injection H as <- <-.
        exists (t1 ++ t2), built.
        split; [reflexivity |]. split; [reflexivity |].
        split; [apply never_app; assumption |].
        split; [rewrite app_assoc; reflexivity | exact Hengine].
    + split.
      * exists (t1 ++ t2). split; [apply never_app; assumption | auto].
      * intros results ds H. discriminate H.
  - split.
    + exists t1. auto.
    + intros results ds H. discriminate H.
Qed.

Lemma evaluate_calls_engine_last_witness :
  exists pre built,
    returned (build_metrics Fixtures.world (MetricNames ["accuracy"])
                Fixtures.two_trained) = Ok built /\
    returned (for_each (evaluated_names Fixtures.two_trained None)
                Fixtures.test_set
                (evaluate_model Fixtures.world None "predictions"
                   Fixtures.test_splits) Fixtures.two_trained)
    = Ok Fixtures.test_set /\
    never is_engine_call pre /\
    trace (evaluate Fixtures.world Fixtures.test_set (MetricNames ["accuracy"])
             None None "predictions" Fixtures.test_splits None 1000%Z None
             Fixtures.two_trained)
    = pre ++ [CallEvaluate
                {| ea_dataset := Fixtures.test_set;
                   ea_metrics := built;
                   ea_target_columns := task_target Fixtures.two_trained;
                   ea_slice_spec := None;
                   ea_prediction_column_prefix := "predictions";
                   ea_batch_size := 1000%Z;
                   ea_remove_columns := None |}] /\
    engine_evaluate Fixtures.world
      {| ea_dataset := Fixtures.test_set;
         ea_metrics := built;
         ea_target_columns := task_target Fixtures.two_trained;
         ea_slice_spec := None;
         ea_prediction_column_prefix := "predictions";
         ea_batch_size := 1000%Z;
         ea_remove_columns := None |}
    = Ok ∅.
Proof.
  apply (proj2 (evaluate_calls_engine_last Fixtures.world Fixtures.test_set
                  (MetricNames ["accuracy"]) None None "predictions"
                  Fixtures.test_splits None 1000%Z None Fixtures.two_trained)
           ∅ Fixtures.test_set).
  reflexivity.
Defined.

(** X19: with nothing trained or loaded and no names given ([None] or an
    empty list), the loop of [evaluate] has nothing to do: no prediction is
    asked for, and the engine gets the dataset exactly as [evaluate]
    received it. *)
Theorem evaluate_without_fitted_models W dataset metrics model_names transforms
    prefix splits slice_spec batch_size remove_columns self built :
  fitted_names self = [] ->
  model_names = None \/ model_names = Some (StrList []) ->
  returned (build_metrics W metrics self) = Ok built ->
  let args :=
    {| ea_dataset := dataset;
       ea_metrics := built;
       ea_target_columns := task_target self;
       ea_slice_spec := slice_spec;
       ea_prediction_column_prefix := prefix;
       ea_batch_size := batch_size;
       ea_remove_columns := remove_columns |} in
  evaluate W dataset metrics model_names transforms prefix splits slice_spec
    batch_size remove_columns self
  = Outcome
      (match engine_evaluate W args with
       | Ok results => Ok (results, dataset)
       | Raise e => Raise e
       end)
      self (trace (build_metrics W metrics self) ++ [CallEvaluate args]).
Proof.
  intros Hfit Hnames Hbuilt. cbv zeta. rewrite evaluate_stages.
  assert (Hnone : evaluated_names self model_names = [])
    by (destruct Hnames as [-> | ->]; exact Hfit).
  rewrite Hnone. simpl.
  destruct (build_metrics W metrics self) as [[built' | e] self1 t1];
    simpl in *; [| discriminate Hbuilt].
  injection Hbuilt as ->. reflexivity.
Qed.

Lemma evaluate_without_fitted_models_witness :
  evaluate Fixtures.world Fixtures.test_set (MetricNames []) (Some (StrList []))
    None "predictions" Fixtures.test_splits None 1000%Z None Fixtures.one_model
  = Outcome (Ok (∅, Fixtures.test_set)) Fixtures.one_model
      [CallEvaluate
         {| ea_dataset := Fixtures.test_set;
            ea_metrics := MetricNames [];
            ea_target_columns := Fixtures.target;
            ea_slice_spec := None;
            ea_prediction_column_prefix := "predictions";
            ea_batch_size := 1000%Z;
            ea_remove_columns := None |}].
Proof.
  apply (evaluate_without_fitted_models Fixtures.world Fixtures.test_set
           (MetricNames []) (Some (StrList [])) None "predictions"
           Fixtures.test_splits None 1000%Z None Fixtures.one_model
           (MetricNames []) eq_refl (or_intror eq_refl) eq_refl).
Defined.

(** X20: [evaluate] logs its not-fitted warning only for names that are
    not in the fit-state lists.  When every name it loops over is trained or
    loaded, as is always the case for the default (no names given), that
    warning is never logged. *)
Theorem evaluate_fitted_names_no_warning W dataset metrics model_names transforms
    prefix splits slice_spec batch_size remove_columns self :
  (forall n,
     In n (evaluated_names self model_names) -> In n (fitted_names self)) ->
  is_not_fitted_warning (Log WARNING (msg_not_fitted 20)) = true /\
  never is_not_fitted_warning
    (trace (evaluate W dataset metrics model_names transforms prefix splits
              slice_spec batch_size remove_columns self)).
Proof.
  intros Hall. split; [reflexivity |].
  assert (Hloop : forall names ds,
             (forall n, In n names -> In n (fitted_names self)) ->
             never is_not_fitted_warning
               (trace (for_each names ds
                         (evaluate_model W transforms prefix splits) self))).
  { induction names as [| n names IH]; intros ds Hnames; [reflexivity |].
    simpl. unfold bind.
    pose proof (keeps_self_evaluate_model W transforms prefix splits ds n self)
      as Hself.
    assert (Hbody : never is_not_fitted_warning
                      (trace (evaluate_model W transforms prefix splits ds n self))).
    { unfold evaluate_model. rewrite bind_get_self.
      assert (Hfit : str_in n (fitted_names self) = true)
        by (apply str_in_In, Hnames; left; reflexivity).
      rewrite Hfit. simpl. rewrite bind_ret.
      apply quiet_predict_cases; try reflexivity.
      intros name model d _. destruct (is_SKModel model); reflexivity. }
    destruct (evaluate_model W transforms prefix splits ds n self)
      as [[ds' | e] self' t]; simpl in *; subst; [| exact Hbody].
    rewrite trace_after. apply never_app; [exact Hbody |].
    apply IH. intros n' Hn'. apply Hnames. right. exact Hn'. }
  rewrite evaluate_stages.
  pose proof (quiet_build_metrics_calls is_not_fitted_warning W metrics
                (fun _ _ _ => eq_refl) (fun _ => eq_refl) self) as Hq1.
  specialize (Hloop (evaluated_names self model_names) dataset Hall).
  destruct (build_metrics W metrics self) as [[built | e] self1 t1]; simpl in *;
    [| exact Hq1].
  destruct (for_each (evaluated_names self model_names) dataset
              (evaluate_model W transforms prefix splits) self)
    as [[ds | e] self2 t2]; simpl in *.
  - apply never_app; [exact Hq1 |]. apply never_app; [exact Hloop | reflexivity].
  - apply never_app; assumption.
Qed.

Lemma evaluate_fitted_names_no_warning_witness :
  never is_not_fitted_warning
    (trace (evaluate Fixtures.world Fixtures.test_set (MetricNames ["accuracy"])
              None None "predictions" Fixtures.test_splits None 1000%Z None
              Fixtures.two_trained)).
Proof.
  apply (evaluate_fitted_names_no_warning Fixtures.world Fixtures.test_set
           (MetricNames ["accuracy"]) None None "predictions"
           Fixtures.test_splits None 1000%Z None Fixtures.two_trained).
  intros n Hn. exact Hn.
Defined.

(** X21: the fit-state lists are lists, not sets.  When a model is first
    loaded and then trained, its name is recorded in both lists, so the
    names [evaluate] loops over by default ([pretrained_models +
    trained_models]) hold it twice and the model predicts twice. *)
Theorem load_then_train_is_listed_twice W filepath kw X y model_name transforms
    params splits kw' self model model' :
  returned (load_pretrained_model filepath model_name kw self) = Ok model ->
  returned (train W X y model_name transforms params splits kw'
              (self_after (load_pretrained_model filepath model_name kw self)))
  = Ok model' ->
  exists name,
    model' = model /\
    evaluated_names
      (self_after
         (train W X y model_name transforms params splits kw'
            (self_after (load_pretrained_model filepath model_name kw self))))
      None
    = (pretrained_models self ++ [name]) ++ (trained_models self ++ [name]).
Proof.
  intros Hload Htrain.
  destruct (returned (get_model model_name self)) as [[name m] | e] eqn:Hget.
  - rewrite (load_pretrained_model_resolved _ _ _ _ _ _ Hget) in *.
    destruct (load_model m filepath kw) as [u | e]; simpl in *;
      [| discriminate Hload].
    injection Hload as ->.
    destruct (proj2 (train_changes_only_trained_models_aux W X y model_name
                       transforms params splits kw'
                       (with_pretrained self (pretrained_models self ++ [name])))
                model' Htrain) as [name' [Hget' ->]].
    rewrite (get_model_same_models model_name self
               (with_pretrained self (pretrained_models self ++ [name])) eq_refl)
      in Hget'.
    rewrite Hget in Hget'. injection Hget' as <- <-.
    exists name. split; reflexivity.
  - unfold load_pretrained_model in Hload.
    rewrite (bind_get_model_Raise _ _ _ _ Hget) in Hload. discriminate Hload.
Qed.

Lemma load_then_train_is_listed_twice_witness :
  exists name,
    Fixtures.handle true = Fixtures.handle true /\
    evaluated_names
      (self_after
         (train Fixtures.world (Tabular Fixtures.X3) (Some Fixtures.y3) None None
            None Fixtures.train_splits ∅
            (self_after (load_pretrained_model "lr.pkl" None ∅ Fixtures.one_model))))
      None
    = (pretrained_models Fixtures.one_model ++ [name])
      ++ (trained_models Fixtures.one_model ++ [name]).
Proof.
  apply (load_then_train_is_listed_twice Fixtures.world "lr.pkl" ∅
           (Tabular Fixtures.X3) (Some Fixtures.y3) None None None
           Fixtures.train_splits ∅ Fixtures.one_model (Fixtures.handle true)
           (Fixtures.handle true) eq_refl eq_refl).
Defined.
